(** * The upload-to-artifact pipeline of [index.js]

    A shallow embedding of the [POST /compress] handler: the extension
    dispatch, the four transform branches, the response and the cleanup
    of the uploaded source and of the derived artifact.

    Strings are [string]s whose characters are read as code units in the
    range 0..255; the file system is a finite map from paths to contents;
    the handler is a computation in a state-and-exception monad over that
    file system, the console and the list of calls made to the outside,
    in which a computation can also end with the process, on an error
    event that has no listener. *)

From Stdlib Require Import ZArith Ascii String List Bool Lia.
From stdpp Require Import gmap strings list fin_maps.

Local Open Scope string_scope.
Local Open Scope Z_scope.

(** ** Strings as JavaScript uses them *)

Module Js.

(** [String.prototype.toLowerCase], on code units 0..255: the letters
    A..Z and the Latin-1 capitals U+00C0..U+00DE (U+00D7 excepted) move
    up by 32, every other code unit stays. *)
Definition lower_char (c : ascii) : ascii :=
  let n := N.to_nat (N_of_ascii c) in
  if ((65 <=? n)%nat && (n <=? 90)%nat)
     || ((192 <=? n)%nat && (n <=? 222)%nat && negb (n =? 215)%nat)
  then ascii_of_nat (n + 32) else c.

Fixpoint toLowerCase (s : string) : string :=
  match s with
  | EmptyString => EmptyString
  | String c r => String (lower_char c) (toLowerCase r)
  end.

(** [Array.prototype.includes] on an array of strings. *)
Definition includes (l : list string) (x : string) : bool :=
  existsb (String.eqb x) l.

(** [String.prototype.startsWith]. *)
Definition startsWith (s p : string) : bool := String.prefix p s.

(** [String.prototype.slice] for indices [0 <= from], as the path
    functions call it. *)
Definition slice (s : string) (from to : Z) : string :=
  substring (Z.to_nat from) (Z.to_nat (to - from)) s.

(** Whether [p] occurs somewhere in [s]. *)
Fixpoint contains (s p : string) : bool :=
  String.prefix p s ||
  match s with
  | EmptyString => false
  | String _ r => contains r p
  end.

End Js.

(** ** Node's [path] module (POSIX flavour) *)

Module Path.

Definition CHAR_FORWARD_SLASH : ascii := "/"%char.
Definition CHAR_DOT : ascii := "."%char.

(** The characters of [s] from the last to the first, which is the
    order in which [extname] and [basename] scan a path. *)
Definition backwards (s : string) : list ascii := rev (list_ascii_of_string s).

Definition strlen (s : string) : Z := Z.of_nat (String.length s).

Record ExtState := {
  startDot : Z;
  startPart : Z;
  ext_end : Z;
  ext_matchedSlash : bool;
  preDotState : Z
}.

(** The loop of [path.extname]: [i] runs from [path.length - 1] down to
    0; a path separator found after the last component has been entered
    ends the loop. *)
Fixpoint extname_loop (cs : list ascii) (i : Z) (st : ExtState) : ExtState :=
  match cs with
  | [] => st
  | code :: rest =>
    if Ascii.eqb code CHAR_FORWARD_SLASH then
      if negb (ext_matchedSlash st) then
        {| startDot := startDot st; startPart := i + 1; ext_end := ext_end st;
           ext_matchedSlash := ext_matchedSlash st; preDotState := preDotState st |}
      else extname_loop rest (i - 1) st
    else
      let st1 :=
        if ext_end st =? -1 then
          {| startDot := startDot st; startPart := startPart st; ext_end := i + 1;
             ext_matchedSlash := false; preDotState := preDotState st |}
        else st in
      let st2 :=
        if Ascii.eqb code CHAR_DOT then
          if startDot st1 =? -1 then
            {| startDot := i; startPart := startPart st1; ext_end := ext_end st1;
               ext_matchedSlash := ext_matchedSlash st1; preDotState := preDotState st1 |}
          else if negb (preDotState st1 =? 1) then
            {| startDot := startDot st1; startPart := startPart st1; ext_end := ext_end st1;
               ext_matchedSlash := ext_matchedSlash st1; preDotState := 1 |}
          else st1
        else if negb (startDot st1 =? -1) then
          {| startDot := startDot st1; startPart := startPart st1; ext_end := ext_end st1;
             ext_matchedSlash := ext_matchedSlash st1; preDotState := -1 |}
        else st1 in
      extname_loop rest (i - 1) st2
  end.

(** [path.extname(path)]. *)
Definition extname (path : string) : string :=
  let st := extname_loop (backwards path) (strlen path - 1)
              {| startDot := -1; startPart := 0; ext_end := -1;
                 ext_matchedSlash := true; preDotState := 0 |} in
  if (startDot st =? -1) || (ext_end st =? -1) || (preDotState st =? 0)
     || ((preDotState st =? 1) && (startDot st =? ext_end st - 1)
         && (startDot st =? startPart st + 1))
  then EmptyString
  else Js.slice path (startDot st) (ext_end st).

Record BaseState := {
  base_start : Z;
  base_end : Z;
  base_matchedSlash : bool;
  extIdx : Z;
  firstNonSlashEnd : Z
}.

(** The character of [s] at index [i]. *)
Definition charAt (s : string) (i : Z) : option ascii :=
  if i <? 0 then None else String.get (Z.to_nat i) s.

(** The loop of [path.basename(path, suffix)] when a suffix is given. *)
Fixpoint basename_suffix_loop (suffix : string) (cs : list ascii) (i : Z)
    (st : BaseState) : BaseState :=
  match cs with
  | [] => st
  | code :: rest =>
    if Ascii.eqb code CHAR_FORWARD_SLASH then
      if negb (base_matchedSlash st) then
        {| base_start := i + 1; base_end := base_end st;
           base_matchedSlash := base_matchedSlash st; extIdx := extIdx st;
           firstNonSlashEnd := firstNonSlashEnd st |}
      else basename_suffix_loop suffix rest (i - 1) st
    else
      let st1 :=
        if firstNonSlashEnd st =? -1 then
          {| base_start := base_start st; base_end := base_end st;
             base_matchedSlash := false; extIdx := extIdx st;
             firstNonSlashEnd := i + 1 |}
        else st in
      let st2 :=
        if 0 <=? extIdx st1 then
          if bool_decide (Some code = charAt suffix (extIdx st1)) then
            {| base_start := base_start st1;
               base_end := if extIdx st1 - 1 =? -1 then i else base_end st1;
               base_matchedSlash := base_matchedSlash st1;
               extIdx := extIdx st1 - 1;
               firstNonSlashEnd := firstNonSlashEnd st1 |}
          else
            {| base_start := base_start st1; base_end := firstNonSlashEnd st1;
               base_matchedSlash := base_matchedSlash st1; extIdx := -1;
               firstNonSlashEnd := firstNonSlashEnd st1 |}
        else st1 in
      basename_suffix_loop suffix rest (i - 1) st2
  end.

(** The loop of [path.basename] without a usable suffix. *)
Fixpoint basename_plain_loop (cs : list ascii) (i : Z) (st : BaseState) : BaseState :=
  match cs with
  | [] => st
  | code :: rest =>
    if Ascii.eqb code CHAR_FORWARD_SLASH then
      if negb (base_matchedSlash st) then
        {| base_start := i + 1; base_end := base_end st;
           base_matchedSlash := base_matchedSlash st; extIdx := extIdx st;
           firstNonSlashEnd := firstNonSlashEnd st |}
      else basename_plain_loop rest (i - 1) st
    else if base_end st =? -1 then
      basename_plain_loop rest (i - 1)
        {| base_start := base_start st; base_end := i + 1;
           base_matchedSlash := false; extIdx := extIdx st;
           firstNonSlashEnd := firstNonSlashEnd st |}
    else basename_plain_loop rest (i - 1) st
  end.

(** [path.basename(path, suffix)]. *)
Definition basename (path suffix : string) : string :=
  let init := {| base_start := 0; base_end := -1; base_matchedSlash := true;
                 extIdx := strlen suffix - 1; firstNonSlashEnd := -1 |} in
  if (0 <? strlen suffix) && (strlen suffix <=? strlen path) then
    if String.eqb suffix path then EmptyString
    else
      let st := basename_suffix_loop suffix (backwards path) (strlen path - 1) init in
      let e :=
        if base_start st =? base_end st then firstNonSlashEnd st
        else if base_end st =? -1 then strlen path
        else base_end st in
      Js.slice path (base_start st) e
  else
    let st := basename_plain_loop (backwards path) (strlen path - 1) init in
    if base_end st =? -1 then EmptyString else Js.slice path (base_start st) (base_end st).

(** [path.join(dir, name)] for a normalized [dir] without a trailing
    separator and a [name] that is one non-empty path component other
    than [.] and [..]: the upload middleware hands over the last
    component of the client's file name, and the handler only joins names
    that carry a suffix or the [compressed-] prefix. *)
Definition join (dir name : string) : string := dir +:+ "/" +:+ name.

End Path.

(** ** The extension table and the dispatch on it *)

Module SupportedTypes.
Definition text : list string := [".txt"; ".log"; ".json"].
Definition image : list string := [".jpg"; ".jpeg"; ".png"; ".webp"].
Definition pdf : list string := [".pdf"].
Definition word : list string := [".doc"; ".docx"].
Definition other : list string := [".zip"; ".gz"; ".rar"; ".7z"].
(** [Object.values(supportedTypes).flat()]. *)
Definition values_flat : list string := concat [text; image; pdf; word; other].
End SupportedTypes.

Definition isSupported (fileExt : string) : bool :=
  Js.includes SupportedTypes.values_flat fileExt.

(** [fileExt] of an upload, from its original name. *)
Definition fileExt_of (originalname : string) : string :=
  Js.toLowerCase (Path.extname originalname).

(** [fileName] of an upload: the original name with [fileExt] taken off
    its end, when it ends with it. *)
Definition fileName_of (originalname : string) : string :=
  Path.basename originalname (fileExt_of originalname).

Inductive FileCategory := Text | Image | PDF | Document | Archive | Unsupported.

Global Instance FileCategory_eq_dec : EqDecision FileCategory.
Proof. solve_decision. Defined.

(** The category the handler treats an extension as: the rejection by
    [isSupported], then the key of [supportedTypes] whose test succeeds
    first in the chain of [if]s. The branch for [word] and [other] is one
    branch; the key that matched tells the two categories apart. *)
Definition category (fileExt : string) : FileCategory :=
  if negb (isSupported fileExt) then Unsupported
  else if Js.includes SupportedTypes.text fileExt then Text
  else if Js.includes SupportedTypes.image fileExt then Image
  else if Js.includes SupportedTypes.pdf fileExt then PDF
  else if Js.includes SupportedTypes.word fileExt
          || Js.includes SupportedTypes.other fileExt then
    if Js.includes SupportedTypes.word fileExt then Document else Archive
  else Unsupported.

(** The classifier as the specification words it: a lookup of the
    extension in a fixed table, [Unsupported] when it is not there. *)
Definition extension_table : list (string * FileCategory) :=
  [ (".txt", Text); (".log", Text); (".json", Text);
    (".jpg", Image); (".jpeg", Image); (".png", Image); (".webp", Image);
    (".pdf", PDF);
    (".doc", Document); (".docx", Document);
    (".zip", Archive); (".gz", Archive); (".rar", Archive); (".7z", Archive) ].

Fixpoint table_lookup (t : list (string * FileCategory)) (e : string) : option FileCategory :=
  match t with
  | [] => None
  | (k, c) :: r => if String.eqb k e then Some c else table_lookup r e
  end.

Definition classify (extension : string) : FileCategory :=
  match table_lookup extension_table extension with
  | Some c => c
  | None => Unsupported
  end.

(** ** The outside world of the handler *)

(** Error codes of file-system failures ([err.code]). *)
Inductive ErrCode := ENOENT | EACCES | EPERM | EBUSY | EISDIR | ENOSPC | EIO.

Global Instance ErrCode_eq_dec : EqDecision ErrCode.
Proof. solve_decision. Defined.

(** A JavaScript [Error]: its [code] (absent unless the error comes
    from the file system) and its [message]. *)
Record JsError := { err_code : option ErrCode; err_message : string }.

Definition errno_name (c : ErrCode) : string :=
  match c with
  | ENOENT => "ENOENT" | EACCES => "EACCES" | EPERM => "EPERM" | EBUSY => "EBUSY"
  | EISDIR => "EISDIR" | ENOSPC => "ENOSPC" | EIO => "EIO"
  end.

Definition errno_text (c : ErrCode) : string :=
  match c with
  | ENOENT => "no such file or directory"
  | EACCES => "permission denied"
  | EPERM => "operation not permitted"
  | EBUSY => "resource busy or locked"
  | EISDIR => "illegal operation on a directory"
  | ENOSPC => "no space left on device"
  | EIO => "i/o error"
  end.

(** The error Node raises for a failed file-system call: its message is
    [CODE: text, syscall 'path'], the path being left out for calls on
    an open descriptor. *)
Definition fs_error (c : ErrCode) (syscall : string) (p : option string) : JsError :=
  {| err_code := Some c;
     err_message :=
       errno_name c +:+ ": " +:+ errno_text c +:+ ", " +:+ syscall +:+
       match p with Some q => " '" +:+ q +:+ "'" | None => EmptyString end |}.

Definition type_error (msg : string) : JsError :=
  {| err_code := None; err_message := msg |}.

(** The encoders of the image branch. *)
Inductive ImageFormat := Jpeg | Png | Webp.

(** Calls the handler makes to the file system, to the transform
    libraries and to the response, in the order they are made. *)
Inductive Call :=
| CUnlink (p : string)
| CReadFile (p : string)
| CWriteFile (p : string)
| CGzip (src dst : string)
| CSharp (fmt : ImageFormat) (src dst : string)
| CPdfRewrite
| CZip (src entry dst : string)
| CDownload (p name : string).

Global Instance ImageFormat_eq_dec : EqDecision ImageFormat.
Proof. solve_decision. Defined.
Global Instance Call_eq_dec : EqDecision Call.
Proof. solve_decision. Defined.

(** The state a request runs in: the files of the disk, what was
    written with [console.error], and the calls made so far. *)
Record World := {
  files : gmap string string;
  console : list (string * JsError);
  calls : list Call
}.

(** How a write can fail: when the file is opened (nothing is written),
    or after [written] bytes. *)
Inductive WriteFault :=
| OpenFails (c : ErrCode)
| WriteFails (c : ErrCode) (written : nat).

(** What a transform that writes its own output file ends with. The
    promise the handler awaits resolves on the finished output
    ([Produced]) or rejects with an error ([Failed]), possibly with a
    partial output left at the destination. Or a stream of the pipeline
    emits an error that nobody listens to ([Unhandled]): the text branch
    listens on its write stream only, so an error of its read stream or
    of gzip is of this kind, and so is, in the zip branch, an error of
    the archiver or of the output before the listener is attached; Node
    then ends the process, and the handler goes no further. *)
Inductive Outcome :=
| Produced (out : string)
| Failed (partial : option string) (err : JsError)
| Unhandled (partial : option string) (err : JsError).

(** What the handler does not decide: where the program is installed,
    which file-system calls fail, what the transform libraries make of a
    source, and whether a transfer to the client, once begun, goes
    through. Whether a transfer is begun at all is decided by the name
    of the artifact, which is the handler's. *)
Record Env := {
  dirname : string;
  unlink_fault : string -> option ErrCode;
  read_fault : string -> option ErrCode;
  write_fault : string -> option WriteFault;
  gzip_stream : string -> string -> option string -> Outcome;
  sharp_toFile : ImageFormat -> string -> string -> option string -> Outcome;
  pdf_load_save : string -> JsError + string;
  archiver_zip : string -> string -> string -> option string -> Outcome;
  transfer_fault : string -> option JsError
}.

(** ** Computations that change the world and may throw *)

(** A computation returns, throws an error that a [catch] can take, or
    ends with the process ([Dies]): an error event without a listener,
    which no [catch] of the handler sees. *)
Inductive Res (A : Type) :=
| Ret (a : A)
| Throw (e : JsError)
| Dies (e : JsError).
Arguments Ret {A} a.
Arguments Throw {A} e.
Arguments Dies {A} e.

Definition M (A : Type) : Type := World -> Res A * World.

Definition ret {A} (a : A) : M A := fun w => (Ret a, w).

Definition throw {A} (e : JsError) : M A := fun w => (Throw e, w).

Definition bind {A B} (m : M A) (k : A -> M B) : M B :=
  fun w =>
    match m w with
    | (Ret a, w1) => k a w1
    | (Throw e, w1) => (Throw e, w1)
    | (Dies e, w1) => (Dies e, w1)
    end.

(** [try { m } catch (e) { h e }]. *)
Definition try_catch {A} (m : M A) (h : JsError -> M A) : M A :=
  fun w =>
    match m w with
    | (Ret a, w1) => (Ret a, w1)
    | (Throw e, w1) => h e w1
    | (Dies e, w1) => (Dies e, w1)
    end.

Notation "'await' x <- m ; k" := (bind m (fun x => k))
  (at level 10, x name, m at level 100, k at level 200, only parsing).
Notation "'await_' m ; k" := (bind m (fun _ => k))
  (at level 10, m at level 100, k at level 200, only parsing).

(** The world with one more call on record. *)
Definition called (c : Call) (w : World) : World :=
  {| files := files w; console := console w; calls := calls w ++ [c] |}.

Definition call (c : Call) : M unit := fun w => (Ret tt, called c w).

(** The world with one more line on the console. *)
Definition logged (text : string) (e : JsError) (w : World) : World :=
  {| files := files w; console := console w ++ [(text, e)]; calls := calls w |}.

Definition console_error (text : string) (e : JsError) : M unit :=
  fun w => (Ret tt, logged text e w).

Definition set_file (p data : string) (w : World) : World :=
  {| files := <[p := data]> (files w); console := console w; calls := calls w |}.

Definition remove_file (p : string) (w : World) : World :=
  {| files := delete p (files w); console := console w; calls := calls w |}.

(** The first [n] characters of [s]. *)
Definition first_bytes (n : nat) (s : string) : string := substring 0 n s.

(** ** The request and the response *)

(** [req.file] as the upload middleware leaves it: where it stored the
    upload, the name the client gave, and the size in bytes. *)
Record UploadedFile := {
  path : string;
  originalname : string;
  size : Z
}.

(** A request: [req.file] is absent when no file came with it. *)
Record Request := { file : option UploadedFile }.

(** What the caller gets: a JSON error body with its status, the
    artifact as an attachment (status 200), or no complete response
    ([Unfinished]): the transfer broke off or was refused, Express handed
    the error to the callback, and the callback answers nothing. *)
Inductive Response :=
| Json (status : Z) (error : string) (details : option string)
| Download (filename : string) (body : string)
| Unfinished.

(** Where the handler stands when its own code has run: it has answered,
    or it has handed the artifact to [res.download]. *)
Inductive Step :=
| Responded (r : Response)
| Downloading (compressedFilePath : string) (name : string).

(** [res.download] sends with the default options of Express, under
    which a file whose name begins with a dot is not served. The artifact
    lies directly in the upload directory (the names of uploads are one
    path component), so its name is what follows the directory in its
    path. *)
Definition refused_as_dotfile (env : Env) (compressedFilePath : string) : bool :=
  Js.startsWith compressedFilePath (Path.join (dirname env) "uploads" +:+ "/.").

Section Handler.

Variable env : Env.

(** *** [fs/promises] *)

Definition fs_unlink (p : string) : M unit :=
  await_ call (CUnlink p);
  fun w =>
    match unlink_fault env p with
    | Some c => (Throw (fs_error c "unlink" (Some p)), w)
    | None =>
      match files w !! p with
      | Some _ => (Ret tt, remove_file p w)
      | None => (Throw (fs_error ENOENT "unlink" (Some p)), w)
      end
    end.

Definition fs_readFile (p : string) : M string :=
  await_ call (CReadFile p);
  fun w =>
    match read_fault env p with
    | Some c => (Throw (fs_error c "open" (Some p)), w)
    | None =>
      match files w !! p with
      | Some data => (Ret data, w)
      | None => (Throw (fs_error ENOENT "open" (Some p)), w)
      end
    end.

Definition fs_writeFile (p data : string) : M unit :=
  await_ call (CWriteFile p);
  fun w =>
    match write_fault env p with
    | Some (OpenFails c) => (Throw (fs_error c "open" (Some p)), w)
    | Some (WriteFails c n) =>
      (Throw (fs_error c "write" None), set_file p (first_bytes n data) w)
    | None => (Ret tt, set_file p data w)
    end.

(** A transform that writes its own output file at [dst]. *)
Definition settle (dst : string) (o : Outcome) : M unit :=
  fun w =>
    match o with
    | Produced out => (Ret tt, set_file dst out w)
    | Failed partial err =>
      (Throw err, match partial with Some d => set_file dst d w | None => w end)
    | Unhandled partial err =>
      (Dies err, match partial with Some d => set_file dst d w | None => w end)
    end.

(** The ending of a call that returns a promise for the whole of its
    work: whatever goes wrong rejects the promise. *)
Definition rejecting (o : Outcome) : Outcome :=
  match o with
  | Unhandled partial err => Failed partial err
  | _ => o
  end.

Definition source_of (p : string) : M (option string) :=
  fun w => (Ret (files w !! p), w).

(** *** [validatePDF] *)
Definition validatePDF (filePath : string) : M bool :=
  try_catch
    (await fileContents <- fs_readFile filePath;
     ret (Js.startsWith fileContents "%PDF-"))
    (fun _ => ret false).

(** *** [safeUnlink] *)
Definition safeUnlink (filePath : string) : M unit :=
  try_catch
    (fs_unlink filePath)
    (fun err =>
       if negb (bool_decide (err_code err = Some ENOENT)) then
         console_error ("Error deleting file: " +:+ filePath) err
       else ret tt).

(** *** The transform branches *)

(** The text branch: the source piped through gzip into the artifact,
    and the promise on the write stream's [finish] and [error]. Only an
    error of the write stream rejects that promise; the read stream and
    gzip have no listener, and [pipe] forwards no errors, so an error
    there ends as [Unhandled]. *)
Definition gzip_to (filePath compressedFilePath : string) : M unit :=
  await_ call (CGzip filePath compressedFilePath);
  await src <- source_of filePath;
  settle compressedFilePath (gzip_stream env filePath compressedFilePath src).

(** [sharp(filePath).resize(..).<format>(..).toFile(compressedFilePath)]. *)
Definition sharp_to (fmt : ImageFormat) (filePath compressedFilePath : string) : M unit :=
  await_ call (CSharp fmt filePath compressedFilePath);
  await src <- source_of filePath;
  settle compressedFilePath
    (rejecting (sharp_toFile env fmt filePath compressedFilePath src)).

(** [PDFDocument.load(fileContents)] followed by [pdfDoc.save(..)]. *)
Definition pdf_rewrite (fileContents : string) : M string :=
  await_ call CPdfRewrite;
  match pdf_load_save env fileContents with
  | inl e => throw e
  | inr pdfBytes => ret pdfBytes
  end.

(** The archiver writing a zip with one entry into the artifact:
    [archive.pipe(output)], [archive.file(..)], [await archive.finalize()],
    then the promise on the output's [close] and [error]. The archiver
    has no [error] listener, and the output gets its listener only after
    [finalize] has resolved: an error before that ends as [Unhandled],
    an error of the output after that rejects the promise. *)
Definition zip_to (filePath entry compressedFilePath : string) : M unit :=
  await_ call (CZip filePath entry compressedFilePath);
  await src <- source_of filePath;
  settle compressedFilePath (archiver_zip env filePath entry compressedFilePath src).

(** *** [POST /compress] *)

(** The chain of branches on [fileExt]: [inl] is the answer of a branch
    that returns from the handler, [inr] the value of
    [compressedFilePath] when the chain is left ([None]: never
    assigned). *)
Definition transform (f : UploadedFile) (filePath fileExt fileName outputDir : string)
    : M (Response + option string) :=
  if Js.includes SupportedTypes.text fileExt then
    let compressedFilePath := Path.join outputDir (fileName +:+ ".gz") in
    await_ gzip_to filePath compressedFilePath;
    ret (inr (Some compressedFilePath))
  else if Js.includes SupportedTypes.image fileExt then
    let compressedFilePath := Path.join outputDir ("compressed-" +:+ originalname f) in
    await_ (if String.eqb fileExt ".jpg" || String.eqb fileExt ".jpeg" then
              sharp_to Jpeg filePath compressedFilePath
            else if String.eqb fileExt ".png" then
              sharp_to Png filePath compressedFilePath
            else if String.eqb fileExt ".webp" then
              sharp_to Webp filePath compressedFilePath
            else ret tt);
    ret (inr (Some compressedFilePath))
  else if Js.includes SupportedTypes.pdf fileExt then
    await isValidPDF <- validatePDF filePath;
    if negb isValidPDF then
      await_ safeUnlink filePath;
      ret (inl (Json 400 "Invalid PDF file"
                  (Some "The uploaded file is not a valid PDF document")))
    else
      await fileContents <- fs_readFile filePath;
      await pdfBytes <- pdf_rewrite fileContents;
      let compressedFilePath := Path.join outputDir ("compressed-" +:+ originalname f) in
      await_ fs_writeFile compressedFilePath pdfBytes;
      ret (inr (Some compressedFilePath))
  else if Js.includes SupportedTypes.word fileExt
          || Js.includes SupportedTypes.other fileExt then
    let compressedFilePath := Path.join outputDir (fileName +:+ ".zip") in
    await_ zip_to filePath (originalname f) compressedFilePath;
    ret (inr (Some compressedFilePath))
  else ret (inr None).

(** The call of [res.download]: without a path it throws at once. *)
Definition start_download (compressedFilePath : option string) (name : string) : M Step :=
  match compressedFilePath with
  | Some p => ret (Downloading p name)
  | None => throw (type_error "path argument is required to res.sendFile")
  end.

(** The body of the handler's [try]. *)
Definition handler_try (f : UploadedFile) : M Step :=
  let filePath := path f in
  let fileExt := Js.toLowerCase (Path.extname (originalname f)) in
  let fileName := Path.basename (originalname f) fileExt in
  let outputDir := Path.join (dirname env) "uploads" in
  if negb (isSupported fileExt) then
    await_ safeUnlink filePath;
    ret (Responded (Json 400 "Unsupported file type" None))
  else
    await r <- transform f filePath fileExt fileName outputDir;
    match r with
    | inl response => ret (Responded response)
    | inr compressedFilePath =>
      await_ safeUnlink filePath;
      start_download compressedFilePath ("compressed-" +:+ originalname f)
    end.

(** The handler's [catch (error)]. *)
Definition handler_catch (f : UploadedFile) (error : JsError) : M Step :=
  await_ console_error "Compression Error:" error;
  await_ try_catch (safeUnlink (path f)) (fun _ => ret tt);
  ret (Responded (Json 500 "Compression failed" (Some (err_message error)))).

(** The handler up to the moment it has answered or has called
    [res.download]. *)
Definition handler_pre (req : Request) : M Step :=
  match file req with
  | None => ret (Responded (Json 400 "No file uploaded" None))
  | Some f => try_catch (handler_try f) (handler_catch f)
  end.

(** The callback given to [res.download]. *)
Definition download_callback (compressedFilePath : string) : M unit :=
  try_catch
    (safeUnlink compressedFilePath)
    (fun err => console_error "Failed to delete compressed file:" err).

(** The transfer [res.download] starts: the artifact is read and sent
    under [name], unless its name begins with a dot; when the transfer
    is over, whether everything was sent, the file was refused or could
    not be read or the client went away, the callback is called, once. *)
Definition transfer (compressedFilePath name : string) : M Response :=
  await_ call (CDownload compressedFilePath name);
  await src <- source_of compressedFilePath;
  let response :=
    if refused_as_dotfile env compressedFilePath then Unfinished
    else
      match src with
      | None => Unfinished
      | Some body =>
        match transfer_fault env compressedFilePath with
        | Some _ => Unfinished
        | None => Download name body
        end
      end in
  await_ download_callback compressedFilePath;
  ret response.

Definition finish (s : Step) : M Response :=
  match s with
  | Responded r => ret r
  | Downloading p name => transfer p name
  end.

(** One request from its arrival to the end of its response. *)
Definition handler (req : Request) : M Response :=
  await s <- handler_pre req;
  finish s.

End Handler.

(** ** Runs of the handler on given disks *)

Module Scenario.

(** A world with the given files and nothing logged or called yet. *)
Definition disk (l : list (string * string)) : World :=
  {| files := list_to_map l; console := []; calls := [] |}.

(** An environment in which nothing fails as long as the source is
    there; the libraries' outputs are marked by the name of the
    transform, and the contents of files are stand-ins (the PDF library
    takes every document). Without a source the read stream of the text
    branch fails with nobody listening, and the archiver, which only
    warns, writes a zip without entries. *)
Definition quiet : Env :=
  {| dirname := "/app";
     unlink_fault := fun _ => None;
     read_fault := fun _ => None;
     write_fault := fun _ => None;
     gzip_stream := fun filePath _ src =>
       match src with
       | Some d => Produced ("gz(" +:+ d +:+ ")")
       | None => Unhandled None (fs_error ENOENT "open" (Some filePath))
       end;
     sharp_toFile := fun _ _ _ src =>
       match src with
       | Some d => Produced ("img(" +:+ d +:+ ")")
       | None => Failed None (type_error "Input file is missing")
       end;
     pdf_load_save := fun d => inr ("pdf(" +:+ d +:+ ")");
     archiver_zip := fun _ entry _ src =>
       match src with
       | Some d => Produced ("zip(" +:+ entry +:+ ":" +:+ d +:+ ")")
       | None => Produced "zip()"
       end;
     transfer_fault := fun _ => None |}.

(** The disk fills up while the gzip output is written: the artifact
    stays behind with the bytes written so far. *)
Definition disk_full : Env :=
  {| dirname := "/app";
     unlink_fault := fun _ => None;
     read_fault := fun _ => None;
     write_fault := fun _ => None;
     gzip_stream := fun _ _ _ => Failed (Some "gz(he") (fs_error ENOSPC "write" None);
     sharp_toFile := sharp_toFile quiet;
     pdf_load_save := pdf_load_save quiet;
     archiver_zip := archiver_zip quiet;
     transfer_fault := fun _ => None |}.

(** The artifact of a PDF cannot be opened for writing. *)
Definition read_only : Env :=
  {| dirname := "/app";
     unlink_fault := fun _ => None;
     read_fault := fun _ => None;
     write_fault := fun _ => Some (OpenFails EACCES);
     gzip_stream := gzip_stream quiet;
     sharp_toFile := sharp_toFile quiet;
     pdf_load_save := pdf_load_save quiet;
     archiver_zip := archiver_zip quiet;
     transfer_fault := fun _ => None |}.

(** Unlinking is refused and the client goes away during transfers. *)
Definition hostile : Env :=
  {| dirname := "/app";
     unlink_fault := fun _ => Some EPERM;
     read_fault := fun p => if String.eqb p "/app/uploads/locked" then Some EACCES else None;
     write_fault := fun _ => None;
     gzip_stream := gzip_stream quiet;
     sharp_toFile := sharp_toFile quiet;
     pdf_load_save := pdf_load_save quiet;
     archiver_zip := archiver_zip quiet;
     transfer_fault := fun _ => Some {| err_code := None; err_message := "Request aborted" |} |}.

Definition upload (p name : string) (n : Z) : Request :=
  {| file := Some {| path := p; originalname := name; size := n |} |}.

End Scenario.

(** ** What the cleanup primitive leaves behind *)

(** The world after [safeUnlink p]: the file is gone unless the unlink
    was refused; a refusal other than [ENOENT] is on the console. *)
Definition unlinked (env : Env) (p : string) (w : World) : World :=
  {| files :=
       match unlink_fault env p with
       | None => delete p (files w)
       | Some _ => files w
       end;
     console :=
       console w ++
       match unlink_fault env p with
       | Some c =>
         if bool_decide (c = ENOENT) then []
         else [("Error deleting file: " +:+ p, fs_error c "unlink" (Some p))]
       | None => []
       end;
     calls := calls w ++ [CUnlink p] |}.

(** What [validatePDF] answers, as a function of the disk. *)
(** The disk after a stream ended in an error, with what it had written
    of its output. *)
Definition left_behind (dst : string) (partial : option string) (w : World) : World :=
  match partial with
  | Some d => set_file dst d w
  | None => w
  end.

Definition pdf_verdict (env : Env) (p : string) (w : World) : bool :=
  match read_fault env p with
  | Some _ => false
  | None =>
    match files w !! p with
    | Some data => Js.startsWith data "%PDF-"
    | None => false
    end
  end.

(** What the caller receives from a transfer of the artifact at [p]. *)
Definition transferred (env : Env) (p name : string) (w : World) : Response :=
  if refused_as_dotfile env p then Unfinished
  else
    match files w !! p with
    | None => Unfinished
    | Some body =>
      match transfer_fault env p with
      | Some _ => Unfinished
      | None => Download name body
      end
    end.

(** Calls that neither unlink a file nor start a download. *)
Definition quiet_call (c : Call) : bool :=
  match c with
  | CUnlink _ | CDownload _ _ => false
  | _ => true
  end.

(** The fourteen extensions of [supportedTypes]. *)
Definition known_extensions : list string :=
  [".txt"; ".log"; ".json"; ".jpg"; ".jpeg"; ".png"; ".webp"; ".pdf";
   ".doc"; ".docx"; ".zip"; ".gz"; ".rar"; ".7z"].

(** ** The name of the artifact *)

(** The last component of [compressedFilePath], collected from the four
    branches that assign it: it is computed from the original name of
    the upload and from nothing else. *)
Definition artifact_name (name : string) : string :=
  let fileExt := fileExt_of name in
  let fileName := fileName_of name in
  if Js.includes SupportedTypes.text fileExt then fileName +:+ ".gz"
  else if Js.includes SupportedTypes.image fileExt then "compressed-" +:+ name
  else if Js.includes SupportedTypes.pdf fileExt then "compressed-" +:+ name
  else fileName +:+ ".zip".

Definition artifact_path (env : Env) (name : string) : string :=
  Path.join (Path.join (dirname env) "uploads") (artifact_name name).

(** The base name as the specification means it: the name without the
    extension that [path.extname] finds in it. *)
Definition stem (name : string) : string :=
  Js.slice name 0 (Path.strlen name - Path.strlen (Path.extname name)).

(** ** Two requests at once *)

(** Two requests whose handlers both run up to [res.download] before
    either transfer takes place: the first request's transfer and
    callback come next, then the second's. *)
Definition interleaved (env : Env) (reqA reqB : Request) : M (Response * Response) :=
  await sA <- handler_pre env reqA;
  await sB <- handler_pre env reqB;
  await a <- finish env sA;
  await b <- finish env sB;
  ret (a, b).

(** ** Environments that differ in the failures of [unlink] *)

(** The environment [env] with other failures of [unlink]. *)
Definition with_unlink_fault (g : string -> option ErrCode) (env : Env) : Env :=
  {| dirname := dirname env;
     unlink_fault := g;
     read_fault := read_fault env;
     write_fault := write_fault env;
     gzip_stream := gzip_stream env;
     sharp_toFile := sharp_toFile env;
     pdf_load_save := pdf_load_save env;
     archiver_zip := archiver_zip env;
     transfer_fault := transfer_fault env |}.

(** ** The branch of a category *)

(** The call a category's branch starts with. *)
Definition branch_starts_with (env : Env) (f : UploadedFile) (c : Call) : Prop :=
  match category (fileExt_of (originalname f)) with
  | Text => c = CGzip (path f) (artifact_path env (originalname f))
  | Image => exists fmt, c = CSharp fmt (path f) (artifact_path env (originalname f))
  | PDF => c = CReadFile (path f)
  | Document | Archive =>
    c = CZip (path f) (originalname f) (artifact_path env (originalname f))
  | Unsupported => c = CUnlink (path f)
  end.

(** ** Names that are one path component *)

Definition not_slash (c : ascii) : bool := negb (Ascii.eqb c Path.CHAR_FORWARD_SLASH).

(** The name holds no path separator, as the names of uploads do. *)
Definition slash_free (s : string) : bool := forallb not_slash (list_ascii_of_string s).

(** ** The extension in the words of the specification *)

(** The index of the final dot of a file name, if it has a dot. *)
Fixpoint final_dot (name : string) : option nat :=
  match name with
  | EmptyString => None
  | String c rest =>
    match final_dot rest with
    | Some k => Some (S k)
    | None => if Ascii.eqb c Path.CHAR_DOT then Some 0%nat else None
    end
  end.

(** The lower-cased substring that follows the final dot of the file
    name, the empty string if the name has no dot. The extensions of the
    table begin with their dot, so the substring is taken from the dot
    on. *)
Definition spec_extension (name : string) : string :=
  Js.toLowerCase
    match final_dot name with
    | Some k => substring k (String.length name - k) name
    | None => EmptyString
    end.

(** The category the table gives that extension. *)
Definition spec_category (name : string) : FileCategory := classify (spec_extension name).

Definition not_dot (c : ascii) : bool := negb (Ascii.eqb c Path.CHAR_DOT).

(** The state [path.extname] starts its scan in, and the state after
    the scan has entered the last component of a path of length [L]
    without having met a dot. *)
Definition ext_init : Path.ExtState :=
  {| Path.startDot := -1; Path.startPart := 0; Path.ext_end := -1;
     Path.ext_matchedSlash := true; Path.preDotState := 0 |}.

Definition ext_entered (L : Z) : Path.ExtState :=
  {| Path.startDot := -1; Path.startPart := 0; Path.ext_end := L;
     Path.ext_matchedSlash := false; Path.preDotState := 0 |}.

(** What the loop of [extname] keeps true on a component of length [L]
    without separators, when index [i] is the next to be read: the end
    of the extension is [L] once a character was read, and the dot that
    starts the extension lies after [i], with a character before it as
    soon as [preDotState] has left 0. *)
Definition ext_inv (L : Z) (st : Path.ExtState) (i : Z) : Prop :=
  Path.startPart st = 0
  /\ ((Path.ext_end st = -1 /\ i = L - 1) \/ Path.ext_end st = L)
  /\ ((Path.startDot st = -1 /\ Path.preDotState st = 0)
      \/ (i < Path.startDot st < L
          /\ (Path.preDotState st <> 0 -> i + 1 < Path.startDot st))).

(** An extension is one of the fourteen of the table, or none of them. *)
Ltac split_extension e :=
  unfold classify, extension_table;
  cbn [table_lookup];
  repeat match goal with
  | |- context [String.eqb ?k e] =>
    lazymatch k with e => fail | _ => rewrite (String.eqb_sym k e) end
  end;
  repeat match goal with
  | |- context [String.eqb e ?k] => destruct (String.eqb_spec e k) as [->|?]
  end.

Ltac in_literals :=
  match goal with
  | |- In _ _ => cbn [In]; tauto
  | H : In _ _ |- _ =>
    cbn [In] in H; repeat (destruct H as [H|H]; try discriminate H); try contradiction;
    try (symmetry in H; contradiction)
  end.


(** ** The encoders of the image branch *)

(** The encoder the image branch uses for an extension; [None] when
    none of its tests succeeds. *)
Definition encoder_of (fileExt : string) : option ImageFormat :=
  if String.eqb fileExt ".jpg" || String.eqb fileExt ".jpeg" then Some Jpeg
  else if String.eqb fileExt ".png" then Some Png
  else if String.eqb fileExt ".webp" then Some Webp
  else None.

(** ** Environments with one failing library *)

Module Faults.

(** The PDF library rejects every document. *)
Definition broken_pdf : Env :=
  {| dirname := "/app";
     unlink_fault := fun _ => None;
     read_fault := fun _ => None;
     write_fault := fun _ => None;
     gzip_stream := gzip_stream Scenario.quiet;
     sharp_toFile := sharp_toFile Scenario.quiet;
     pdf_load_save := fun _ => inl (type_error "Failed to parse PDF document");
     archiver_zip := archiver_zip Scenario.quiet;
     transfer_fault := fun _ => None |}.

(** The source cannot be read to its end: the read stream of the text
    branch fails after gzip has written some output, and the archiver
    fails on its entry; nobody listens to either error. *)
Definition failing_read : Env :=
  {| dirname := "/app";
     unlink_fault := fun _ => None;
     read_fault := fun _ => None;
     write_fault := fun _ => None;
     gzip_stream := fun _ _ _ => Unhandled (Some "gz(he") (fs_error EIO "read" None);
     sharp_toFile := sharp_toFile Scenario.quiet;
     pdf_load_save := pdf_load_save Scenario.quiet;
     archiver_zip := fun _ _ _ _ => Unhandled None (fs_error EIO "read" None);
     transfer_fault := fun _ => None |}.

End Faults.

(** * Properties *)

(** ** Strings and the path functions *)

Section StringFacts.

Lemma chars_app (s t : string) :
  list_ascii_of_string (s +:+ t) = (list_ascii_of_string s ++ list_ascii_of_string t)%list.
Proof. induction s as [|c s IH]; simpl; [reflexivity | rewrite IH; reflexivity]. Qed.

Lemma chars_length (s : string) :
  List.length (list_ascii_of_string s) = String.length s.
Proof. induction s as [|c s IH]; simpl; [reflexivity | rewrite IH; reflexivity]. Qed.

Lemma get_nth_error (s : string) (k : nat) :
  String.get k s = nth_error (list_ascii_of_string s) k.
Proof.
  revert k. induction s as [|c s IH]; intros [|k]; simpl; try reflexivity. apply IH.
Qed.

Lemma length_app_string (s t : string) :
  String.length (s +:+ t) = (String.length s + String.length t)%nat.
Proof. induction s as [|c s IH]; simpl; [reflexivity | rewrite IH; reflexivity]. Qed.

Lemma substring_prefix_app (s t : string) :
  substring 0 (String.length s) (s +:+ t) = s.
Proof. induction s as [|c s IH]; simpl; [destruct t; reflexivity | rewrite IH; reflexivity]. Qed.

Lemma substring_full (s : string) : substring 0 (String.length s) s = s.
Proof. induction s as [|c s IH]; simpl; [reflexivity | rewrite IH; reflexivity]. Qed.

Lemma substring_split (s : string) (d : nat) :
  (d <= String.length s)%nat ->
  s = substring 0 d s +:+ substring d (String.length s - d) s.
Proof.
  revert d. induction s as [|c s IH]; intros [|d] Hd.
  - reflexivity.
  - simpl in Hd. lia.
  - rewrite Nat.sub_0_r, substring_full. destruct (String c s); reflexivity.
  - cbn [substring String.length Nat.sub].
    change (String c (substring 0 d s) +:+ substring d (String.length s - d) s)
      with (String c (substring 0 d s +:+ substring d (String.length s - d) s)).
    f_equal. apply IH. simpl in Hd. lia.
Qed.

Lemma substring_length (s : string) (d n : nat) :
  (d + n <= String.length s)%nat -> String.length (substring d n s) = n.
Proof.
  revert d n. induction s as [|c s IH]; intros [|d] [|n] H; simpl in *; try lia; try reflexivity.
  - f_equal. apply (IH 0%nat). lia.
  - apply IH. lia.
  - apply IH. lia.
Qed.

End StringFacts.

Section ExtnameFacts.

Variable L : Z.

Lemma extname_loop_inv (cs : list ascii) :
  forall (i : Z) (st : Path.ExtState),
    forallb not_slash cs = true ->
    i = Z.of_nat (List.length cs) - 1 ->
    i < L ->
    ext_inv L st i ->
    ext_inv L (Path.extname_loop cs i st) (-1)
    /\ (cs <> [] -> Path.ext_end (Path.extname_loop cs i st) = L).
Proof.
  induction cs as [|c cs IH]; intros i st Hfree Hi HL Hinv.
  - simpl in *. subst i. split; [exact Hinv | congruence].
  - cbn [forallb] in Hfree. apply andb_prop in Hfree as [Hc Hfree].
    unfold not_slash in Hc. apply negb_true_iff in Hc.
    cbn [Path.extname_loop]. rewrite Hc.
    cbn [List.length] in Hi.
    match goal with
    | |- context [Path.extname_loop cs (i - 1) ?s] => set (st2 := s)
    end.
    assert (Hinv2 : ext_inv L st2 (i - 1) /\ Path.ext_end st2 = L).
    { destruct Hinv as (Hsp & Hend & Hdot). subst st2.
      destruct (Path.ext_end st =? -1) eqn:He;
        destruct (Ascii.eqb c Path.CHAR_DOT);
        cbn [Path.startDot Path.startPart Path.ext_end Path.ext_matchedSlash Path.preDotState];
        repeat match goal with
        | |- context [if ?b then _ else _] => destruct b eqn:?
        end;
        cbn [Path.startDot Path.startPart Path.ext_end Path.ext_matchedSlash Path.preDotState];
        unfold ext_inv;
        cbn [Path.startDot Path.startPart Path.ext_end Path.ext_matchedSlash Path.preDotState];
        rewrite ?Z.eqb_eq, ?Z.eqb_neq, ?negb_true_iff, ?negb_false_iff in *;
        rewrite ?Z.eqb_eq, ?Z.eqb_neq in *;
        lia. }
    destruct Hinv2 as [Hinv2 Hend2].
    destruct (IH (i - 1) st2 Hfree ltac:(lia) ltac:(lia) Hinv2) as [Hfin Hnonempty].
    split; [exact Hfin|]. intros _.
    destruct cs as [|c' cs'].
    + simpl. exact Hend2.
    + apply Hnonempty. discriminate.
Qed.

End ExtnameFacts.

Section PathFacts.

Lemma forallb_rev' {A} (f : A -> bool) (l : list A) : forallb f (rev l) = forallb f l.
Proof.
  induction l as [|x l IH]; [reflexivity|].
  cbn [rev forallb]. rewrite forallb_app, IH. cbn [forallb].
  rewrite andb_true_r. apply andb_comm.
Qed.

Lemma backwards_length (s : string) :
  Z.of_nat (List.length (Path.backwards s)) = Path.strlen s.
Proof. unfold Path.backwards, Path.strlen. rewrite length_rev, chars_length. reflexivity. Qed.

(** On a name without separators, a non-empty [extname] is the part of
    the name from some index [d >= 1] to its end. *)
Lemma extname_is_a_suffix (name : string) :
  slash_free name = true ->
  Path.extname name <> EmptyString ->
  exists d : nat,
    (1 <= d < String.length name)%nat
    /\ Path.extname name = substring d (String.length name - d) name.
Proof.
  intros Hfree Hne. unfold Path.extname in *.
  set (init := {| Path.startDot := -1; Path.startPart := 0; Path.ext_end := -1;
                  Path.ext_matchedSlash := true; Path.preDotState := 0 |}) in *.
  destruct (extname_loop_inv (Path.strlen name) (Path.backwards name)
              (Path.strlen name - 1) init) as [Hinv Hend].
  - unfold Path.backwards. rewrite forallb_rev'. exact Hfree.
  - rewrite backwards_length. reflexivity.
  - lia.
  - unfold ext_inv, init; cbn. split; [reflexivity|]. split; left; split; reflexivity.
  - set (st := Path.extname_loop _ _ init) in *.
    destruct Hinv as (_ & _ & Hdot).
    destruct (Path.startDot st =? -1) eqn:E1; [contradiction|].
    destruct (Path.ext_end st =? -1) eqn:E2; [contradiction|].
    destruct (Path.preDotState st =? 0) eqn:E3; [contradiction|].
    cbn [orb] in Hne.
    apply Z.eqb_neq in E1, E2, E3.
    destruct Hdot as [[H _]|[Hrange Hpre]]; [contradiction|].
    specialize (Hpre E3).
    assert (Hlen : Path.ext_end st = Path.strlen name).
    { apply Hend. intros Hnil.
      pose proof (backwards_length name) as Hb. rewrite Hnil in Hb. simpl in Hb. lia. }
    exists (Z.to_nat (Path.startDot st)).
    unfold Path.strlen in *. split; [lia|].
    destruct ((Path.preDotState st =? 1) && _ && _); [contradiction|].
    unfold Js.slice. rewrite Hlen. f_equal. lia.
Qed.

Lemma suffix_loop_done (e : string) (rest : list ascii) :
  forall (i : Z) (st : Path.BaseState),
    Path.extIdx st < 0 ->
    Path.firstNonSlashEnd st <> -1 ->
    forallb not_slash rest = true ->
    Path.basename_suffix_loop e rest i st = st.
Proof.
  induction rest as [|c rest IH]; intros i st Hidx Hfirst Hfree; [reflexivity|].
  cbn [forallb] in Hfree. apply andb_prop in Hfree as [Hc Hfree].
  unfold not_slash in Hc. apply negb_true_iff in Hc.
  cbn [Path.basename_suffix_loop]. rewrite Hc.
  apply Z.eqb_neq in Hfirst. rewrite Hfirst.
  replace (0 <=? Path.extIdx st) with false by (symmetry; apply Z.leb_gt; lia).
  apply IH; [exact Hidx | apply Z.eqb_neq; exact Hfirst | exact Hfree].
Qed.

Lemma suffix_loop_match (e : string) (l : list ascii) :
  forall (t rest : list ascii) (i : Z) (st : Path.BaseState),
    list_ascii_of_string e = (rev l ++ t)%list ->
    Path.extIdx st = Z.of_nat (List.length l) - 1 ->
    Z.of_nat (List.length l) - 1 <= i ->
    forallb not_slash l = true ->
    l <> [] ->
    Path.basename_suffix_loop e (l ++ rest) i st =
    Path.basename_suffix_loop e rest (i - Z.of_nat (List.length l))
      {| Path.base_start := Path.base_start st;
         Path.base_end := i - Z.of_nat (List.length l) + 1;
         Path.base_matchedSlash :=
           if Path.firstNonSlashEnd st =? -1 then false else Path.base_matchedSlash st;
         Path.extIdx := -1;
         Path.firstNonSlashEnd :=
           if Path.firstNonSlashEnd st =? -1 then i + 1 else Path.firstNonSlashEnd st |}.
Proof.
  induction l as [|c l IH]; intros t rest i st He Hidx Hi Hfree Hne; [contradiction|].
  cbn [forallb] in Hfree. apply andb_prop in Hfree as [Hc Hfree].
  unfold not_slash in Hc. apply negb_true_iff in Hc.
  cbn [List.length] in *. cbn [app Path.basename_suffix_loop]. rewrite Hc.
  assert (Hget : Path.charAt e (Z.of_nat (List.length l)) = Some c).
  { unfold Path.charAt. replace (Z.of_nat (List.length l) <? 0) with false
      by (symmetry; apply Z.ltb_ge; lia).
    rewrite Nat2Z.id, get_nth_error, He. cbn [rev]. rewrite <- app_assoc.
    rewrite nth_error_app2 by (rewrite length_rev; lia).
    rewrite length_rev, Nat.sub_diag. reflexivity. }
  set (st1 := if Path.firstNonSlashEnd st =? -1 then _ else st).
  assert (Hidx1 : Path.extIdx st1 = Z.of_nat (List.length l)).
  { subst st1. destruct (Path.firstNonSlashEnd st =? -1); cbn; lia. }
  rewrite Hidx1.
  replace (0 <=? Z.of_nat (List.length l)) with true by (symmetry; apply Z.leb_le; lia).
  rewrite Hget. rewrite bool_decide_eq_true_2 by reflexivity.
  destruct l as [|c' l'].
  - cbn [List.length app]. cbn.
    subst st1. destruct (Path.firstNonSlashEnd st =? -1) eqn:Hf; cbn;
      change (Z.of_nat 0 - 1) with (-1); change (-1 =? -1) with true; cbv iota;
      change (Z.of_nat 1) with 1; replace (i - 1 + 1) with i by lia; reflexivity.
  - rewrite (IH (c :: t) rest (i - 1)).
    + cbn [Path.base_start Path.base_end Path.base_matchedSlash Path.extIdx
           Path.firstNonSlashEnd].
      assert (Hf1 : Path.firstNonSlashEnd st1 <> -1).
      { subst st1. destruct (Path.firstNonSlashEnd st =? -1) eqn:Hf; cbn.
        - cbn [List.length] in Hi. lia.
        - apply Z.eqb_neq. exact Hf. }
      apply Z.eqb_neq in Hf1. rewrite Hf1.
      f_equal; [lia|].
      subst st1. destruct (Path.firstNonSlashEnd st =? -1) eqn:Hf; cbn;
        f_equal; lia.
    + rewrite He. cbn [rev]. rewrite <- !app_assoc. reflexivity.
    + cbn [Path.extIdx]. lia.
    + cbn [List.length] in *. lia.
    + exact Hfree.
    + discriminate.
Qed.

(** [basename] takes a suffix off a name that ends with it. *)
Lemma basename_strips_suffix (s e : string) :
  s <> EmptyString -> e <> EmptyString ->
  slash_free (s +:+ e) = true ->
  Path.basename (s +:+ e) e = s.
Proof.
  intros Hs He Hfree.
  assert (Hls : (0 < String.length s)%nat) by (destruct s; [contradiction | simpl; lia]).
  assert (Hle : (0 < String.length e)%nat) by (destruct e; [contradiction | simpl; lia]).
  unfold slash_free in Hfree. rewrite chars_app, forallb_app in Hfree.
  apply andb_prop in Hfree as [Hfs Hfe].
  unfold Path.basename.
  replace (0 <? Path.strlen e) with true
    by (symmetry; apply Z.ltb_lt; unfold Path.strlen; lia).
  replace (Path.strlen e <=? Path.strlen (s +:+ e)) with true
    by (symmetry; apply Z.leb_le; unfold Path.strlen; rewrite length_app_string; lia).
  cbn [andb].
  replace (String.eqb e (s +:+ e)) with false.
  2:{ symmetry. apply String.eqb_neq. intros Heq.
      apply (f_equal String.length) in Heq. rewrite length_app_string in Heq. lia. }
  unfold Path.backwards. rewrite chars_app, rev_app_distr.
  rewrite (suffix_loop_match e (rev (list_ascii_of_string e)) []).
  - rewrite suffix_loop_done.
    + cbn [Path.base_start Path.base_end].
      rewrite length_rev, chars_length.
      unfold Path.strlen. rewrite length_app_string.
      replace (0 =? _) with false by (symmetry; apply Z.eqb_neq; lia).
      replace (_ =? -1) with false by (symmetry; apply Z.eqb_neq; lia).
      unfold Js.slice.
      replace (Z.to_nat 0) with 0%nat by reflexivity.
      match goal with
      | |- substring 0 ?n _ = _ => replace n with (String.length s) by lia
      end.
      apply substring_prefix_app.
    + cbn. lia.
    + cbn. unfold Path.strlen. rewrite length_app_string. lia.
    + rewrite forallb_rev'. exact Hfs.
  - rewrite rev_involutive, app_nil_r. reflexivity.
  - cbn. rewrite length_rev, chars_length. reflexivity.
  - rewrite length_rev, chars_length. unfold Path.strlen.
    rewrite length_app_string. lia.
  - rewrite forallb_rev'. exact Hfe.
  - intros Hnil. apply (f_equal (@List.length ascii)) in Hnil.
    rewrite length_rev, chars_length in Hnil. simpl in Hnil. lia.
Qed.

End PathFacts.

Section Naming.

Lemma toLowerCase_empty (s : string) : Js.toLowerCase s = EmptyString -> s = EmptyString.
Proof. destruct s; [reflexivity | discriminate]. Qed.

(** When the extension of a name is written in lower case, [fileName] is
    the name without its extension. *)
Lemma lowercase_extension_is_stripped (name : string) :
  slash_free name = true ->
  Path.extname name <> EmptyString ->
  Js.toLowerCase (Path.extname name) = Path.extname name ->
  fileName_of name = stem name
  /\ name = stem name +:+ Path.extname name.
Proof.
  intros Hfree Hne Hlow.
  destruct (extname_is_a_suffix name Hfree Hne) as (d & Hd & Hext).
  assert (Hlen : String.length (Path.extname name) = (String.length name - d)%nat).
  { rewrite Hext. apply substring_length. lia. }
  assert (Hstem : stem name = substring 0 d name).
  { unfold stem, Js.slice, Path.strlen. rewrite Hlen. f_equal. lia. }
  assert (Hsplit : name = stem name +:+ Path.extname name).
  { rewrite Hstem, Hext. apply substring_split. lia. }
  split; [|exact Hsplit].
  unfold fileName_of, fileExt_of. rewrite Hlow.
  rewrite Hsplit at 1.
  apply basename_strips_suffix.
  - intros Hs. apply (f_equal String.length) in Hs.
    rewrite Hstem, substring_length in Hs by lia. simpl in Hs. lia.
  - exact Hne.
  - rewrite <- Hsplit. exact Hfree.
Qed.

(** The naming rule of the artifact, for names whose extension is
    written in lower case. *)
Lemma artifact_naming_rule (name : string) :
  slash_free name = true ->
  Js.toLowerCase (Path.extname name) = Path.extname name ->
  match category (fileExt_of name) with
  | Text => artifact_name name = stem name +:+ ".gz"
  | Image | PDF => artifact_name name = "compressed-" +:+ name
  | Document | Archive => artifact_name name = stem name +:+ ".zip"
  | Unsupported => True
  end.
Proof.
  intros Hfree Hlow.
  destruct (category (fileExt_of name)) eqn:Hcat; [| | | | |exact I].
  all: assert (Hne : Path.extname name <> EmptyString)
    by (intros He; unfold fileExt_of in Hcat; rewrite He in Hcat; discriminate Hcat).
  all: destruct (lowercase_extension_is_stripped name Hfree Hne Hlow) as [Hfn _].
  all: unfold artifact_name; rewrite Hfn.
  all: unfold category in Hcat.
  all: destruct (negb (isSupported (fileExt_of name))); [discriminate Hcat|].
  all: destruct (Js.includes SupportedTypes.text (fileExt_of name));
    [first [reflexivity | discriminate Hcat]|].
  all: destruct (Js.includes SupportedTypes.image (fileExt_of name));
    [first [reflexivity | discriminate Hcat]|].
  all: destruct (Js.includes SupportedTypes.pdf (fileExt_of name));
    [first [reflexivity | discriminate Hcat]|].
  all: first [reflexivity | idtac].
  all: destruct (_ || _); [|discriminate Hcat].
  all: destruct (Js.includes SupportedTypes.word (fileExt_of name)); discriminate Hcat.
Qed.

End Naming.

(** ** Cleanup *)

Section Cleanup.

Variable env : Env.

Lemma world_eq (w1 w2 : World) :
  files w1 = files w2 -> console w1 = console w2 -> calls w1 = calls w2 -> w1 = w2.
Proof. destruct w1, w2; simpl; intros; subst; reflexivity. Qed.

Lemma safeUnlink_run (p : string) (w : World) :
  safeUnlink env p w = (Ret tt, unlinked env p w).
Proof.
  unfold safeUnlink, try_catch, fs_unlink, bind, call, called, unlinked; simpl.
  destruct (unlink_fault env p) as [c|] eqn:Hf.
  - destruct c; simpl; unfold console_error, ret; simpl;
      f_equal; apply world_eq; simpl; rewrite ?app_nil_r; reflexivity.
  - destruct (files w !! p) eqn:Hl; simpl.
    + f_equal. apply world_eq; simpl; rewrite ?app_nil_r; reflexivity.
    + unfold ret. f_equal. apply world_eq; simpl; rewrite ?app_nil_r; try reflexivity.
      symmetry. apply delete_id. exact Hl.
Qed.

Lemma unlinked_files_idem (p : string) (w : World) :
  files (unlinked env p (unlinked env p w)) = files (unlinked env p w).
Proof.
  unfold unlinked; simpl. destruct (unlink_fault env p); [reflexivity|].
  apply delete_id, lookup_delete_eq.
Qed.

End Cleanup.

Section Classification.

Lemma toLowerCase_idem (s : string) : Js.toLowerCase (Js.toLowerCase s) = Js.toLowerCase s.
Proof.
  induction s as [|c r IH]; simpl; [reflexivity|].
  rewrite IH. f_equal.
  destruct c as [[] [] [] [] [] [] [] []]; vm_compute; reflexivity.
Qed.


Lemma category_table (e : string) : category e = classify e.
Proof.
  unfold category, classify, isSupported, Js.includes, extension_table,
    SupportedTypes.values_flat, SupportedTypes.text, SupportedTypes.image,
    SupportedTypes.pdf, SupportedTypes.word, SupportedTypes.other.
  cbn [table_lookup existsb concat app].
  repeat match goal with
  | |- context [String.eqb ?k e] =>
    lazymatch k with e => fail | _ => rewrite (String.eqb_sym k e) end
  end.
  repeat match goal with
  | |- context [String.eqb e ?k] =>
    destruct (String.eqb_spec e k) as [->|?]; [vm_compute; reflexivity|]
  end.
  reflexivity.
Qed.

Lemma classify_in (e : string) (c : FileCategory) (l : list string) :
  c <> Unsupported ->
  l = map fst (filter (fun kc => bool_decide (snd kc = c)) extension_table) ->
  classify e = c <-> In e l.
Proof.
  intros Hc ->.
  destruct c; try contradiction; cbn [filter map fst]; vm_compute filter;
    cbn [map fst];
    split_extension e;
    (split; [intros H; first [discriminate H | in_literals] | intros H; first [reflexivity | in_literals]]).
Qed.

Lemma classify_unsupported (e : string) :
  classify e = Unsupported <-> ~ In e known_extensions.
Proof.
  unfold known_extensions.
  split_extension e;
    (split; [intros H; first [discriminate H | intros Hin; in_literals]
            | intros H; first [reflexivity | exfalso; apply H; in_literals]]).
Qed.

End Classification.

Section PdfValidation.

Variable env : Env.

Lemma validatePDF_run (p : string) (w : World) :
  validatePDF env p w = (Ret (pdf_verdict env p w), called (CReadFile p) w).
Proof.
  unfold validatePDF, try_catch, fs_readFile, bind, call, pdf_verdict, ret; simpl.
  destruct (read_fault env p); [reflexivity|].
  destruct (files w !! p); reflexivity.
Qed.

Lemma category_pdf (e : string) : category e = PDF -> e = ".pdf".
Proof.
  rewrite category_table. intros H.
  apply (classify_in e PDF [".pdf"]) in H; [|discriminate|reflexivity].
  destruct H as [H|[]]. symmetry. exact H.
Qed.

Lemma handler_invalid_pdf (f : UploadedFile) (w : World) :
  category (fileExt_of (originalname f)) = PDF ->
  pdf_verdict env (path f) w = false ->
  handler env {| file := Some f |} w =
    (Ret (Json 400 "Invalid PDF file"
            (Some "The uploaded file is not a valid PDF document")),
     unlinked env (path f) (called (CReadFile (path f)) w)).
Proof.
  intros Hcat Hv. apply category_pdf in Hcat. unfold fileExt_of in Hcat.
  unfold handler, handler_pre, bind, try_catch; cbn [file].
  unfold handler_try. rewrite Hcat.
  change (isSupported ".pdf") with true.
  cbn [negb]. unfold transform.
  change (Js.includes SupportedTypes.text ".pdf") with false.
  change (Js.includes SupportedTypes.image ".pdf") with false.
  change (Js.includes SupportedTypes.pdf ".pdf") with true.
  cbv iota. unfold bind at 2. unfold bind at 1.
  rewrite validatePDF_run, Hv. cbn [negb]. unfold bind.
  rewrite safeUnlink_run. reflexivity.
Qed.

End PdfValidation.

(** C5. An upload classified as PDF whose content does not begin with
    [%PDF-] is answered with status 400 and the error [Invalid PDF file];
    the handler has then read the source once and unlinked it, and made
    no other call: the parse and re-serialize stage and the write of an
    artifact are not reached. The source is gone from the disk unless its
    unlink is refused, and no other file has changed. *)
Theorem invalid_pdf_is_rejected_before_transform :
  forall (env : Env) (f : UploadedFile) (w : World),
    category (fileExt_of (originalname f)) = PDF ->
    (forall data, files w !! path f = Some data -> Js.startsWith data "%PDF-" = false) ->
    exists w',
      handler env {| file := Some f |} w =
        (Ret (Json 400 "Invalid PDF file"
                (Some "The uploaded file is not a valid PDF document")), w')
      /\ calls w' = (calls w ++ [CReadFile (path f); CUnlink (path f)])%list
      /\ ~ In CPdfRewrite [CReadFile (path f); CUnlink (path f)]
      /\ (unlink_fault env (path f) = None -> files w' !! path f = None)
      /\ (forall q, q <> path f -> files w' !! q = files w !! q).
Proof.
  intros env f w Hcat Hbad.
  exists (unlinked env (path f) (called (CReadFile (path f)) w)).
  split.
  - apply handler_invalid_pdf; [exact Hcat|].
    unfold pdf_verdict. destruct (read_fault env (path f)); [reflexivity|].
    destruct (files w !! path f) eqn:Hl; [apply Hbad; reflexivity | reflexivity].
  - unfold unlinked, called; cbn [calls files].
    split; [rewrite <- app_assoc; reflexivity|].
    split; [intros [H|[H|[]]]; discriminate H|].
    split.
    + intros ->. apply lookup_delete_eq.
    + intros q Hq. destruct (unlink_fault env (path f)); [reflexivity|].
      apply lookup_delete_ne. congruence.
Qed.

(** C5 on a [.pdf] upload that holds plain text. *)
Lemma invalid_pdf_witness :
  exists w',
    handler Scenario.quiet (Scenario.upload "/app/uploads/3f9c" "scan.PDF" 5)
      (Scenario.disk [("/app/uploads/3f9c", "hello")]) =
      (Ret (Json 400 "Invalid PDF file"
              (Some "The uploaded file is not a valid PDF document")), w')
    /\ files w' !! "/app/uploads/3f9c" = None.
Proof.
  destruct (invalid_pdf_is_rejected_before_transform Scenario.quiet
              {| path := "/app/uploads/3f9c"; originalname := "scan.PDF"; size := 5 |}
              (Scenario.disk [("/app/uploads/3f9c", "hello")]))
    as (w' & Hrun & _ & _ & Hgone & _).
  - vm_compute. reflexivity.
  - intros data Hd. vm_compute in Hd. injection Hd as <-. vm_compute. reflexivity.
  - exists w'. split; [exact Hrun | apply Hgone; reflexivity].
Defined.

(** C10. [validatePDF] returns for every path and every disk and never
    throws; when the read of the file fails, because a fault is raised or
    because the file is absent, it returns [false]. A [.pdf] upload whose
    source cannot be read is therefore answered with status 400 and
    [Invalid PDF file], not with status 500. *)
Theorem validatePDF_never_raises :
  forall (env : Env) (p : string) (w : World),
    (exists b, validatePDF env p w = (Ret b, called (CReadFile p) w)
       /\ ((read_fault env p <> None \/ files w !! p = None) -> b = false))
    /\ (forall f : UploadedFile,
          category (fileExt_of (originalname f)) = PDF ->
          (read_fault env (path f) <> None \/ files w !! path f = None) ->
          exists w',
            handler env {| file := Some f |} w =
              (Ret (Json 400 "Invalid PDF file"
                      (Some "The uploaded file is not a valid PDF document")), w')).
Proof.
  intros env p w.
  assert (Hfalse : forall q, (read_fault env q <> None \/ files w !! q = None) ->
                             pdf_verdict env q w = false).
  { intros q Hq. unfold pdf_verdict.
    destruct (read_fault env q); [reflexivity|].
    destruct Hq as [Hq|Hq]; [contradiction|]. rewrite Hq. reflexivity. }
  split.
  - exists (pdf_verdict env p w). split; [apply validatePDF_run | apply Hfalse].
  - intros f Hcat Hread. eexists. apply handler_invalid_pdf; [exact Hcat|].
    apply Hfalse. exact Hread.
Qed.

(** C10 on a [.pdf] upload whose source the process may not read. *)
Lemma validatePDF_unreadable_witness :
  exists w',
    handler Scenario.hostile (Scenario.upload "/app/uploads/locked" "a.pdf" 8)
      (Scenario.disk [("/app/uploads/locked", "%PDF-1.4")]) =
      (Ret (Json 400 "Invalid PDF file"
              (Some "The uploaded file is not a valid PDF document")), w').
Proof.
  destruct (validatePDF_never_raises Scenario.hostile "/app/uploads/locked"
              (Scenario.disk [("/app/uploads/locked", "%PDF-1.4")])) as [_ Hh].
  apply (Hh {| path := "/app/uploads/locked"; originalname := "a.pdf"; size := 8 |}).
  - vm_compute. reflexivity.
  - left. vm_compute. discriminate.
Defined.

Section SuccessPath.

Variable env : Env.

Lemma isSupported_split (e : string) :
  isSupported e =
    Js.includes SupportedTypes.text e || Js.includes SupportedTypes.image e
    || Js.includes SupportedTypes.pdf e || Js.includes SupportedTypes.word e
    || Js.includes SupportedTypes.other e.
Proof.
  unfold isSupported, Js.includes, SupportedTypes.values_flat.
  cbn [concat]. rewrite !existsb_app. cbn [existsb].
  rewrite !orb_false_r, !orb_assoc. reflexivity.
Qed.

Ltac run_transform H :=
  unfold transform, gzip_to, sharp_to, zip_to, pdf_rewrite, settle, source_of,
    fs_readFile, fs_writeFile, bind, call, ret, throw in H;
  rewrite ?validatePDF_run, ?safeUnlink_run in H;
  repeat case_match;
  repeat match goal with
  | Hv : validatePDF _ _ _ = _ |- _ => rewrite validatePDF_run in Hv
  | Hv : safeUnlink _ _ _ = _ |- _ => rewrite safeUnlink_run in Hv
  end;
  simplify_eq.

Lemma transform_inr f w r w' :
  transform env f (path f) (fileExt_of (originalname f)) (fileName_of (originalname f))
    (Path.join (dirname env) "uploads") w = (Ret (inr r), w') ->
  isSupported (fileExt_of (originalname f)) = true ->
  r = Some (artifact_path env (originalname f))
  /\ exists before,
       calls w' = (calls w ++ before)%list /\ forallb quiet_call before = true.
Proof.
  intros H Hs. rewrite isSupported_split in Hs.
  unfold artifact_path, artifact_name.
  run_transform H;
    try (exfalso; cbn [orb] in Hs; congruence);
    (split; [reflexivity|]);
    cbn [calls called set_file]; rewrite <- ?app_assoc;
    first [ eexists; split; [reflexivity|]; reflexivity
          | exists []; rewrite app_nil_r; split; reflexivity ].
Qed.

Lemma transform_inl f fp fe fn od w r w' :
  transform env f fp fe fn od w = (Ret (inl r), w') ->
  r = Json 400 "Invalid PDF file" (Some "The uploaded file is not a valid PDF document").
Proof. intros H. run_transform H; reflexivity. Qed.

Lemma handler_pre_downloading req w p name w1 :
  handler_pre env req w = (Ret (Downloading p name), w1) ->
  exists f w0 before,
    file req = Some f
    /\ p = artifact_path env (originalname f)
    /\ name = "compressed-" +:+ originalname f
    /\ calls w0 = (calls w ++ before)%list
    /\ forallb quiet_call before = true
    /\ w1 = unlinked env (path f) w0.
Proof.
  unfold handler_pre. destruct (file req) as [f|]; [|discriminate].
  unfold try_catch.
  destruct (handler_try env f w) as [[s|e|e] w0'] eqn:Htry.
  - intros H. injection H as -> ->.
    unfold handler_try in Htry.
    destruct (negb (isSupported _)) eqn:Hsup.
    + unfold bind, ret in Htry. rewrite safeUnlink_run in Htry. discriminate.
    + unfold bind at 1 in Htry.
      destruct (transform env f _ _ _ _ w) as [[[resp|cfp]|e|e] w0] eqn:Ht;
        [discriminate | | discriminate | discriminate].
      unfold bind in Htry. rewrite safeUnlink_run in Htry.
      destruct cfp as [q|]; [|discriminate].
      unfold start_download, ret in Htry. injection Htry as Hp Hn Hw.
      subst q name w1.
      apply negb_false_iff in Hsup.
      apply transform_inr in Ht; [|exact Hsup].
      destruct Ht as (Hpath & before & Hc & Hq).
      injection Hpath as Hpath.
      exists f, w0, before. repeat split; assumption.
  - unfold handler_catch, bind, console_error, try_catch, ret.
    rewrite safeUnlink_run. discriminate.
  - discriminate.
Qed.

Lemma handler_try_responded f w r w1 :
  handler_try env f w = (Ret (Responded r), w1) ->
  r = Json 400 "Unsupported file type" None
  \/ r = Json 400 "Invalid PDF file" (Some "The uploaded file is not a valid PDF document").
Proof.
  unfold handler_try. destruct (negb (isSupported _)).
  - unfold bind, ret. rewrite safeUnlink_run. intros H. left. congruence.
  - unfold bind at 1.
    destruct (transform env f _ _ _ _ w) as [[[resp|cfp]|e|e] w0] eqn:Ht.
    + unfold ret. intros H. right. apply transform_inl in Ht. congruence.
    + unfold bind. rewrite safeUnlink_run.
      destruct cfp; unfold start_download, ret, throw; discriminate.
    + discriminate.
    + discriminate.
Qed.

Lemma handler_pre_throw f w e w0 :
  handler_try env f w = (Throw e, w0) ->
  handler_pre env {| file := Some f |} w =
    (Ret (Responded (Json 500 "Compression failed" (Some (err_message e)))),
     unlinked env (path f) (logged "Compression Error:" e w0)).
Proof.
  intros H. unfold handler_pre, try_catch; cbn [file]. rewrite H.
  unfold handler_catch, bind, console_error, try_catch, ret.
  rewrite safeUnlink_run. reflexivity.
Qed.

Lemma transfer_run p name w :
  transfer env p name w =
    (Ret (transferred env p name w), unlinked env p (called (CDownload p name) w)).
Proof.
  unfold transfer, download_callback, bind, call, source_of, try_catch, ret, transferred.
  rewrite safeUnlink_run. reflexivity.
Qed.

End SuccessPath.

Section Dispatch.

Lemma image_format (e : string) :
  Js.includes SupportedTypes.image e = true ->
  (String.eqb e ".jpg" || String.eqb e ".jpeg") = true
  \/ ((String.eqb e ".jpg" || String.eqb e ".jpeg") = false /\ String.eqb e ".png" = true)
  \/ ((String.eqb e ".jpg" || String.eqb e ".jpeg") = false /\ String.eqb e ".png" = false
      /\ String.eqb e ".webp" = true).
Proof.
  unfold Js.includes, SupportedTypes.image. cbn [existsb].
  destruct (String.eqb e ".jpg"), (String.eqb e ".jpeg"), (String.eqb e ".png"),
    (String.eqb e ".webp"); cbn; intros H; try discriminate H; tauto.
Qed.

Lemma transform_starts (env : Env) (f : UploadedFile) (w : World) :
  isSupported (fileExt_of (originalname f)) = true ->
  exists c rest,
    calls (snd (transform env f (path f) (fileExt_of (originalname f))
                  (fileName_of (originalname f)) (Path.join (dirname env) "uploads") w))
      = (calls w ++ c :: rest)%list
    /\ branch_starts_with env f c.
Proof.
  intros Hsup.
  unfold branch_starts_with, category, artifact_path, artifact_name.
  rewrite Hsup. cbn [negb].
  pose proof (isSupported_split (fileExt_of (originalname f))) as Hsplit.
  rewrite Hsup in Hsplit.
  pose proof (image_format (fileExt_of (originalname f))) as Himg.
  unfold transform.
  destruct (Js.includes SupportedTypes.text (fileExt_of (originalname f))) eqn:Ht.
  { unfold gzip_to, settle, source_of, bind, call, ret.
    destruct (gzip_stream env _ _ _) as [out|[partial|] err|[partial|] err]; cbn;
      eexists _, _; split; reflexivity. }
  destruct (Js.includes SupportedTypes.image (fileExt_of (originalname f))) eqn:Hi.
  { unfold sharp_to, settle, source_of, bind, call, ret.
    destruct (Himg eq_refl) as [H1 | [[H1 H2] | (H1 & H2 & H3)]];
      rewrite ?H1, ?H2, ?H3;
      destruct (sharp_toFile env _ _ _ _) as [out|[partial|] err|[partial|] err]; cbn;
      eexists _, _; (split; [reflexivity|]); eexists; reflexivity. }
  destruct (Js.includes SupportedTypes.pdf (fileExt_of (originalname f))) eqn:Hp.
  { unfold bind at 1. rewrite validatePDF_run.
    destruct (negb (pdf_verdict env (path f) w)).
    - unfold bind, ret. rewrite safeUnlink_run. cbn. rewrite <- ?List.app_assoc.
      eexists _, _; split; reflexivity.
    - unfold fs_readFile, fs_writeFile, pdf_rewrite, bind, call, ret, throw.
      repeat case_match; simplify_eq; cbn; rewrite <- ?List.app_assoc;
        eexists _, _; split; reflexivity. }
  cbn [orb] in Hsplit. rewrite <- Hsplit.
  unfold zip_to, settle, source_of, bind, call, ret.
  destruct (archiver_zip env _ _ _ _) as [out|[partial|] err|[partial|] err];
    eexists _, _; (split; [cbn; reflexivity|]);
    destruct (Js.includes SupportedTypes.word _); reflexivity.
Qed.

Lemma finish_appends (env : Env) (s : Step) (w : World) :
  exists more, calls (snd (finish env s w)) = (calls w ++ more)%list.
Proof.
  destruct s as [r|p name]; cbn [finish].
  - exists []. rewrite app_nil_r. reflexivity.
  - rewrite transfer_run. cbn. rewrite <- app_assoc. eexists. reflexivity.
Qed.

(** The branch the handler takes is the one of the category: the first
    call of a request with an upload is the call its category's branch
    starts with. *)
Lemma dispatch_follows_category (env : Env) (f : UploadedFile) (w : World) :
  exists c rest,
    calls (snd (handler env {| file := Some f |} w)) = (calls w ++ c :: rest)%list
    /\ branch_starts_with env f c.
Proof.
  assert (Hpre : exists c rest,
             calls (snd (handler_pre env {| file := Some f |} w))
               = (calls w ++ c :: rest)%list
             /\ branch_starts_with env f c).
  { unfold handler_pre, try_catch. cbn [file].
    unfold handler_try, handler_catch.
    change (Js.toLowerCase (Path.extname (originalname f)))
      with (fileExt_of (originalname f)).
    change (Path.basename (originalname f) (fileExt_of (originalname f)))
      with (fileName_of (originalname f)).
    destruct (isSupported (fileExt_of (originalname f))) eqn:Hsup; cbn [negb].
    - destruct (transform_starts env f w Hsup) as (c & rest & Hcalls & Hstart).
      unfold bind at 1.
      destruct (transform env f _ _ _ _ w) as [[[r|cfp]|e|e] w0]; cbn [snd] in Hcalls.
      + unfold ret. exists c, rest. split; assumption.
      + unfold bind. rewrite safeUnlink_run.
        destruct cfp as [p|]; unfold start_download, ret, throw.
        * exists c. eexists.
          split; [|exact Hstart]. cbn. rewrite Hcalls, <- app_assoc. reflexivity.
        * unfold console_error, try_catch, bind, ret. rewrite safeUnlink_run.
          exists c. eexists.
          split; [|exact Hstart]. cbn. rewrite Hcalls, <- !app_assoc. reflexivity.
      + unfold console_error, try_catch, bind, ret. rewrite safeUnlink_run.
        exists c. eexists.
        split; [|exact Hstart]. cbn. rewrite Hcalls, <- !app_assoc. reflexivity.
      + exists c, rest. split; assumption.
    - unfold bind, ret. rewrite safeUnlink_run.
      exists (CUnlink (path f)), [].
      split; [reflexivity|].
      unfold branch_starts_with, category. rewrite Hsup. reflexivity. }
  destruct Hpre as (c & rest & Hcalls & Hstart).
  unfold handler, bind.
  destruct (handler_pre env _ w) as [[s|e|e] w1]; cbn [snd] in Hcalls.
  - destruct (finish_appends env s w1) as [more Hmore].
    exists c, (rest ++ more)%list. split; [|exact Hstart].
    rewrite Hmore, Hcalls, <- app_assoc. reflexivity.
  - exists c, rest. split; assumption.
  - exists c, rest. split; assumption.
Qed.

End Dispatch.

Section UnlinkFaults.

Variable env : Env.
Variable g : string -> option ErrCode.

Lemma validatePDF_unlink_indep p w :
  validatePDF (with_unlink_fault g env) p w = validatePDF env p w.
Proof. reflexivity. Qed.

Lemma transform_unlink_indep f fp fe fn od w :
  fst (transform (with_unlink_fault g env) f fp fe fn od w)
    = fst (transform env f fp fe fn od w)
  /\ forall r w0,
       transform env f fp fe fn od w = (Ret (inr r), w0) ->
       transform (with_unlink_fault g env) f fp fe fn od w = (Ret (inr r), w0).
Proof.
  unfold transform.
  destruct (Js.includes SupportedTypes.text fe); [split; [reflexivity | intros; assumption]|].
  destruct (Js.includes SupportedTypes.image fe); [split; [reflexivity | intros; assumption]|].
  destruct (Js.includes SupportedTypes.pdf fe);
    [|destruct (_ || _); split; first [reflexivity | intros; assumption]].
  unfold bind, ret.
  change (validatePDF (with_unlink_fault g env) fp w) with (validatePDF env fp w).
  rewrite validatePDF_run.
  destruct (negb (pdf_verdict env fp w)).
  - rewrite !safeUnlink_run. split; [reflexivity | discriminate].
  - split; [reflexivity | intros r w0 H; exact H].
Qed.

End UnlinkFaults.

(** The handler's answer, read off the outcome of the transform. *)
Lemma handler_by_transform (env : Env) (f : UploadedFile) (w : World) :
  isSupported (fileExt_of (originalname f)) = true ->
  handler env {| file := Some f |} w =
    match transform env f (path f) (fileExt_of (originalname f))
            (fileName_of (originalname f)) (Path.join (dirname env) "uploads") w with
    | (Ret (inl r), w0) => (Ret r, w0)
    | (Ret (inr (Some p)), w0) =>
      transfer env p ("compressed-" +:+ originalname f) (unlinked env (path f) w0)
    | (Ret (inr None), w0) =>
      let e := type_error "path argument is required to res.sendFile" in
      (Ret (Json 500 "Compression failed" (Some (err_message e))),
       unlinked env (path f)
         (logged "Compression Error:" e (unlinked env (path f) w0)))
    | (Throw e, w0) =>
      (Ret (Json 500 "Compression failed" (Some (err_message e))),
       unlinked env (path f) (logged "Compression Error:" e w0))
    | (Dies e, w0) => (Dies e, w0)
    end.
Proof.
  intros Hsup.
  unfold handler, handler_pre, try_catch. cbn [file].
  unfold handler_try, handler_catch.
  change (Js.toLowerCase (Path.extname (originalname f)))
    with (fileExt_of (originalname f)).
  change (Path.basename (originalname f) (fileExt_of (originalname f)))
    with (fileName_of (originalname f)).
  rewrite Hsup. cbn [negb].
  unfold bind at 1 2.
  destruct (transform env f _ _ _ _ w) as [[[r|[p|]]|e|e] w0].
  - reflexivity.
  - unfold bind, start_download, ret. rewrite safeUnlink_run. reflexivity.
  - unfold bind, start_download, throw, console_error, try_catch, ret.
    rewrite !safeUnlink_run. reflexivity.
  - unfold bind, console_error, try_catch, ret. rewrite safeUnlink_run. reflexivity.
  - reflexivity.
Qed.

Section UnlinkFaultsOnRequests.

Variable env : Env.
Variable g : string -> option ErrCode.

Lemma handler_unlink_indep f w :
  path f <> artifact_path env (originalname f) ->
  fst (handler (with_unlink_fault g env) {| file := Some f |} w)
    = fst (handler env {| file := Some f |} w).
Proof.
  intros Hne.
  destruct (isSupported (fileExt_of (originalname f))) eqn:Hsup.
  2:{ unfold handler, handler_pre, try_catch, handler_try, bind, ret. cbn [file].
      unfold fileExt_of in Hsup. rewrite Hsup. cbn [negb].
      rewrite !safeUnlink_run. reflexivity. }
  rewrite !handler_by_transform by exact Hsup.
  cbn [dirname with_unlink_fault].
  destruct (transform_unlink_indep env g f (path f) (fileExt_of (originalname f))
              (fileName_of (originalname f))
              (Path.join (dirname env) "uploads") w) as [Hfst Hsame].
  destruct (transform env f _ _ _ _ w) as [[[r|cfp]|e|e] w0] eqn:Ht.
  - destruct (transform (with_unlink_fault g env) f _ _ _ _ w) as [[[r'|cfp']|e'|e'] w0'];
      cbn [fst] in Hfst; try discriminate Hfst.
    injection Hfst as <-. reflexivity.
  - rewrite (Hsame _ _ eq_refl).
    pose proof (transform_inr env f w cfp w0 Ht Hsup) as [-> _].
    rewrite !transfer_run. cbn [fst].
    unfold transferred, unlinked. cbn [files transfer_fault with_unlink_fault unlink_fault].
    replace (match g (path f) with
             | Some _ => files w0
             | None => delete (path f) (files w0)
             end !! artifact_path env (originalname f))
      with (files w0 !! artifact_path env (originalname f))
      by (destruct (g (path f)); [reflexivity | symmetry; apply lookup_delete_ne; exact Hne]).
    replace (match unlink_fault env (path f) with
             | Some _ => files w0
             | None => delete (path f) (files w0)
             end !! artifact_path env (originalname f))
      with (files w0 !! artifact_path env (originalname f))
      by (destruct (unlink_fault env (path f));
          [reflexivity | symmetry; apply lookup_delete_ne; exact Hne]).
    reflexivity.
  - destruct (transform (with_unlink_fault g env) f _ _ _ _ w) as [[[r'|cfp']|e'|e'] w0'];
      cbn [fst] in Hfst; try discriminate Hfst.
    injection Hfst as <-. reflexivity.
  - destruct (transform (with_unlink_fault g env) f _ _ _ _ w) as [[[r'|cfp']|e'|e'] w0'];
      cbn [fst] in Hfst; try discriminate Hfst.
    injection Hfst as <-. reflexivity.
Qed.

End UnlinkFaultsOnRequests.

(** C8. [safeUnlink] never throws, whatever the path and the disk: it
    returns normally. When the path is already absent nothing changes
    and nothing is logged; when the unlink is refused for another reason
    the files stay, the refusal is written to the console and nothing is
    thrown; when the unlink goes through the file is gone. Running it a
    second time returns normally again and leaves the same files. The
    response of a request does not depend on which unlinks fail: with
    any other failures of [unlink] the caller gets the same answer (the
    temporary source not being the artifact path itself). *)
Theorem safeUnlink_swallows_and_is_idempotent :
  (forall (env : Env) (p : string) (w : World),
     exists w1,
       safeUnlink env p w = (Ret tt, w1)
       /\ calls w1 = (calls w ++ [CUnlink p])%list
       /\ (unlink_fault env p = None -> files w !! p = None ->
           files w1 = files w /\ console w1 = console w)
       /\ (unlink_fault env p = None ->
           files w1 = delete p (files w) /\ console w1 = console w)
       /\ (unlink_fault env p = Some ENOENT ->
           files w1 = files w /\ console w1 = console w)
       /\ (forall c, unlink_fault env p = Some c -> c <> ENOENT ->
           files w1 = files w
           /\ console w1 =
              (console w ++
               [("Error deleting file: " +:+ p, fs_error c "unlink" (Some p))])%list)
       /\ exists w2, safeUnlink env p w1 = (Ret tt, w2) /\ files w2 = files w1)
  /\ (forall (env : Env) (g : string -> option ErrCode) (f : UploadedFile) (w : World),
        path f <> artifact_path env (originalname f) ->
        fst (handler (with_unlink_fault g env) {| file := Some f |} w)
          = fst (handler env {| file := Some f |} w)).
Proof.
  split; [|intros env g f w; apply handler_unlink_indep].
  intros env p w. exists (unlinked env p w).
  split; [apply safeUnlink_run|].
  split; [reflexivity|].
  unfold unlinked; cbn [files console].
  split; [intros Hf Hl; rewrite Hf; split; [apply delete_id; exact Hl | apply app_nil_r]|].
  split; [intros Hf; rewrite Hf; split; [reflexivity | apply app_nil_r]|].
  split; [intros Hf; rewrite Hf; split; [reflexivity | apply app_nil_r]|].
  split.
  - intros c Hf Hc. rewrite Hf. split; [reflexivity|].
    rewrite bool_decide_eq_false_2 by exact Hc. reflexivity.
  - exists (unlinked env p (unlinked env p w)).
    split; [apply safeUnlink_run | apply unlinked_files_idem].
Qed.

(** C8 on a disk where no file can be unlinked: the refusal is logged,
    nothing is thrown, and the caller of a text upload gets the same
    answer as when every unlink goes through. *)
Lemma safeUnlink_swallows_witness :
  (exists w1,
     safeUnlink Scenario.hostile "/app/uploads/3f9c"
       (Scenario.disk [("/app/uploads/3f9c", "hello")]) = (Ret tt, w1)
     /\ files w1 !! "/app/uploads/3f9c" = Some "hello"
     /\ List.length (console w1) = 1%nat)
  /\ fst (handler (with_unlink_fault (fun _ => Some EPERM) Scenario.quiet)
            (Scenario.upload "/app/uploads/3f9c" "report.txt" 5)
            (Scenario.disk [("/app/uploads/3f9c", "hello")]))
     = Ret (Download "compressed-report.txt" "gz(hello)").
Proof.
  destruct safeUnlink_swallows_and_is_idempotent as [Hsafe Hresp].
  split.
  - destruct (Hsafe Scenario.hostile "/app/uploads/3f9c"
                (Scenario.disk [("/app/uploads/3f9c", "hello")]))
      as (w1 & Hrun & _ & _ & _ & _ & Hother & _).
    exists w1. split; [exact Hrun|].
    destruct (Hother EPERM) as [Hf Hc]; [reflexivity | discriminate |].
    rewrite Hf, Hc. split; reflexivity.
  - rewrite (Hresp Scenario.quiet (fun _ => Some EPERM)
               {| path := "/app/uploads/3f9c"; originalname := "report.txt"; size := 5 |}).
    + vm_compute. reflexivity.
    + vm_compute. discriminate.
Defined.


(** ** The extension of a name of one component *)

Lemma final_dot_none (s : string) :
  final_dot s = None -> forallb not_dot (list_ascii_of_string s) = true.
Proof.
  induction s as [|c s IH]; [reflexivity|].
  cbn [final_dot list_ascii_of_string forallb].
  destruct (final_dot s); [discriminate|].
  unfold not_dot at 1. destruct (Ascii.eqb c Path.CHAR_DOT); [discriminate|].
  intros _. rewrite IH by reflexivity. reflexivity.
Qed.

Lemma final_dot_some (s : string) (k : nat) :
  final_dot s = Some k ->
  exists a b : string,
    s = a +:+ String Path.CHAR_DOT b
    /\ String.length a = k
    /\ forallb not_dot (list_ascii_of_string b) = true.
Proof.
  revert k. induction s as [|c s IH]; intros k; [discriminate|].
  cbn [final_dot].
  destruct (final_dot s) as [j|] eqn:Hs.
  - intros H. injection H as <-.
    destruct (IH j eq_refl) as (a & b & -> & Ha & Hb).
    exists (String c a), b. repeat split; [cbn; rewrite Ha; reflexivity | exact Hb].
  - destruct (Ascii.eqb_spec c Path.CHAR_DOT) as [->|Hc]; [|discriminate].
    intros H. injection H as <-.
    exists EmptyString, s. repeat split. apply final_dot_none. exact Hs.
Qed.

(** The scan over the characters after the final dot. *)
Lemma extname_loop_before_dot (cs rest : list ascii) :
  forall (L : Z),
    forallb not_slash cs = true ->
    forallb not_dot cs = true ->
    cs <> [] ->
    0 <= L ->
    Path.extname_loop (cs ++ rest) (L - 1) ext_init
    = Path.extname_loop rest (L - 1 - Z.of_nat (List.length cs)) (ext_entered L).
Proof.
  assert (Hgen : forall (cs : list ascii) (i L : Z),
             forallb not_slash cs = true -> forallb not_dot cs = true -> 0 <= L ->
             Path.extname_loop (cs ++ rest) i (ext_entered L)
             = Path.extname_loop rest (i - Z.of_nat (List.length cs)) (ext_entered L)).
  { clear cs. induction cs as [|c cs IH]; intros i L Hs Hd HL.
    - cbn. f_equal. lia.
    - cbn [forallb] in Hs, Hd. apply andb_prop in Hs as [Hc Hs]. apply andb_prop in Hd as [Hc' Hd].
      unfold not_slash in Hc. apply negb_true_iff in Hc.
      unfold not_dot in Hc'. apply negb_true_iff in Hc'.
      cbn [app Path.extname_loop]. rewrite Hc, Hc'.
      cbn [ext_entered Path.ext_end Path.startDot].
      replace (L =? -1) with false by (symmetry; apply Z.eqb_neq; lia).
      cbn [Path.startDot negb Z.eqb]. 
      change (Path.extname_loop (cs ++ rest) (i - 1) (ext_entered L)
              = Path.extname_loop rest (i - Z.of_nat (List.length (c :: cs))) (ext_entered L)).
      rewrite IH by assumption. f_equal. cbn [List.length]. lia. }
  intros L Hs Hd Hne HL. destruct cs as [|c cs]; [contradiction|].
  cbn [forallb] in Hs, Hd. apply andb_prop in Hs as [Hc Hs]. apply andb_prop in Hd as [Hc' Hd].
  unfold not_slash in Hc. apply negb_true_iff in Hc.
  unfold not_dot in Hc'. apply negb_true_iff in Hc'.
  cbn [app Path.extname_loop]. rewrite Hc, Hc'.
  cbn [ext_init Path.ext_end Path.startDot Z.eqb negb].
  replace (L - 1 + 1) with L by lia.
  change (Path.extname_loop (cs ++ rest) (L - 1 - 1) (ext_entered L)
          = Path.extname_loop rest (L - 1 - Z.of_nat (List.length (c :: cs))) (ext_entered L)).
  rewrite Hgen by assumption. f_equal. cbn [List.length]. lia.
Qed.

(** The scan over the characters before the final dot. *)
Lemma extname_loop_after_dot (cs : list ascii) :
  forall (i : Z) (st : Path.ExtState),
    forallb not_slash cs = true ->
    Path.startDot st <> -1 ->
    Path.ext_end st <> -1 ->
    Path.startDot (Path.extname_loop cs i st) = Path.startDot st
    /\ Path.startPart (Path.extname_loop cs i st) = Path.startPart st
    /\ Path.ext_end (Path.extname_loop cs i st) = Path.ext_end st
    /\ (cs = [] -> Path.preDotState (Path.extname_loop cs i st) = Path.preDotState st)
    /\ (cs <> [] \/ Path.preDotState st <> 0 ->
        Path.preDotState (Path.extname_loop cs i st) <> 0).
Proof.
  induction cs as [|c cs IH]; intros i st Hs Hdot Hend.
  - cbn. repeat split. intros [H|H]; [contradiction | exact H].
  - cbn [forallb] in Hs. apply andb_prop in Hs as [Hc Hs].
    unfold not_slash in Hc. apply negb_true_iff in Hc.
    cbn [Path.extname_loop]. rewrite Hc.
    apply Z.eqb_neq in Hdot, Hend. rewrite Hend, Hdot. cbn [negb].
    apply Z.eqb_neq in Hdot, Hend.
    match goal with
    | |- context [Path.extname_loop cs (i - 1) ?s] => set (st2 := s)
    end.
    assert (H2 : Path.startDot st2 = Path.startDot st
                 /\ Path.startPart st2 = Path.startPart st
                 /\ Path.ext_end st2 = Path.ext_end st
                 /\ Path.preDotState st2 <> 0).
    { subst st2. destruct (Ascii.eqb c Path.CHAR_DOT).
      - destruct (Path.preDotState st =? 1) eqn:E; cbn [negb].
        + apply Z.eqb_eq in E. repeat split. lia.
        + cbn. repeat split. lia.
      - cbn. repeat split. lia. }
    destruct H2 as (D & P & E & N).
    destruct (IH (i - 1) st2 Hs) as (D' & P' & E' & _ & N'); [congruence | congruence |].
    rewrite D', P', E', D, P, E. repeat split.
    + discriminate.
    + intros _. apply N'. right. exact N.
Qed.

Lemma substring_suffix_app (a t : string) :
  substring (String.length a) (String.length t) (a +:+ t) = t.
Proof.
  induction a as [|c a IH]; [apply substring_full | exact IH].
Qed.

Lemma slash_free_app (a b : string) :
  slash_free (a +:+ b) = slash_free a && slash_free b.
Proof. unfold slash_free. rewrite chars_app, forallb_app. reflexivity. Qed.

(** [path.extname] on a name of one component whose final dot is after
    [a]: the empty extension when nothing is before the dot, else what
    begins at the dot, the name [..] excepted. *)
Lemma extname_of_final_dot (a b : string) :
  slash_free a = true ->
  slash_free b = true ->
  forallb not_dot (list_ascii_of_string b) = true ->
  (a = EmptyString -> Path.extname (a +:+ String Path.CHAR_DOT b) = EmptyString)
  /\ (a <> EmptyString ->
      Path.extname (a +:+ String Path.CHAR_DOT b) = String Path.CHAR_DOT b
      \/ (Path.extname (a +:+ String Path.CHAR_DOT b) = EmptyString /\ b = EmptyString)).
Proof.
  intros Ha Hb Hd.
  set (name := a +:+ String Path.CHAR_DOT b).
  set (L := Path.strlen name).
  assert (HL : L = Z.of_nat (String.length a) + 1 + Z.of_nat (String.length b)).
  { unfold L, Path.strlen, name. rewrite length_app_string. cbn [String.length]. lia. }
  assert (Hback : Path.backwards name
                  = (rev (list_ascii_of_string b)
                     ++ Path.CHAR_DOT :: rev (list_ascii_of_string a))%list).
  { unfold Path.backwards, name. rewrite chars_app. cbn [list_ascii_of_string].
    rewrite rev_app_distr. cbn [rev]. rewrite <- List.app_assoc. reflexivity. }
  set (S0 := {| Path.startDot := Z.of_nat (String.length a); Path.startPart := 0;
                Path.ext_end := L; Path.ext_matchedSlash := false;
                Path.preDotState := 0 |}).
  assert (Hrun : Path.extname_loop (Path.backwards name) (L - 1) ext_init
                 = Path.extname_loop (rev (list_ascii_of_string a))
                     (Z.of_nat (String.length a) - 1) S0).
  { rewrite Hback. destruct b as [|c b].
    - cbn [list_ascii_of_string rev app Path.extname_loop].
      change (Ascii.eqb Path.CHAR_DOT Path.CHAR_FORWARD_SLASH) with false.
      change (Ascii.eqb Path.CHAR_DOT Path.CHAR_DOT) with true.
      cbn [ext_init Path.ext_end Path.startDot Path.startPart Path.ext_matchedSlash
             Path.preDotState Z.eqb Pos.eqb negb].
      cbn [String.length] in HL.
      unfold S0. f_equal; [lia|]. f_equal; lia.
    - rewrite (extname_loop_before_dot _ _ L).
      + cbn [Path.extname_loop].
        change (Ascii.eqb Path.CHAR_DOT Path.CHAR_FORWARD_SLASH) with false.
        change (Ascii.eqb Path.CHAR_DOT Path.CHAR_DOT) with true.
        cbn [ext_entered Path.ext_end Path.startDot].
        replace (L =? -1) with false by (symmetry; apply Z.eqb_neq; lia).
        cbn [Path.startDot Z.eqb Path.startPart Path.ext_end Path.ext_matchedSlash
               Path.preDotState].
        rewrite length_rev, chars_length.
        unfold S0. f_equal; [lia|]. f_equal; lia.
      + rewrite forallb_rev'. exact Hb.
      + rewrite forallb_rev'. exact Hd.
      + cbn [list_ascii_of_string rev]. intros H. apply app_eq_nil in H as [_ H]. discriminate H.
      + lia. }
  destruct (extname_loop_after_dot (rev (list_ascii_of_string a))
              (Z.of_nat (String.length a) - 1) S0) as (D & P & E & N0 & N1).
  { rewrite forallb_rev'. exact Ha. }
  { cbn. lia. }
  { cbn. lia. }
  cbn [S0 Path.startDot Path.startPart Path.ext_end Path.preDotState] in D, P, E, N0, N1.
  unfold Path.extname. fold name. fold L. fold ext_init. rewrite Hrun.
  rewrite D, P, E.
  replace (Z.of_nat (String.length a) =? -1) with false by (symmetry; apply Z.eqb_neq; lia).
  replace (L =? -1) with false by (symmetry; apply Z.eqb_neq; lia).
  cbn [orb].
  split.
  - intros ->. rewrite N0 by reflexivity. reflexivity.
  - intros Hne.
    assert (Hn : Path.preDotState
                   (Path.extname_loop (rev (list_ascii_of_string a))
                      (Z.of_nat (String.length a) - 1) S0) <> 0).
    { apply N1. left. intros H. apply (f_equal (@List.length ascii)) in H.
      rewrite length_rev, chars_length in H. destruct a; [contradiction | discriminate H]. }
    apply Z.eqb_neq in Hn. rewrite Hn. cbn [orb].
    match goal with |- context [if ?c then _ else _] => destruct c eqn:Hc end.
    + right. split; [reflexivity|].
      apply andb_prop in Hc as [Hc _]. apply andb_prop in Hc as [_ Hc].
      apply Z.eqb_eq in Hc. destruct b; [reflexivity | cbn [String.length] in HL; lia].
    + left. unfold Js.slice, name.
      replace (Z.to_nat (Z.of_nat (String.length a))) with (String.length a) by lia.
      replace (Z.to_nat (L - Z.of_nat (String.length a)))
        with (String.length (String Path.CHAR_DOT b)) by (cbn [String.length]; lia).
      apply substring_suffix_app.
Qed.

Lemma extname_without_dot (name : string) :
  slash_free name = true ->
  forallb not_dot (list_ascii_of_string name) = true ->
  Path.extname name = EmptyString.
Proof.
  intros Hs Hd. destruct name as [|c name]; [reflexivity|].
  unfold Path.extname. fold ext_init.
  rewrite <- (app_nil_r (Path.backwards (String c name))).
  rewrite (extname_loop_before_dot _ _ (Path.strlen (String c name))).
  - reflexivity.
  - unfold Path.backwards. rewrite forallb_rev'. exact Hs.
  - unfold Path.backwards. rewrite forallb_rev'. exact Hd.
  - unfold Path.backwards. cbn [list_ascii_of_string rev].
    intros H. apply app_eq_nil in H as [_ H]. discriminate H.
  - unfold Path.strlen. lia.
Qed.

(** The category of a name of one component, by its final dot. *)
Lemma category_by_final_dot (name : string) :
  slash_free name = true ->
  category (fileExt_of name)
  = match final_dot name with
    | Some 0%nat => Unsupported
    | _ => spec_category name
    end.
Proof.
  intros Hs. unfold spec_category, spec_extension.
  destruct (final_dot name) as [k|] eqn:Hk.
  - destruct (final_dot_some name k Hk) as (a & b & Hname & Ha & Hb).
    assert (Hsub : substring k (String.length name - k) name = String Path.CHAR_DOT b).
    { rewrite Hname, <- Ha, length_app_string.
      replace (String.length a + String.length (String Path.CHAR_DOT b) - String.length a)%nat
        with (String.length (String Path.CHAR_DOT b)) by lia.
      apply substring_suffix_app. }
    rewrite Hsub.
    rewrite Hname in Hs. rewrite slash_free_app in Hs. apply andb_prop in Hs as [Hsa Hsb].
    assert (Hsb' : slash_free b = true).
    { unfold slash_free in *. cbn [list_ascii_of_string forallb] in Hsb.
      apply andb_prop in Hsb as [_ Hsb]. exact Hsb. }
    destruct (extname_of_final_dot a b Hsa Hsb' Hb) as [H0 H1].
    rewrite <- Hname in H0, H1.
    destruct k as [|k].
    + unfold fileExt_of. rewrite H0 by (destruct a; [reflexivity | discriminate Ha]).
      reflexivity.
    + destruct H1 as [He | [He ->]].
      * intros ->. discriminate Ha.
      * unfold fileExt_of. rewrite He. apply category_table.
      * unfold fileExt_of. rewrite He. reflexivity.
  - unfold fileExt_of. rewrite extname_without_dot; [reflexivity | exact Hs |].
    apply final_dot_none. exact Hk.
Qed.

(** C4, refuted as stated: the name [.txt] has the extension [.txt]
    after its final dot, which the table gives Text; [path.extname]
    gives that name the empty extension, so the handler classifies the
    upload as Unsupported and answers 400. *)
Lemma leading_dot_name_is_unsupported :
  spec_extension ".txt" = ".txt"
  /\ spec_category ".txt" = Text
  /\ Path.extname ".txt" = EmptyString
  /\ category (fileExt_of ".txt") = Unsupported
  /\ fst (handler Scenario.quiet (Scenario.upload "/app/uploads/3f9c" ".txt" 5)
            (Scenario.disk [("/app/uploads/3f9c", "hello")]))
     = Ret (Json 400 "Unsupported file type" None)
  /\ ~ (forall name : string, category (fileExt_of name) = spec_category name).
Proof.
  repeat (split; [vm_compute; reflexivity|]).
  intros H. specialize (H ".txt"). vm_compute in H. discriminate H.
Qed.

(** C4, amended. The category the handler gives an extension is the
    one of the fixed table, for every string: [.txt], [.log], [.json]
    are Text; [.jpg], [.jpeg], [.png], [.webp] are Image; [.pdf] is PDF;
    [.doc], [.docx] are Document; [.zip], [.gz], [.rar], [.7z] are
    Archive; every other string, the empty one included, is Unsupported.
    The category is a total function (no input raises), and since the
    handler lowers the case of the extension before the lookup, two
    names whose extensions differ only in case get the same category.
    The extension is the one [path.extname] gives the original name: a
    name of one path component is classified by the part from its final
    dot on, except that a name whose final dot is its first character,
    like a name without a dot, is Unsupported. The handler acts on that
    category: the first call of a request is the one its category's
    branch starts with. *)
Theorem classification_follows_extname :
  (forall e : string,
     category e = classify e
     /\ (category e = Text <-> In e [".txt"; ".log"; ".json"])
     /\ (category e = Image <-> In e [".jpg"; ".jpeg"; ".png"; ".webp"])
     /\ (category e = PDF <-> In e [".pdf"])
     /\ (category e = Document <-> In e [".doc"; ".docx"])
     /\ (category e = Archive <-> In e [".zip"; ".gz"; ".rar"; ".7z"])
     /\ (category e = Unsupported <-> ~ In e known_extensions)
     /\ category (Js.toLowerCase (Js.toLowerCase e)) = category (Js.toLowerCase e))
  /\ category EmptyString = Unsupported
  /\ category (fileExt_of "IMG.PNG") = Image
  /\ (forall name1 name2 : string,
        Js.toLowerCase (Path.extname name1) = Js.toLowerCase (Path.extname name2) ->
        category (fileExt_of name1) = category (fileExt_of name2))
  /\ (forall name : string,
        slash_free name = true ->
        category (fileExt_of name)
        = match final_dot name with
          | Some 0%nat => Unsupported
          | _ => spec_category name
          end)
  /\ (forall (env : Env) (f : UploadedFile) (w : World),
        exists c rest,
          calls (snd (handler env {| file := Some f |} w)) = (calls w ++ c :: rest)%list
          /\ branch_starts_with env f c).
Proof.
  split.
  { intros e. rewrite category_table.
    split; [reflexivity|].
    split; [apply classify_in; [discriminate | reflexivity]|].
    split; [apply classify_in; [discriminate | reflexivity]|].
    split; [apply classify_in; [discriminate | reflexivity]|].
    split; [apply classify_in; [discriminate | reflexivity]|].
    split; [apply classify_in; [discriminate | reflexivity]|].
    split; [apply classify_unsupported|].
    rewrite toLowerCase_idem. reflexivity. }
  split; [reflexivity|].
  split; [reflexivity|].
  split.
  { intros name1 name2 Hn. unfold fileExt_of. rewrite Hn. reflexivity. }
  split.
  - apply category_by_final_dot.
  - apply dispatch_follows_category.
Qed.

(** C4 amended, at two names that differ in the case of the extension,
    at a name with two dots, and at names whose only dot is the first
    character. *)
Lemma classification_follows_extname_witness :
  category (fileExt_of "photo.JPeG") = category (fileExt_of "other.jpeg")
  /\ category (fileExt_of "photo.JPeG") = Image
  /\ category (fileExt_of "archive.tar.GZ") = Archive
  /\ category (fileExt_of ".pdf") = Unsupported
  /\ category (fileExt_of "README") = Unsupported.
Proof.
  destruct classification_follows_extname as (Htable & _ & _ & Hcase & Hname & _).
  destruct (Htable ".jpeg") as (_ & _ & Himg & _).
  split; [|split; [|split; [|split]]].
  - apply Hcase. vm_compute. reflexivity.
  - rewrite (Hcase "photo.JPeG" "x.jpeg") by (vm_compute; reflexivity).
    apply Himg. simpl. tauto.
  - rewrite (Hname "archive.tar.GZ") by (vm_compute; reflexivity).
    vm_compute. reflexivity.
  - rewrite (Hname ".pdf") by (vm_compute; reflexivity).
    vm_compute. reflexivity.
  - rewrite (Hname "README") by (vm_compute; reflexivity).
    vm_compute. reflexivity.
Defined.


(** C2. Whenever the handler reaches [res.download], that is, whenever
    the transform succeeded: the last call made before it is the unlink
    of the uploaded source, no unlink and no download was made earlier in
    the request, and the source is gone from the disk unless its unlink
    was refused. The transfer then ends the request for every outcome
    (sent in full, artifact unreadable, client gone), and after the
    download exactly one call follows, the unlink of the artifact, which
    is gone from the disk unless its unlink was refused. *)
Theorem source_unlinked_before_download_artifact_unlinked_once :
  forall (env : Env) (req : Request) (w : World) (p name : string) (w1 : World),
    handler_pre env req w = (Ret (Downloading p name), w1) ->
    exists (f : UploadedFile) (before : list Call),
      file req = Some f
      /\ name = "compressed-" +:+ originalname f
      /\ calls w1 = (calls w ++ before ++ [CUnlink (path f)])%list
      /\ forallb quiet_call before = true
      /\ (unlink_fault env (path f) = None -> files w1 !! path f = None)
      /\ exists w2,
           handler env req w = (Ret (transferred env p name w1), w2)
           /\ calls w2 = (calls w1 ++ [CDownload p name; CUnlink p])%list
           /\ (unlink_fault env p = None -> files w2 !! p = None).
Proof.
  intros env req w p name w1 Hpre.
  destruct (handler_pre_downloading _ _ _ _ _ _ Hpre)
    as (f & w0 & before & Hf & _ & Hname & Hcalls & Hquiet & Hw1).
  exists f, before.
  split; [exact Hf|]. split; [exact Hname|].
  split; [subst w1; unfold unlinked; cbn [calls]; rewrite Hcalls, <- app_assoc; reflexivity|].
  split; [exact Hquiet|].
  split; [intros Hu; subst w1; unfold unlinked; cbn [files]; rewrite Hu;
          apply lookup_delete_eq|].
  exists (unlinked env p (called (CDownload p name) w1)).
  split.
  - unfold handler, bind. rewrite Hpre. cbn [finish]. apply transfer_run.
  - unfold unlinked, called; cbn [calls files]. split.
    + rewrite <- app_assoc. reflexivity.
    + intros ->. apply lookup_delete_eq.
Qed.

(** C2 on a text upload while the client goes away during the transfer
    and unlinks are refused: the order of the calls is the same. *)
Lemma source_unlinked_before_download_witness :
  exists w1 w2 r,
    handler_pre Scenario.hostile (Scenario.upload "/app/uploads/3f9c" "report.txt" 5)
      (Scenario.disk [("/app/uploads/3f9c", "hello")])
      = (Ret (Downloading "/app/uploads/report.gz" "compressed-report.txt"), w1)
    /\ handler Scenario.hostile (Scenario.upload "/app/uploads/3f9c" "report.txt" 5)
         (Scenario.disk [("/app/uploads/3f9c", "hello")]) = (Ret r, w2)
    /\ calls w2 =
       (calls w1 ++ [CDownload "/app/uploads/report.gz" "compressed-report.txt";
                     CUnlink "/app/uploads/report.gz"])%list.
Proof.
  eexists. 
  assert (Hpre :
    handler_pre Scenario.hostile (Scenario.upload "/app/uploads/3f9c" "report.txt" 5)
      (Scenario.disk [("/app/uploads/3f9c", "hello")])
    = (Ret (Downloading "/app/uploads/report.gz" "compressed-report.txt"),
       snd (handler_pre Scenario.hostile
              (Scenario.upload "/app/uploads/3f9c" "report.txt" 5)
              (Scenario.disk [("/app/uploads/3f9c", "hello")])))).
  { vm_compute. reflexivity. }
  destruct (source_unlinked_before_download_artifact_unlinked_once _ _ _ _ _ _ Hpre)
    as (f & before & _ & _ & _ & _ & _ & w2 & Hrun & Hcalls & _).
  exists w2. eexists. split; [exact Hpre|]. split; [exact Hrun | exact Hcalls].
Defined.

Section FailurePath.

Variable env : Env.

(** After a throw in the [try], the [catch] touches one file only, the
    uploaded source: every other file that was on the disk when the
    error was thrown is still there when the request ends. *)
Lemma catch_keeps_other_files f w e w0 :
  handler_try env f w = (Throw e, w0) ->
  exists w',
    handler env {| file := Some f |} w =
      (Ret (Json 500 "Compression failed" (Some (err_message e))), w')
    /\ forall q, q <> path f -> files w' !! q = files w0 !! q.
Proof.
  intros H. eexists. split.
  - unfold handler, bind. rewrite (handler_pre_throw _ _ _ _ _ H). reflexivity.
  - intros q Hq. unfold unlinked, logged; cbn [files].
    destruct (unlink_fault env (path f)); [reflexivity|].
    apply lookup_delete_ne. congruence.
Qed.

Lemma handler_responses req w r w' :
  handler env req w = (Ret r, w') ->
  r = Json 400 "No file uploaded" None /\ file req = None
  \/ (exists f, file req = Some f
      /\ (r = Json 400 "Unsupported file type" None
          \/ r = Json 400 "Invalid PDF file"
                   (Some "The uploaded file is not a valid PDF document")
          \/ (exists e w0, handler_try env f w = (Throw e, w0)
              /\ r = Json 500 "Compression failed" (Some (err_message e)))
          \/ (exists name body, r = Download name body)
          \/ r = Unfinished)).
Proof.
  unfold handler, bind.
  destruct (handler_pre env req w) as [[s|e|e] w1] eqn:Hpre; [|discriminate|discriminate].
  destruct s as [r0|p name]; cbn [finish].
  - unfold ret. intros H. injection H as -> ->.
    unfold handler_pre in Hpre. destruct req as [[f|]]; cbn [file] in *.
    + right. exists f. split; [reflexivity|].
      unfold try_catch in Hpre.
      destruct (handler_try env f w) as [[s|e|e] w0] eqn:Htry.
      * injection Hpre as -> ->.
        destruct (handler_try_responded _ _ _ _ _ Htry) as [->| ->]; tauto.
      * right. right. left. exists e, w0. split; [reflexivity|].
        unfold handler_catch, bind, console_error, try_catch, ret in Hpre.
        rewrite safeUnlink_run in Hpre. congruence.
      * discriminate.
    + left. unfold ret in Hpre. split; congruence.
  - rewrite transfer_run. intros H. injection H as <- <-.
    destruct (handler_pre_downloading _ _ _ _ _ _ Hpre) as (f & _ & _ & Hf & _).
    right. exists f. split; [exact Hf|].
    unfold transferred. destruct (refused_as_dotfile env p); [tauto|].
    destruct (files w1 !! p); [|tauto].
    destruct (transfer_fault env p); [tauto|]. right. right. right. left. eauto.
Qed.

End FailurePath.

(** C1 at a text upload during whose compression the disk fills up:
    the request ends with status 500 and the uploaded source is gone,
    but the partial artifact [/app/uploads/report.gz] is still on the
    disk: the [catch] made one call, the unlink of the source. *)
Theorem failed_transform_leaves_partial_artifact :
  exists w',
    handler Scenario.disk_full (Scenario.upload "/app/uploads/3f9c" "report.txt" 5)
      (Scenario.disk [("/app/uploads/3f9c", "hello")]) =
      (Ret (Json 500 "Compression failed" (Some "ENOSPC: no space left on device, write")),
       w')
    /\ files w' !! "/app/uploads/3f9c" = None
    /\ files w' !! "/app/uploads/report.gz" = Some "gz(he"
    /\ calls w' = [CGzip "/app/uploads/3f9c" "/app/uploads/report.gz";
                   CUnlink "/app/uploads/3f9c"].
Proof.
  eexists. split; [vm_compute; reflexivity|].
  repeat split; vm_compute; reflexivity.
Qed.

(** C6 at the upload [NOTES.TXT]: it is classified as Text, but the
    lower-cased extension is not a suffix of the name, so [fileName] is
    the whole name and the artifact is [NOTES.TXT.gz], where the base
    name with extension [.gz] is [NOTES.gz]; the same upload named
    [notes.txt] gives [notes.gz]. The download name is
    [compressed-NOTES.TXT]. *)
Theorem uppercase_extension_stays_in_artifact_name :
  category (fileExt_of "NOTES.TXT") = Text
  /\ stem "NOTES.TXT" = "NOTES"
  /\ fileName_of "NOTES.TXT" = "NOTES.TXT"
  /\ fst (handler_pre Scenario.quiet (Scenario.upload "/app/uploads/3f9c" "NOTES.TXT" 5)
            (Scenario.disk [("/app/uploads/3f9c", "hello")]))
     = Ret (Downloading "/app/uploads/NOTES.TXT.gz" "compressed-NOTES.TXT")
  /\ fst (handler_pre Scenario.quiet (Scenario.upload "/app/uploads/3f9c" "notes.txt" 5)
            (Scenario.disk [("/app/uploads/3f9c", "hello")]))
     = Ret (Downloading "/app/uploads/notes.gz" "compressed-notes.txt").
Proof. repeat split; vm_compute; reflexivity. Qed.

(** C7, refuted as stated: an upload of zero bytes named [empty.txt] is
    not answered with [No file uploaded]; it is classified, compressed
    and sent back. *)
Lemma empty_upload_is_compressed :
  ~ (forall (env : Env) (req : Request) (w : World),
       (file req = None \/ exists f, file req = Some f /\ size f = 0) ->
       fst (handler env req w) = Ret (Json 400 "No file uploaded" None)).
Proof.
  intros H.
  specialize (H Scenario.quiet (Scenario.upload "/app/uploads/3f9c" "empty.txt" 0)
                (Scenario.disk [("/app/uploads/3f9c", EmptyString)])).
  assert (Hrun :
    fst (handler Scenario.quiet (Scenario.upload "/app/uploads/3f9c" "empty.txt" 0)
           (Scenario.disk [("/app/uploads/3f9c", EmptyString)]))
    = Ret (Download "compressed-empty.txt" "gz()")) by (vm_compute; reflexivity).
  rewrite Hrun in H.
  assert (Hno : Ret (Download "compressed-empty.txt" "gz()")
                = Ret (Json 400 "No file uploaded" None)).
  { apply H. right. eexists. split; reflexivity. }
  discriminate Hno.
Qed.

(** C7, amended. A request without an upload is answered with status
    400 and [No file uploaded], and nothing else happens: no call is
    made, the disk and the console are as before. A request with an
    upload, of whatever size, is never answered that way. *)
Theorem missing_upload_is_rejected_first :
  forall (env : Env) (w : World),
    handler env {| file := None |} w = (Ret (Json 400 "No file uploaded" None), w)
    /\ forall f : UploadedFile,
         fst (handler env {| file := Some f |} w) <> Ret (Json 400 "No file uploaded" None).
Proof.
  intros env w. split; [reflexivity|].
  intros f Hr.
  destruct (handler env {| file := Some f |} w) as [r w'] eqn:Hrun.
  cbn [fst] in Hr. subst r.
  apply handler_responses in Hrun. cbn [file] in Hrun.
  destruct Hrun as [[_ Hnone] | (f' & _ & [H | [H | [(e & w0 & _ & H) | [(n & b & H) | H]]]])];
    discriminate.
Qed.

(** C9, refuted as stated: when the artifact of a PDF cannot be opened
    for writing, the request ends with status 500 and the [details] of
    the body contain the absolute path of the artifact. *)
Lemma details_leak_the_artifact_path :
  exists details w',
    handler Scenario.read_only (Scenario.upload "/app/uploads/3f9c" "a.pdf" 8)
      (Scenario.disk [("/app/uploads/3f9c", "%PDF-1.4")]) =
      (Ret (Json 500 "Compression failed" (Some details)), w')
    /\ Js.contains details "/app/uploads/compressed-a.pdf" = true.
Proof.
  exists "EACCES: permission denied, open '/app/uploads/compressed-a.pdf'".
  eexists. split; vm_compute; reflexivity.
Qed.

(** C9, amended. A response has status 500 only when an error was
    thrown inside the handler's [try]; its error text is then
    [Compression failed] and its [details] are the message of that error,
    character for character: nothing is removed from it, so a path named
    in the message is in the response. *)
Theorem details_are_the_error_message :
  forall (env : Env) (req : Request) (w : World)
         (error : string) (details : option string) (w' : World),
    handler env req w = (Ret (Json 500 error details), w') ->
    exists (f : UploadedFile) (e : JsError) (w0 : World),
      file req = Some f
      /\ handler_try env f w = (Throw e, w0)
      /\ error = "Compression failed"
      /\ details = Some (err_message e)
      /\ forall p, Js.contains (err_message e) p = true ->
                   exists d, details = Some d /\ Js.contains d p = true.
Proof.
  intros env req w error details w' Hrun.
  apply handler_responses in Hrun.
  destruct Hrun as [[H _] | (f & Hf & [H | [H | [(e & w0 & Htry & H) | [(n & b & H) | H]]]])];
    try discriminate.
  injection H as -> ->.
  exists f, e, w0. repeat split; try assumption.
  intros p Hp. exists (err_message e). split; [reflexivity | exact Hp].
Qed.

(** C9 amended, on the PDF whose artifact cannot be written. *)
Lemma details_are_the_error_message_witness :
  exists e w0,
    handler_try Scenario.read_only
      {| path := "/app/uploads/3f9c"; originalname := "a.pdf"; size := 8 |}
      (Scenario.disk [("/app/uploads/3f9c", "%PDF-1.4")]) = (Throw e, w0)
    /\ Some "EACCES: permission denied, open '/app/uploads/compressed-a.pdf'"
       = Some (err_message e).
Proof.
  destruct (details_are_the_error_message Scenario.read_only
              (Scenario.upload "/app/uploads/3f9c" "a.pdf" 8)
              (Scenario.disk [("/app/uploads/3f9c", "%PDF-1.4")])
              "Compression failed"
              (Some "EACCES: permission denied, open '/app/uploads/compressed-a.pdf'")
              (snd (handler Scenario.read_only
                      (Scenario.upload "/app/uploads/3f9c" "a.pdf" 8)
                      (Scenario.disk [("/app/uploads/3f9c", "%PDF-1.4")]))))
    as (f & e & w0 & Hf & Htry & _ & Hd & _).
  - vm_compute. reflexivity.
  - injection Hf as <-. exists e, w0. split; [exact Htry | exact Hd].
Defined.

(** C3, refuted as stated: two requests upload [report.txt] under the
    distinct temporary names [/app/uploads/aaaa] and [/app/uploads/bbbb].
    Both handlers reach [res.download] with one and the same artifact
    path; the second transform has overwritten the first artifact, so the
    first caller is sent the second upload's output, and the first
    callback unlinks the artifact the second transfer was to send. *)
Lemma same_name_uploads_share_the_artifact :
  exists wA wB w',
    handler_pre Scenario.quiet (Scenario.upload "/app/uploads/aaaa" "report.txt" 5)
      (Scenario.disk [("/app/uploads/aaaa", "alpha"); ("/app/uploads/bbbb", "beta")])
      = (Ret (Downloading "/app/uploads/report.gz" "compressed-report.txt"), wA)
    /\ handler_pre Scenario.quiet (Scenario.upload "/app/uploads/bbbb" "report.txt" 4) wA
      = (Ret (Downloading "/app/uploads/report.gz" "compressed-report.txt"), wB)
    /\ interleaved Scenario.quiet
         (Scenario.upload "/app/uploads/aaaa" "report.txt" 5)
         (Scenario.upload "/app/uploads/bbbb" "report.txt" 4)
         (Scenario.disk [("/app/uploads/aaaa", "alpha"); ("/app/uploads/bbbb", "beta")])
       = (Ret (Download "compressed-report.txt" "gz(beta)", Unfinished), w').
Proof.
  do 3 eexists. split; [vm_compute; reflexivity|]. split; vm_compute; reflexivity.
Qed.

(** C3, amended. The artifact path and the download name of a request
    are functions of the original file name (and of the install
    directory) alone: two requests that upload files with the same
    original name and both reach [res.download] use the same artifact
    path and the same download name, whatever temporary source names the
    upload middleware gave them; each handler unlinks the temporary
    source it was given. *)
Theorem same_original_name_same_artifact_path :
  forall (env : Env) (f1 f2 : UploadedFile) (w1 w2 : World)
         (p1 n1 p2 n2 : string) (w1' w2' : World),
    originalname f1 = originalname f2 ->
    handler_pre env {| file := Some f1 |} w1 = (Ret (Downloading p1 n1), w1') ->
    handler_pre env {| file := Some f2 |} w2 = (Ret (Downloading p2 n2), w2') ->
    p1 = p2 /\ n1 = n2
    /\ p1 = artifact_path env (originalname f1)
    /\ last (calls w1') = Some (CUnlink (path f1))
    /\ last (calls w2') = Some (CUnlink (path f2)).
Proof.
  intros env f1 f2 w1 w2 p1 n1 p2 n2 w1' w2' Hname H1 H2.
  destruct (handler_pre_downloading _ _ _ _ _ _ H1)
    as (g1 & v1 & b1 & Hf1 & Hp1 & Hn1 & _ & _ & Hw1).
  destruct (handler_pre_downloading _ _ _ _ _ _ H2)
    as (g2 & v2 & b2 & Hf2 & Hp2 & Hn2 & _ & _ & Hw2).
  cbn [file] in Hf1, Hf2. injection Hf1 as <-. injection Hf2 as <-.
  subst. rewrite Hname.
  repeat split; unfold unlinked; cbn [calls]; apply last_snoc.
Qed.

(** C3 amended, on the two uploads of [report.txt]. *)
Lemma same_original_name_witness :
  "/app/uploads/report.gz" = "/app/uploads/report.gz"
  /\ "compressed-report.txt" = "compressed-report.txt".
Proof.
  destruct (same_original_name_same_artifact_path Scenario.quiet
              {| path := "/app/uploads/aaaa"; originalname := "report.txt"; size := 5 |}
              {| path := "/app/uploads/bbbb"; originalname := "report.txt"; size := 4 |}
              (Scenario.disk [("/app/uploads/aaaa", "alpha"); ("/app/uploads/bbbb", "beta")])
              (Scenario.disk [("/app/uploads/aaaa", "alpha"); ("/app/uploads/bbbb", "beta")])
              "/app/uploads/report.gz" "compressed-report.txt"
              "/app/uploads/report.gz" "compressed-report.txt"
              (snd (handler_pre Scenario.quiet
                      (Scenario.upload "/app/uploads/aaaa" "report.txt" 5)
                      (Scenario.disk [("/app/uploads/aaaa", "alpha");
                                      ("/app/uploads/bbbb", "beta")])))
              (snd (handler_pre Scenario.quiet
                      (Scenario.upload "/app/uploads/bbbb" "report.txt" 4)
                      (Scenario.disk [("/app/uploads/aaaa", "alpha");
                                      ("/app/uploads/bbbb", "beta")]))))
    as (Hp & Hn & _).
  - reflexivity.
  - vm_compute. reflexivity.
  - vm_compute. reflexivity.
  - split; [exact Hp | exact Hn].
Defined.

(** ** The path functions on the examples of their documentation *)

Example extname_index : Path.extname "index.html" = ".html". Proof. reflexivity. Qed.
Example extname_two : Path.extname "index.coffee.md" = ".md". Proof. reflexivity. Qed.
Example extname_trailing_dot : Path.extname "index." = ".". Proof. reflexivity. Qed.
Example extname_none : Path.extname "index" = EmptyString. Proof. reflexivity. Qed.
Example extname_dotfile : Path.extname ".index" = EmptyString. Proof. reflexivity. Qed.
Example extname_dotfile_md : Path.extname ".index.md" = ".md". Proof. reflexivity. Qed.
Example extname_dotdot : Path.extname ".." = EmptyString. Proof. reflexivity. Qed.
Example extname_dir : Path.extname "a.b/c" = EmptyString. Proof. reflexivity. Qed.
Example extname_slash : Path.extname "a/b.c//" = ".c". Proof. reflexivity. Qed.
Example basename_html :
  Path.basename "/foo/bar/baz/asdf/quux.html" ".html" = "quux". Proof. reflexivity. Qed.
Example basename_plain :
  Path.basename "/foo/bar/baz/asdf/quux.html" EmptyString = "quux.html". Proof. reflexivity. Qed.
Example basename_case :
  Path.basename "quux.HTML" ".html" = "quux.HTML". Proof. reflexivity. Qed.
Example basename_same : Path.basename ".html" ".html" = EmptyString. Proof. reflexivity. Qed.
Example basename_dir : Path.basename "aaa/bbb" "bbb" = "bbb". Proof. reflexivity. Qed.
Example basename_partial : Path.basename "a/xbb" "bb" = "x". Proof. reflexivity. Qed.
Example toLowerCase_png : Js.toLowerCase ".PnG" = ".png". Proof. reflexivity. Qed.

(** * Further properties of the handler *)

Lemma bind_run {A B} (m : M A) (k : A -> M B) (w : World) :
  bind m k w =
    match m w with
    | (Ret a, w1) => k a w1
    | (Throw e, w1) => (Throw e, w1)
    | (Dies e, w1) => (Dies e, w1)
    end.
Proof. reflexivity. Qed.

Section TransformEffects.

Variable env : Env.

Ltac open_transform H :=
  unfold transform, gzip_to, sharp_to, zip_to, pdf_rewrite, settle, source_of,
    fs_readFile, fs_writeFile, bind, call, ret, throw in H;
  rewrite ?validatePDF_run, ?safeUnlink_run in H;
  repeat case_match;
  repeat match goal with
  | Hv : validatePDF _ _ _ = _ |- _ => rewrite validatePDF_run in Hv
  | Hv : safeUnlink _ _ _ = _ |- _ => rewrite safeUnlink_run in Hv
  end;
  simplify_eq.

Lemma handler_unsupported (f : UploadedFile) (w : World) :
  isSupported (fileExt_of (originalname f)) = false ->
  handler env {| file := Some f |} w =
    (Ret (Json 400 "Unsupported file type" None), unlinked env (path f) w).
Proof.
  intros Hsup. unfold handler, handler_pre, try_catch, handler_try, bind, ret. cbn [file].
  unfold fileExt_of in Hsup. rewrite Hsup. cbn [negb].
  rewrite safeUnlink_run. reflexivity.
Qed.

Lemma transform_frame (f : UploadedFile) (w : World) r w0 :
  transform env f (path f) (fileExt_of (originalname f)) (fileName_of (originalname f))
    (Path.join (dirname env) "uploads") w = (r, w0) ->
  forall q, q <> path f -> q <> artifact_path env (originalname f) ->
            files w0 !! q = files w !! q.
Proof.
  intros H q Hq1 Hq2. unfold artifact_path, artifact_name in Hq2.
  open_transform H; cbn [files called set_file unlinked] in *;
    repeat case_match; simplify_eq;
    rewrite ?lookup_insert_ne by congruence;
    rewrite ?lookup_delete_ne by congruence;
    try reflexivity.
Qed.

Lemma transform_rejects (f : UploadedFile) fp fe fn od (w : World) resp w0 :
  transform env f fp fe fn od w = (Ret (inl resp), w0) ->
  resp = Json 400 "Invalid PDF file" (Some "The uploaded file is not a valid PDF document")
  /\ w0 = unlinked env fp (called (CReadFile fp) w)
  /\ (if Js.includes SupportedTypes.text fe then Text
      else if Js.includes SupportedTypes.image fe then Image
      else if Js.includes SupportedTypes.pdf fe then PDF
      else if Js.includes SupportedTypes.word fe || Js.includes SupportedTypes.other fe
      then (if Js.includes SupportedTypes.word fe then Document else Archive)
      else Unsupported) = PDF.
Proof.
  intros H. open_transform H.
  repeat match goal with Hb : _ = false |- _ => rewrite Hb end.
  repeat match goal with Hb : _ = true |- _ => rewrite Hb end.
  repeat split.
Qed.

Lemma transform_quiet (f : UploadedFile) fp fe fn od (w : World) r w0 :
  transform env f fp fe fn od w = (r, w0) ->
  (forall resp, r <> Ret (inl resp)) ->
  console w0 = console w
  /\ exists cs, calls w0 = (calls w ++ cs)%list /\ forallb quiet_call cs = true.
Proof.
  intros H Hr.
  open_transform H; try (exfalso; eapply Hr; reflexivity);
    cbn [console calls called set_file]; (split; [reflexivity|]);
    rewrite <- ?List.app_assoc;
    first [ eexists; split; [reflexivity|]; reflexivity
          | exists []; rewrite app_nil_r; split; reflexivity ].
Qed.

(** The transform ends the process only in the text branch and in the
    zip branch, when the stream pipeline ends in an error that has no
    listener; what the stream had written is left at the artifact
    path. *)
Lemma transform_dies (f : UploadedFile) (w : World) e w0 :
  transform env f (path f) (fileExt_of (originalname f)) (fileName_of (originalname f))
    (Path.join (dirname env) "uploads") w = (Dies e, w0) ->
  exists partial c,
    w0 = left_behind (artifact_path env (originalname f)) partial (called c w)
    /\ ((category (fileExt_of (originalname f)) = Text
         /\ c = CGzip (path f) (artifact_path env (originalname f))
         /\ gzip_stream env (path f) (artifact_path env (originalname f))
              (files w !! path f) = Unhandled partial e)
        \/ ((category (fileExt_of (originalname f)) = Document
             \/ category (fileExt_of (originalname f)) = Archive)
            /\ c = CZip (path f) (originalname f) (artifact_path env (originalname f))
            /\ archiver_zip env (path f) (originalname f)
                 (artifact_path env (originalname f)) (files w !! path f)
               = Unhandled partial e)).
Proof.
  unfold artifact_path, artifact_name, category, transform.
  rewrite (isSupported_split (fileExt_of (originalname f))).
  destruct (Js.includes SupportedTypes.text _) eqn:Ht.
  { cbn [orb negb]. unfold gzip_to, settle, source_of, bind, call, ret. cbn [files called].
    destruct (gzip_stream env _ _ _) as [out|p err|p err] eqn:Hg;
      intros H; try discriminate H.
    injection H as -> <-. eexists p, _. split; [reflexivity|].
    left. repeat split. }
  destruct (Js.includes SupportedTypes.image _) eqn:Hi.
  { intros H. exfalso. revert H.
    unfold sharp_to, settle, rejecting, source_of, bind, call, ret.
    repeat case_match; discriminate. }
  destruct (Js.includes SupportedTypes.pdf _) eqn:Hp.
  { intros H. exfalso. revert H.
    rewrite bind_run, validatePDF_run.
    unfold fs_readFile, fs_writeFile, pdf_rewrite, bind, call, ret, throw.
    rewrite ?safeUnlink_run.
    repeat case_match; try discriminate;
      repeat match goal with
      | Hv : safeUnlink _ _ _ = _ |- _ => rewrite safeUnlink_run in Hv; discriminate Hv
      end. }
  destruct (Js.includes SupportedTypes.word _) eqn:Hw.
  { cbn [orb negb]. unfold zip_to, settle, source_of, bind, call, ret. cbn [files called].
    destruct (archiver_zip env _ _ _ _) as [out|p err|p err] eqn:Hz;
      intros H; try discriminate H.
    injection H as -> <-. eexists p, _. split; [reflexivity|].
    right. split; [left; reflexivity|]. split; reflexivity. }
  destruct (Js.includes SupportedTypes.other _) eqn:Ho.
  { cbn [orb negb]. unfold zip_to, settle, source_of, bind, call, ret. cbn [files called].
    destruct (archiver_zip env _ _ _ _) as [out|p err|p err] eqn:Hz;
      intros H; try discriminate H.
    injection H as -> <-. eexists p, _. split; [reflexivity|].
    right. split; [right; reflexivity|]. split; reflexivity. }
  cbn [orb]. discriminate.
Qed.


End TransformEffects.

Section Outcomes.

Variable env : Env.

Lemma category_unsupported (e : string) :
  category e = Unsupported <-> isSupported e = false.
Proof.
  unfold category. rewrite (isSupported_split e).
  destruct (Js.includes SupportedTypes.text e); [cbn; split; discriminate|].
  destruct (Js.includes SupportedTypes.image e); [cbn; split; discriminate|].
  destruct (Js.includes SupportedTypes.pdf e); [cbn; split; discriminate|].
  destruct (Js.includes SupportedTypes.word e); [cbn; split; discriminate|].
  destruct (Js.includes SupportedTypes.other e); cbn; split; first [discriminate | reflexivity].
Qed.

(** The world a request with an upload ends in, and its answer, read
    off the outcome of the transform. *)
Lemma handler_cases (f : UploadedFile) (w : World) :
  (isSupported (fileExt_of (originalname f)) = false
   /\ handler env {| file := Some f |} w =
        (Ret (Json 400 "Unsupported file type" None), unlinked env (path f) w))
  \/ (category (fileExt_of (originalname f)) = PDF
      /\ handler env {| file := Some f |} w =
           (Ret (Json 400 "Invalid PDF file"
                   (Some "The uploaded file is not a valid PDF document")),
            unlinked env (path f) (called (CReadFile (path f)) w)))
  \/ (exists w0 cs,
        isSupported (fileExt_of (originalname f)) = true
        /\ transform env f (path f) (fileExt_of (originalname f))
             (fileName_of (originalname f)) (Path.join (dirname env) "uploads") w
           = (Ret (inr (Some (artifact_path env (originalname f)))), w0)
        /\ console w0 = console w
        /\ calls w0 = (calls w ++ cs)%list /\ forallb quiet_call cs = true
        /\ handler env {| file := Some f |} w =
             (Ret (transferred env (artifact_path env (originalname f))
                     ("compressed-" +:+ originalname f) (unlinked env (path f) w0)),
              unlinked env (artifact_path env (originalname f))
                (called (CDownload (artifact_path env (originalname f))
                           ("compressed-" +:+ originalname f))
                   (unlinked env (path f) w0))))
  \/ (exists e w0 cs,
        isSupported (fileExt_of (originalname f)) = true
        /\ transform env f (path f) (fileExt_of (originalname f))
             (fileName_of (originalname f)) (Path.join (dirname env) "uploads") w
           = (Throw e, w0)
        /\ console w0 = console w
        /\ calls w0 = (calls w ++ cs)%list /\ forallb quiet_call cs = true
        /\ handler env {| file := Some f |} w =
             (Ret (Json 500 "Compression failed" (Some (err_message e))),
              unlinked env (path f) (logged "Compression Error:" e w0)))
  \/ (exists e partial c,
        isSupported (fileExt_of (originalname f)) = true
        /\ transform env f (path f) (fileExt_of (originalname f))
             (fileName_of (originalname f)) (Path.join (dirname env) "uploads") w
           = (Dies e, left_behind (artifact_path env (originalname f)) partial (called c w))
        /\ handler env {| file := Some f |} w =
             (Dies e, left_behind (artifact_path env (originalname f)) partial (called c w))
        /\ ((category (fileExt_of (originalname f)) = Text
             /\ c = CGzip (path f) (artifact_path env (originalname f))
             /\ gzip_stream env (path f) (artifact_path env (originalname f))
                  (files w !! path f) = Unhandled partial e)
            \/ ((category (fileExt_of (originalname f)) = Document
                 \/ category (fileExt_of (originalname f)) = Archive)
                /\ c = CZip (path f) (originalname f) (artifact_path env (originalname f))
                /\ archiver_zip env (path f) (originalname f)
                     (artifact_path env (originalname f)) (files w !! path f)
                   = Unhandled partial e))).
Proof.
  destruct (isSupported (fileExt_of (originalname f))) eqn:Hsup.
  2:{ left. split; [reflexivity | apply handler_unsupported; exact Hsup]. }
  right. rewrite (handler_by_transform env f w Hsup).
  destruct (transform env f _ _ _ _ w) as [[[resp|cfp]|e|e] w0] eqn:Ht.
  - left. destruct (transform_rejects env _ _ _ _ _ _ _ _ Ht) as (-> & -> & Hcat).
    split; [|reflexivity]. unfold category. rewrite Hsup. exact Hcat.
  - right. left.
    destruct (transform_inr env f w cfp w0 Ht Hsup) as [-> _].
    destruct (transform_quiet env _ _ _ _ _ _ _ _ Ht) as (Hcon & cs & Hcs & Hq);
      [discriminate|].
    exists w0, cs. rewrite transfer_run. repeat split; assumption.
  - right. right. left.
    destruct (transform_quiet env _ _ _ _ _ _ _ _ Ht) as (Hcon & cs & Hcs & Hq);
      [discriminate|].
    exists e, w0, cs. repeat split; assumption.
  - right. right. right.
    destruct (transform_dies env f w e w0 Ht) as (partial & c & -> & Hwhy).
    exists e, partial, c. repeat split; assumption.
Qed.

End Outcomes.

(** X1. A request is answered, or the process ends on an error event
    that has no listener; no error is thrown out of the handler. The
    process ends only in the text branch, when the gzip pipeline ends in
    such an error, and in the zip branch, when the archiver does: a
    request without an upload, one with an unsupported extension, an
    image and a PDF are always answered. Without an upload the answer is
    400 [No file uploaded]; with one it is 400 [Unsupported file type]
    (only for an unsupported extension), 400 [Invalid PDF file] (only
    for a PDF), 500 [Compression failed] with the message of an error as
    details, the attachment named [compressed-] followed by the original
    name, or a transfer that was refused or did not reach its end. *)
Theorem handler_answers_or_the_process_ends :
  forall (env : Env) (req : Request) (w : World),
    (exists r w',
       handler env req w = (Ret r, w')
       /\ ((file req = None /\ r = Json 400 "No file uploaded" None)
           \/ exists f, file req = Some f
              /\ ((category (fileExt_of (originalname f)) = Unsupported
                   /\ r = Json 400 "Unsupported file type" None)
                  \/ (category (fileExt_of (originalname f)) = PDF
                      /\ r = Json 400 "Invalid PDF file"
                               (Some "The uploaded file is not a valid PDF document"))
                  \/ (category (fileExt_of (originalname f)) <> Unsupported
                      /\ exists e, r = Json 500 "Compression failed" (Some (err_message e)))
                  \/ (category (fileExt_of (originalname f)) <> Unsupported
                      /\ ((exists body, r = Download ("compressed-" +:+ originalname f) body)
                          \/ r = Unfinished)))))
    \/ (exists f e w',
          file req = Some f
          /\ handler env req w = (Dies e, w')
          /\ ((category (fileExt_of (originalname f)) = Text
               /\ exists partial,
                    gzip_stream env (path f) (artifact_path env (originalname f))
                      (files w !! path f) = Unhandled partial e)
              \/ ((category (fileExt_of (originalname f)) = Document
                   \/ category (fileExt_of (originalname f)) = Archive)
                  /\ exists partial,
                       archiver_zip env (path f) (originalname f)
                         (artifact_path env (originalname f)) (files w !! path f)
                       = Unhandled partial e))).
Proof.
  intros env [[f|]] w.
  2:{ left. eexists _, _. split; [reflexivity|]. left. split; reflexivity. }
  assert (Hyes : isSupported (fileExt_of (originalname f)) = true ->
                 category (fileExt_of (originalname f)) <> Unsupported).
  { intros Hs Hc. apply category_unsupported in Hc. congruence. }
  destruct (handler_cases env f w)
    as [[Hs Hrun] | [[Hc Hrun] | [(w0 & cs & Hs & _ & _ & _ & _ & Hrun)
                                | [(e & w0 & cs & Hs & _ & _ & _ & _ & Hrun)
                                  | (e & partial & c & Hs & _ & Hrun & Hwhy)]]]].
  - left. eexists _, _. split; [exact Hrun|]. right. exists f. split; [reflexivity|].
    left. split; [apply category_unsupported; exact Hs | reflexivity].
  - left. eexists _, _. split; [exact Hrun|]. right. exists f. split; [reflexivity|].
    right. left. split; [exact Hc | reflexivity].
  - left. eexists _, _. split; [exact Hrun|]. right. exists f. split; [reflexivity|].
    right. right. right. split; [apply Hyes; exact Hs|].
    unfold transferred. destruct (refused_as_dotfile env _); [right; reflexivity|].
    destruct (files _ !! _); [|right; reflexivity].
    destruct (transfer_fault env _); [right; reflexivity | left; eexists; reflexivity].
  - left. eexists _, _. split; [exact Hrun|]. right. exists f. split; [reflexivity|].
    right. right. left. split; [apply Hyes; exact Hs | eexists; reflexivity].
  - right. exists f, e. eexists. split; [reflexivity|]. split; [exact Hrun|].
    destruct Hwhy as [(Hc & _ & Hg) | (Hc & _ & Hz)].
    + left. split; [exact Hc | exists partial; exact Hg].
    + right. split; [exact Hc | exists partial; exact Hz].
Qed.

(** Both ways a request can go without a source on the disk: in the
    text branch the read stream's error has no listener and the process
    ends; in the zip branch the archiver writes a zip without entries,
    which is sent. *)
Example missing_text_source_ends_the_process :
  fst (handler Scenario.quiet (Scenario.upload "/app/uploads/3f9c" "report.txt" 5)
         (Scenario.disk []))
  = Dies (fs_error ENOENT "open" (Some "/app/uploads/3f9c")).
Proof. vm_compute. reflexivity. Qed.

Example missing_zip_source_gives_an_empty_zip :
  fst (handler Scenario.quiet (Scenario.upload "/app/uploads/3f9c" "notes.docx" 5)
         (Scenario.disk []))
  = Ret (Download "compressed-notes.docx" "zip()").
Proof. vm_compute. reflexivity. Qed.

(** X2. An upload whose extension is not in the table (no extension at
    all included) is answered with 400 [Unsupported file type]; the one
    call made is the unlink of the uploaded source, which is gone unless
    the unlink is refused; nothing is read, transformed or written, and
    no other file changes. *)
Theorem unsupported_upload_is_removed_and_refused :
  forall (env : Env) (f : UploadedFile) (w : World),
    category (fileExt_of (originalname f)) = Unsupported ->
    exists w',
      handler env {| file := Some f |} w = (Ret (Json 400 "Unsupported file type" None), w')
      /\ calls w' = (calls w ++ [CUnlink (path f)])%list
      /\ (unlink_fault env (path f) = None -> files w' = delete (path f) (files w))
      /\ (unlink_fault env (path f) <> None -> files w' = files w).
Proof.
  intros env f w Hc. apply category_unsupported in Hc.
  exists (unlinked env (path f) w). split; [apply handler_unsupported; exact Hc|].
  unfold unlinked; cbn [calls files]. split; [reflexivity|].
  destruct (unlink_fault env (path f)); split; congruence.
Qed.

(** X2 on an upload without extension. *)
Lemma unsupported_upload_witness :
  exists w',
    handler Scenario.quiet (Scenario.upload "/app/uploads/3f9c" "README" 5)
      (Scenario.disk [("/app/uploads/3f9c", "hello")])
      = (Ret (Json 400 "Unsupported file type" None), w')
    /\ files w' = delete "/app/uploads/3f9c" (files (Scenario.disk [("/app/uploads/3f9c", "hello")])).
Proof.
  destruct (unsupported_upload_is_removed_and_refused Scenario.quiet
              {| path := "/app/uploads/3f9c"; originalname := "README"; size := 5 |}
              (Scenario.disk [("/app/uploads/3f9c", "hello")]))
    as (w' & Hrun & _ & Hgone & _).
  - vm_compute. reflexivity.
  - exists w'. split; [exact Hrun | apply Hgone; reflexivity].
Defined.

(** X3. When a request with an upload is answered (rejection, failure
    of the transform, download sent, refused or broken off), the
    uploaded source is not on the disk afterwards, unless its unlink was
    refused. When the process ends in the transform instead, no unlink
    has been requested: the source is still on the disk as it was. *)
Theorem source_is_gone_when_answered :
  forall (env : Env) (f : UploadedFile) (w : World),
    unlink_fault env (path f) = None ->
    path f <> artifact_path env (originalname f) ->
    (forall r w',
       handler env {| file := Some f |} w = (Ret r, w') -> files w' !! path f = None)
    /\ (forall e w',
          handler env {| file := Some f |} w = (Dies e, w') ->
          files w' !! path f = files w !! path f
          /\ exists cs, calls w' = (calls w ++ cs)%list /\ forallb quiet_call cs = true).
Proof.
  intros env f w Hu Hne.
  destruct (handler_cases env f w)
    as [[Hs Hrun] | [[Hc Hrun] | [(w0 & cs & Hs & _ & _ & _ & _ & Hrun)
                                | [(e & w0 & cs & Hs & _ & _ & _ & _ & Hrun)
                                  | (e & partial & c & Hs & _ & Hrun & Hwhy)]]]];
    rewrite Hrun; (split; [intros r w' H | intros e' w' H]); try discriminate H;
    injection H as _ <-; unfold unlinked, called, logged; cbn [files]; rewrite ?Hu;
    try apply lookup_delete_eq.
  - destruct (unlink_fault env (artifact_path env (originalname f)));
      [apply lookup_delete_eq|].
    rewrite lookup_delete_ne by congruence. apply lookup_delete_eq.
  - split.
    + destruct partial as [d|]; cbn [left_behind set_file files]; [|reflexivity].
      apply lookup_insert_ne. congruence.
    + exists [c]. split.
      * destruct partial; reflexivity.
      * destruct Hwhy as [(_ & -> & _) | (_ & -> & _)]; reflexivity.
Qed.

(** X3 on a text upload whose compression fails on the write stream,
    which is answered, and on one whose read stream fails, which is
    not. *)
Lemma source_is_gone_witness :
  files (snd (handler Scenario.disk_full (Scenario.upload "/app/uploads/3f9c" "report.txt" 5)
                (Scenario.disk [("/app/uploads/3f9c", "hello")])))
    !! "/app/uploads/3f9c" = None
  /\ files (snd (handler Faults.failing_read
                   (Scenario.upload "/app/uploads/3f9c" "report.txt" 5)
                   (Scenario.disk [("/app/uploads/3f9c", "hello")])))
       !! "/app/uploads/3f9c" = Some "hello".
Proof.
  split.
  - destruct (source_is_gone_when_answered Scenario.disk_full
                {| path := "/app/uploads/3f9c"; originalname := "report.txt"; size := 5 |}
                (Scenario.disk [("/app/uploads/3f9c", "hello")])) as [Hgone _].
    + reflexivity.
    + vm_compute. discriminate.
    + eapply Hgone. vm_compute. reflexivity.
  - destruct (source_is_gone_when_answered Faults.failing_read
                {| path := "/app/uploads/3f9c"; originalname := "report.txt"; size := 5 |}
                (Scenario.disk [("/app/uploads/3f9c", "hello")])) as [_ Hstays].
    + reflexivity.
    + vm_compute. discriminate.
    + destruct (Hstays (fs_error EIO "read" None)
                  (snd (handler Faults.failing_read
                          (Scenario.upload "/app/uploads/3f9c" "report.txt" 5)
                          (Scenario.disk [("/app/uploads/3f9c", "hello")])))) as [Hsrc _].
      * vm_compute. reflexivity.
      * etransitivity; [exact Hsrc|]. vm_compute. reflexivity.
Defined.

(** X4. In every answered request with an upload the unlink of the
    uploaded source is requested once: the calls before it are reads and
    transform calls only, and it is followed by nothing, or by the
    download of the artifact and the unlink of the artifact. In a
    request that ends the process the one call made is the call of the
    stream pipeline: neither the source nor the artifact is unlinked. *)
Theorem source_unlink_is_requested_once :
  forall (env : Env) (f : UploadedFile) (w : World),
    (exists r before after,
       fst (handler env {| file := Some f |} w) = Ret r
       /\ calls (snd (handler env {| file := Some f |} w))
          = (calls w ++ before ++ CUnlink (path f) :: after)%list
       /\ forallb quiet_call before = true
       /\ (after = []
           \/ after = [CDownload (artifact_path env (originalname f))
                         ("compressed-" +:+ originalname f);
                       CUnlink (artifact_path env (originalname f))]))
    \/ (exists e c,
          fst (handler env {| file := Some f |} w) = Dies e
          /\ calls (snd (handler env {| file := Some f |} w)) = (calls w ++ [c])%list
          /\ (c = CGzip (path f) (artifact_path env (originalname f))
              \/ c = CZip (path f) (originalname f) (artifact_path env (originalname f)))).
Proof.
  intros env f w.
  destruct (handler_cases env f w)
    as [[Hs Hrun] | [[Hc Hrun] | [(w0 & cs & Hs & _ & _ & Hcs & Hq & Hrun)
                                | [(e & w0 & cs & Hs & _ & _ & Hcs & Hq & Hrun)
                                  | (e & partial & c & Hs & _ & Hrun & Hwhy)]]]];
    rewrite Hrun; unfold unlinked, called, logged; cbn [fst snd calls].
  - left. eexists _, [], []. split; [reflexivity|].
    split; [reflexivity|]. split; [reflexivity | left; reflexivity].
  - left. eexists _, [CReadFile (path f)], []. rewrite <- List.app_assoc.
    split; [reflexivity|]. split; [reflexivity|]. split; [reflexivity | left; reflexivity].
  - left. eexists _, cs, _. rewrite Hcs, <- !List.app_assoc.
    split; [reflexivity|]. split; [reflexivity|]. split; [exact Hq | right; reflexivity].
  - left. eexists _, cs, []. rewrite Hcs, <- !List.app_assoc.
    split; [reflexivity|]. split; [reflexivity|]. split; [exact Hq | left; reflexivity].
  - right. exists e, c. split; [reflexivity|]. split.
    + destruct partial; reflexivity.
    + destruct Hwhy as [(_ & -> & _) | (_ & -> & _)]; [left | right]; reflexivity.
Qed.

(** X5. A request changes no file but its uploaded source and its
    artifact path: every other path holds after the request what it held
    before, whatever the outcome. *)
Theorem only_source_and_artifact_change :
  forall (env : Env) (f : UploadedFile) (w : World) (q : string),
    q <> path f ->
    q <> artifact_path env (originalname f) ->
    files (snd (handler env {| file := Some f |} w)) !! q = files w !! q.
Proof.
  intros env f w q Hq1 Hq2.
  assert (Hun : forall p v, q <> p -> files (unlinked env p v) !! q = files v !! q).
  { intros p v Hp. unfold unlinked; cbn [files].
    destruct (unlink_fault env p); [reflexivity|]. apply lookup_delete_ne. congruence. }
  destruct (handler_cases env f w)
    as [[Hs Hrun] | [[Hc Hrun] | [(w0 & cs & Hs & Ht & _ & _ & _ & Hrun)
                                | [(e & w0 & cs & Hs & Ht & _ & _ & _ & Hrun)
                                  | (e & partial & c & Hs & Ht & Hrun & _)]]]];
    rewrite Hrun; cbn [snd].
  - apply Hun. exact Hq1.
  - rewrite Hun by exact Hq1. reflexivity.
  - rewrite Hun by exact Hq2. unfold called; cbn [files]. rewrite Hun by exact Hq1.
    apply (transform_frame env f w _ _ Ht); assumption.
  - rewrite Hun by exact Hq1. unfold logged; cbn [files].
    apply (transform_frame env f w _ _ Ht); assumption.
  - apply (transform_frame env f w _ _ Ht); assumption.
Qed.

(** X5 on a text upload beside another file of the upload directory. *)
Lemma only_source_and_artifact_change_witness :
  files (snd (handler Scenario.quiet (Scenario.upload "/app/uploads/aaaa" "report.txt" 5)
                (Scenario.disk [("/app/uploads/aaaa", "alpha"); ("/app/uploads/bbbb", "beta")])))
    !! "/app/uploads/bbbb" = Some "beta".
Proof.
  rewrite (only_source_and_artifact_change Scenario.quiet
             {| path := "/app/uploads/aaaa"; originalname := "report.txt"; size := 5 |}).
  - vm_compute. reflexivity.
  - discriminate.
  - vm_compute. discriminate.
Defined.

Lemma prefix_app (a p s : string) :
  String.prefix (a +:+ p) (a +:+ s) = String.prefix p s.
Proof.
  induction a as [|c a IH]; [reflexivity|].
  change (String c a +:+ p) with (String c (a +:+ p)).
  change (String c a +:+ s) with (String c (a +:+ s)).
  cbn [String.prefix]. destruct (ascii_dec c c) as [_|Hc]; [exact IH | contradiction].
Qed.

(** A file of the upload directory is refused by [res.download] exactly
    when its name begins with a dot. *)
Lemma refused_by_name (env : Env) (name : string) :
  refused_as_dotfile env (Path.join (Path.join (dirname env) "uploads") name)
  = Js.startsWith name ".".
Proof.
  unfold refused_as_dotfile, Js.startsWith.
  change (Path.join (Path.join (dirname env) "uploads") name)
    with (Path.join (dirname env) "uploads" +:+ ("/" +:+ name)).
  rewrite prefix_app.
  change ("/" +:+ name) with (String "/" name).
  cbn [String.prefix]. destruct (ascii_dec "/" "/") as [_|Hc]; [reflexivity | contradiction].
Qed.


Section Branches.

Variable env : Env.

Lemma category_branch (e : string) :
  match category e with
  | Text => Js.includes SupportedTypes.text e = true
  | Image => Js.includes SupportedTypes.text e = false
             /\ Js.includes SupportedTypes.image e = true
  | PDF => Js.includes SupportedTypes.text e = false
           /\ Js.includes SupportedTypes.image e = false
           /\ Js.includes SupportedTypes.pdf e = true
  | Document | Archive =>
    Js.includes SupportedTypes.text e = false
    /\ Js.includes SupportedTypes.image e = false
    /\ Js.includes SupportedTypes.pdf e = false
    /\ Js.includes SupportedTypes.word e || Js.includes SupportedTypes.other e = true
  | Unsupported => isSupported e = false
  end.
Proof.
  unfold category. rewrite (isSupported_split e).
  destruct (Js.includes SupportedTypes.text e); [reflexivity|].
  destruct (Js.includes SupportedTypes.image e); [split; reflexivity|].
  destruct (Js.includes SupportedTypes.pdf e); [repeat split|].
  destruct (Js.includes SupportedTypes.word e); [repeat split|].
  destruct (Js.includes SupportedTypes.other e); cbn; repeat split.
Qed.

Lemma category_supported (e : string) :
  category e <> Unsupported -> isSupported e = true.
Proof.
  intros H. destruct (isSupported e) eqn:Hs; [reflexivity|].
  exfalso. apply H. apply category_unsupported. exact Hs.
Qed.

(** The answer of a request whose transform wrote [out] at the artifact
    path and threw nothing. *)
Lemma handler_after_success (f : UploadedFile) (w w0 : World) (out : string) :
  isSupported (fileExt_of (originalname f)) = true ->
  transform env f (path f) (fileExt_of (originalname f)) (fileName_of (originalname f))
    (Path.join (dirname env) "uploads") w
    = (Ret (inr (Some (artifact_path env (originalname f)))), w0) ->
  files w0 !! artifact_path env (originalname f) = Some out ->
  path f <> artifact_path env (originalname f) ->
  transfer_fault env (artifact_path env (originalname f)) = None ->
  handler env {| file := Some f |} w =
    (Ret (if Js.startsWith (artifact_name (originalname f)) "." then Unfinished
          else Download ("compressed-" +:+ originalname f) out),
     unlinked env (artifact_path env (originalname f))
       (called (CDownload (artifact_path env (originalname f))
                  ("compressed-" +:+ originalname f))
          (unlinked env (path f) w0))).
Proof.
  intros Hs Ht Hout Hne Htf.
  rewrite (handler_by_transform env f w Hs), Ht, transfer_run.
  f_equal. f_equal. unfold transferred, unlinked; cbn [files].
  unfold artifact_path at 1. rewrite refused_by_name.
  replace (match unlink_fault env (path f) with
           | Some _ => files w0
           | None => delete (path f) (files w0)
           end !! artifact_path env (originalname f)) with (Some out).
  - rewrite Htf. reflexivity.
  - destruct (unlink_fault env (path f)); [symmetry; exact Hout|].
    rewrite lookup_delete_ne by exact Hne. symmetry. exact Hout.
Qed.

End Branches.

(** X6. A text upload ([.txt], [.log], [.json]) whose gzip stream
    finishes has its artifact at [uploads/<fileName>.gz]. When the
    transfer is not broken off, the answer is the attachment
    [compressed-<name>] whose body is the output of the stream, unless
    the artifact's name begins with a dot (the upload [.eslintrc.json]
    gives [.eslintrc.gz]): such a file is refused by [res.download] and
    the caller gets no answer. In both cases the calls are the gzip from
    the source to the artifact, the unlink of the source, the download
    and the unlink of the artifact, in this order. *)
Theorem text_upload_is_gzipped :
  forall (env : Env) (f : UploadedFile) (w : World) (out : string),
    category (fileExt_of (originalname f)) = Text ->
    gzip_stream env (path f) (artifact_path env (originalname f)) (files w !! path f)
      = Produced out ->
    path f <> artifact_path env (originalname f) ->
    transfer_fault env (artifact_path env (originalname f)) = None ->
    exists w',
      handler env {| file := Some f |} w
        = (Ret (if Js.startsWith (fileName_of (originalname f) +:+ ".gz") "."
                then Unfinished
                else Download ("compressed-" +:+ originalname f) out), w')
      /\ artifact_path env (originalname f)
         = Path.join (Path.join (dirname env) "uploads")
             (fileName_of (originalname f) +:+ ".gz")
      /\ calls w' =
         (calls w ++
          [CGzip (path f) (artifact_path env (originalname f));
           CUnlink (path f);
           CDownload (artifact_path env (originalname f)) ("compressed-" +:+ originalname f);
           CUnlink (artifact_path env (originalname f))])%list.
Proof.
  intros env f w out Hc Hg Hne Htf.
  pose proof (category_branch (fileExt_of (originalname f))) as Hb. rewrite Hc in Hb.
  assert (Han : artifact_name (originalname f) = fileName_of (originalname f) +:+ ".gz")
    by (unfold artifact_name; rewrite Hb; reflexivity).
  assert (Hap : artifact_path env (originalname f)
                = Path.join (Path.join (dirname env) "uploads")
                    (fileName_of (originalname f) +:+ ".gz"))
    by (unfold artifact_path; rewrite Han; reflexivity).
  eexists. split; [|split; [exact Hap|]].
  - rewrite <- Han.
    apply (handler_after_success env f w
             (set_file (artifact_path env (originalname f)) out
                (called (CGzip (path f) (artifact_path env (originalname f))) w))).
    + apply category_supported. rewrite Hc. discriminate.
    + unfold transform. rewrite Hb. rewrite <- Hap.
      unfold gzip_to, settle, source_of, bind, call, ret. cbn [files called].
      rewrite Hg. reflexivity.
    + cbn [files set_file]. apply lookup_insert_eq.
    + exact Hne.
    + exact Htf.
  - unfold unlinked, called, set_file; cbn [calls]. rewrite <- !List.app_assoc. reflexivity.
Qed.

(** X6 on [report.txt], which is sent, and on [.eslintrc.json], which
    is compressed and then refused. *)
Lemma text_upload_witness :
  (exists w',
     handler Scenario.quiet (Scenario.upload "/app/uploads/3f9c" "report.txt" 5)
       (Scenario.disk [("/app/uploads/3f9c", "hello")])
       = (Ret (Download "compressed-report.txt" "gz(hello)"), w'))
  /\ (exists w',
        handler Scenario.quiet (Scenario.upload "/app/uploads/3f9c" ".eslintrc.json" 2)
          (Scenario.disk [("/app/uploads/3f9c", "{}")])
          = (Ret Unfinished, w')
        /\ calls w' = [CGzip "/app/uploads/3f9c" "/app/uploads/.eslintrc.gz";
                       CUnlink "/app/uploads/3f9c";
                       CDownload "/app/uploads/.eslintrc.gz" "compressed-.eslintrc.json";
                       CUnlink "/app/uploads/.eslintrc.gz"]).
Proof.
  split.
  - destruct (text_upload_is_gzipped Scenario.quiet
                {| path := "/app/uploads/3f9c"; originalname := "report.txt"; size := 5 |}
                (Scenario.disk [("/app/uploads/3f9c", "hello")]) "gz(hello)")
      as (w' & Hrun & _).
    + vm_compute. reflexivity.
    + vm_compute. reflexivity.
    + vm_compute. discriminate.
    + reflexivity.
    + exists w'. exact Hrun.
  - destruct (text_upload_is_gzipped Scenario.quiet
                {| path := "/app/uploads/3f9c"; originalname := ".eslintrc.json"; size := 2 |}
                (Scenario.disk [("/app/uploads/3f9c", "{}")]) "gz({})")
      as (w' & Hrun & _ & Hcalls).
    + vm_compute. reflexivity.
    + vm_compute. reflexivity.
    + vm_compute. discriminate.
    + reflexivity.
    + exists w'. split; [exact Hrun | exact Hcalls].
Defined.

Lemma encoder_of_image (e : string) :
  category e = Image -> exists fmt, encoder_of e = Some fmt.
Proof.
  intros Hc. pose proof (category_branch e) as Hb. rewrite Hc in Hb.
  destruct Hb as [_ Hi]. unfold encoder_of.
  destruct (image_format e Hi) as [H1 | [[H1 H2] | (H1 & H2 & H3)]];
    rewrite ?H1, ?H2, ?H3; eexists; reflexivity.
Qed.





(** X9. A Word document ([.doc], [.docx]) or an archive ([.zip], [.gz],
    [.rar], [.7z]) is put into a zip by one and the same branch, under an
    entry named as the original file; when the archiver finishes, the
    artifact is at [uploads/<fileName>.zip]. When the transfer is not
    broken off, the answer is the attachment [compressed-<name>] whose
    body is the archiver's output, unless the artifact's name begins
    with a dot (the upload [.notes.docx] gives [.notes.zip]): such a file
    is refused by [res.download] and the caller gets no answer. In both
    cases the artifact is unlinked after the download. *)
Theorem document_or_archive_is_zipped :
  forall (env : Env) (f : UploadedFile) (w : World) (out : string),
    (category (fileExt_of (originalname f)) = Document
     \/ category (fileExt_of (originalname f)) = Archive) ->
    archiver_zip env (path f) (originalname f) (artifact_path env (originalname f))
      (files w !! path f) = Produced out ->
    path f <> artifact_path env (originalname f) ->
    transfer_fault env (artifact_path env (originalname f)) = None ->
    exists w',
      handler env {| file := Some f |} w
        = (Ret (if Js.startsWith (fileName_of (originalname f) +:+ ".zip") "."
                then Unfinished
                else Download ("compressed-" +:+ originalname f) out), w')
      /\ artifact_path env (originalname f)
         = Path.join (Path.join (dirname env) "uploads")
             (fileName_of (originalname f) +:+ ".zip")
      /\ calls w' =
         (calls w ++
          [CZip (path f) (originalname f) (artifact_path env (originalname f));
           CUnlink (path f);
           CDownload (artifact_path env (originalname f)) ("compressed-" +:+ originalname f);
           CUnlink (artifact_path env (originalname f))])%list.
Proof.
  intros env f w out Hc Hz Hne Htf.
  pose proof (category_branch (fileExt_of (originalname f))) as Hb.
  assert (Hb' : Js.includes SupportedTypes.text (fileExt_of (originalname f)) = false
                /\ Js.includes SupportedTypes.image (fileExt_of (originalname f)) = false
                /\ Js.includes SupportedTypes.pdf (fileExt_of (originalname f)) = false
                /\ Js.includes SupportedTypes.word (fileExt_of (originalname f))
                   || Js.includes SupportedTypes.other (fileExt_of (originalname f)) = true)
    by (destruct Hc as [Hc|Hc]; rewrite Hc in Hb; exact Hb).
  destruct Hb' as (Ht & Hi & Hpdf & Hwo).
  assert (Han : artifact_name (originalname f) = fileName_of (originalname f) +:+ ".zip")
    by (unfold artifact_name; rewrite Ht, Hi, Hpdf; reflexivity).
  assert (Hap : artifact_path env (originalname f)
                = Path.join (Path.join (dirname env) "uploads")
                    (fileName_of (originalname f) +:+ ".zip"))
    by (unfold artifact_path; rewrite Han; reflexivity).
  eexists. split; [|split; [exact Hap|]].
  - rewrite <- Han.
    apply (handler_after_success env f w
             (set_file (artifact_path env (originalname f)) out
                (called (CZip (path f) (originalname f)
                           (artifact_path env (originalname f))) w))).
    + apply category_supported. destruct Hc as [Hc|Hc]; rewrite Hc; discriminate.
    + unfold transform. rewrite Ht, Hi, Hpdf, Hwo. rewrite <- Hap.
      unfold zip_to, settle, source_of, bind, call, ret. cbn [files called].
      rewrite Hz. reflexivity.
    + cbn [files set_file]. apply lookup_insert_eq.
    + exact Hne.
    + exact Htf.
  - unfold unlinked, called, set_file; cbn [calls]. rewrite <- !List.app_assoc. reflexivity.
Qed.

(** X9 on an archive that is zipped once more and sent, and on
    [.notes.docx], which is zipped and then refused. *)
Lemma document_or_archive_witness :
  (exists w',
     handler Scenario.quiet (Scenario.upload "/app/uploads/3f9c" "logs.gz" 5)
       (Scenario.disk [("/app/uploads/3f9c", "bytes")])
       = (Ret (Download "compressed-logs.gz" "zip(logs.gz:bytes)"), w'))
  /\ (exists w',
        handler Scenario.quiet (Scenario.upload "/app/uploads/3f9c" ".notes.docx" 5)
          (Scenario.disk [("/app/uploads/3f9c", "bytes")])
          = (Ret Unfinished, w')
        /\ last (calls w') = Some (CUnlink "/app/uploads/.notes.zip")).
Proof.
  split.
  - destruct (document_or_archive_is_zipped Scenario.quiet
                {| path := "/app/uploads/3f9c"; originalname := "logs.gz"; size := 5 |}
                (Scenario.disk [("/app/uploads/3f9c", "bytes")]) "zip(logs.gz:bytes)")
      as (w' & Hrun & _).
    + right. vm_compute. reflexivity.
    + vm_compute. reflexivity.
    + vm_compute. discriminate.
    + reflexivity.
    + exists w'. exact Hrun.
  - destruct (document_or_archive_is_zipped Scenario.quiet
                {| path := "/app/uploads/3f9c"; originalname := ".notes.docx"; size := 5 |}
                (Scenario.disk [("/app/uploads/3f9c", "bytes")]) "zip(.notes.docx:bytes)")
      as (w' & Hrun & _ & Hcalls).
    + left. vm_compute. reflexivity.
    + vm_compute. reflexivity.
    + vm_compute. discriminate.
    + reflexivity.
    + exists w'. split; [exact Hrun|]. rewrite Hcalls. reflexivity.
Defined.

(** X10. A PDF upload that begins with [%PDF-] but that the library
    cannot parse or re-serialize is answered with 500 [Compression
    failed] and the library's message; the write of an artifact is not
    reached, the uploaded source is unlinked, the error is on the
    console, and no file other than the source has changed. *)
Theorem unparsable_pdf_leaves_no_artifact :
  forall (env : Env) (f : UploadedFile) (w : World) (data : string) (e : JsError),
    category (fileExt_of (originalname f)) = PDF ->
    read_fault env (path f) = None ->
    files w !! path f = Some data ->
    Js.startsWith data "%PDF-" = true ->
    pdf_load_save env data = inl e ->
    exists w',
      handler env {| file := Some f |} w
        = (Ret (Json 500 "Compression failed" (Some (err_message e))), w')
      /\ calls w' =
         (calls w ++ [CReadFile (path f); CReadFile (path f); CPdfRewrite;
                      CUnlink (path f)])%list
      /\ (forall q, q <> path f -> files w' !! q = files w !! q)
      /\ (unlink_fault env (path f) = None ->
          files w' !! path f = None
          /\ console w' = (console w ++ [("Compression Error:", e)])%list).
Proof.
  intros env f w data e Hc Hr Hd Hp Hl.
  pose proof (category_branch (fileExt_of (originalname f))) as Hb. rewrite Hc in Hb.
  destruct Hb as (Ht & Hi & Hpdf).
  assert (Hs : isSupported (fileExt_of (originalname f)) = true)
    by (apply category_supported; rewrite Hc; discriminate).
  eexists. split.
  - rewrite (handler_by_transform env f w Hs).
    unfold transform. rewrite Ht, Hi, Hpdf.
    rewrite bind_run, validatePDF_run.
    unfold pdf_verdict. rewrite Hr, Hd, Hp. cbn [negb].
    unfold fs_readFile, fs_writeFile, pdf_rewrite, bind, call, ret, throw.
    cbn [files called]. rewrite Hr, Hd, Hl. reflexivity.
  - unfold unlinked, logged, called; cbn [calls files console].
    split; [rewrite <- !List.app_assoc; reflexivity|].
    split.
    + intros q Hq. destruct (unlink_fault env (path f)); [reflexivity|].
      apply lookup_delete_ne. congruence.
    + intros ->. split; [apply lookup_delete_eq | apply app_nil_r].
Qed.

(** X10 on a PDF the library rejects. *)
Lemma unparsable_pdf_witness :
  exists w',
    handler Faults.broken_pdf (Scenario.upload "/app/uploads/3f9c" "a.pdf" 8)
      (Scenario.disk [("/app/uploads/3f9c", "%PDF-1.4")])
      = (Ret (Json 500 "Compression failed" (Some "Failed to parse PDF document")), w')
    /\ files w' !! "/app/uploads/compressed-a.pdf" = None.
Proof.
  destruct (unparsable_pdf_leaves_no_artifact Faults.broken_pdf
              {| path := "/app/uploads/3f9c"; originalname := "a.pdf"; size := 8 |}
              (Scenario.disk [("/app/uploads/3f9c", "%PDF-1.4")]) "%PDF-1.4"
              (type_error "Failed to parse PDF document"))
    as (w' & Hrun & _ & Hframe & _).
  - vm_compute. reflexivity.
  - reflexivity.
  - vm_compute. reflexivity.
  - vm_compute. reflexivity.
  - reflexivity.
  - exists w'. split; [exact Hrun|].
    rewrite Hframe by discriminate. vm_compute. reflexivity.
Defined.

(** X11. When the gzip stream of a text upload fails after it has left
    a partial output at the artifact path, the request is answered with
    500 and the stream's message, the source is unlinked, and the
    partial output is still at the artifact path when the request ends:
    the failure path unlinks nothing but the source. *)
Theorem partial_gzip_output_stays :
  forall (env : Env) (f : UploadedFile) (w : World) (partial : string) (e : JsError),
    category (fileExt_of (originalname f)) = Text ->
    gzip_stream env (path f) (artifact_path env (originalname f)) (files w !! path f)
      = Failed (Some partial) e ->
    path f <> artifact_path env (originalname f) ->
    exists w',
      handler env {| file := Some f |} w
        = (Ret (Json 500 "Compression failed" (Some (err_message e))), w')
      /\ files w' !! artifact_path env (originalname f) = Some partial
      /\ calls w' =
         (calls w ++ [CGzip (path f) (artifact_path env (originalname f));
                      CUnlink (path f)])%list.
Proof.
  intros env f w partial e Hc Hg Hne.
  pose proof (category_branch (fileExt_of (originalname f))) as Hb. rewrite Hc in Hb.
  assert (Hap : artifact_path env (originalname f)
                = Path.join (Path.join (dirname env) "uploads")
                    (fileName_of (originalname f) +:+ ".gz"))
    by (unfold artifact_path, artifact_name; rewrite Hb; reflexivity).
  assert (Hs : isSupported (fileExt_of (originalname f)) = true)
    by (apply category_supported; rewrite Hc; discriminate).
  eexists. split.
  - rewrite (handler_by_transform env f w Hs).
    unfold transform. rewrite Hb. rewrite <- Hap.
    unfold gzip_to, settle, source_of, bind, call, ret. cbn [files called].
    rewrite Hg. reflexivity.
  - unfold unlinked, logged, called, set_file; cbn [calls files]. split.
    + destruct (unlink_fault env (path f)); [apply lookup_insert_eq|].
      rewrite lookup_delete_ne by exact Hne. apply lookup_insert_eq.
    + rewrite <- !List.app_assoc. reflexivity.
Qed.

(** X11 on [report.txt] while the disk fills up. *)
Lemma partial_gzip_output_witness :
  exists w',
    handler Scenario.disk_full (Scenario.upload "/app/uploads/3f9c" "report.txt" 5)
      (Scenario.disk [("/app/uploads/3f9c", "hello")])
      = (Ret (Json 500 "Compression failed"
                (Some (err_message (fs_error ENOSPC "write" None)))), w')
    /\ files w' !! "/app/uploads/report.gz" = Some "gz(he".
Proof.
  destruct (partial_gzip_output_stays Scenario.disk_full
              {| path := "/app/uploads/3f9c"; originalname := "report.txt"; size := 5 |}
              (Scenario.disk [("/app/uploads/3f9c", "hello")]) "gz(he"
              (fs_error ENOSPC "write" None))
    as (w' & Hrun & Hstay & _).
  - vm_compute. reflexivity.
  - reflexivity.
  - vm_compute. discriminate.
  - exists w'. split; [exact Hrun | exact Hstay].
Defined.

(** X12. After a request whose transform succeeded and whose two
    unlinks were not refused, whether or not the transfer reached its
    end, the disk is the disk of before without the uploaded source and
    without the artifact, and nothing was written to the console. *)
Theorem disk_after_success :
  forall (env : Env) (f : UploadedFile) (w : World) (p name : string) (w1 : World),
    handler_pre env {| file := Some f |} w = (Ret (Downloading p name), w1) ->
    unlink_fault env (path f) = None ->
    unlink_fault env p = None ->
    p = artifact_path env (originalname f)
    /\ files (snd (handler env {| file := Some f |} w)) !! path f = None
    /\ files (snd (handler env {| file := Some f |} w)) !! p = None
    /\ (forall q, q <> path f -> q <> p ->
          files (snd (handler env {| file := Some f |} w)) !! q = files w !! q)
    /\ console (snd (handler env {| file := Some f |} w)) = console w.
Proof.
  intros env f w p name w1 Hpre Hu1 Hu2.
  destruct (handler_pre_downloading env _ _ _ _ _ Hpre)
    as (g & v & before & Hg & Hp & _).
  cbn [file] in Hg. injection Hg as <-. subst p.
  split; [reflexivity|].
  assert (Hrun : handler env {| file := Some f |} w
                 = transfer env (artifact_path env (originalname f)) name w1)
    by (unfold handler; rewrite bind_run, Hpre; reflexivity).
  destruct (handler_cases env f w)
    as [[Hs Hh] | [[Hc Hh] | [(w0 & cs & Hs & Ht & Hcon & _ & _ & Hh)
                             | [(e & w0 & cs & Hs & _ & _ & _ & _ & Hh)
                               | (e & partial & c & Hs & _ & Hh & _)]]]];
    try (rewrite Hrun, transfer_run in Hh; discriminate Hh);
    try (rewrite Hrun, transfer_run in Hh; injection Hh as Hh _;
         unfold transferred in Hh; repeat case_match; discriminate Hh).
  rewrite Hh. unfold unlinked, called; cbn [snd console files].
  rewrite Hu1, Hu2, !app_nil_r.
  split.
  { destruct (decide (artifact_path env (originalname f) = path f)) as [->|Hne].
    - apply lookup_delete_eq.
    - rewrite lookup_delete_ne by exact Hne. apply lookup_delete_eq. }
  split; [apply lookup_delete_eq|].
  split; [|exact Hcon].
  intros q Hq1 Hq2.
  rewrite !lookup_delete_ne by congruence.
  apply (transform_frame env f w _ _ Ht); assumption.
Qed.

(** X12 on [report.txt] while the client goes away during the
    transfer. *)
Lemma disk_after_success_witness :
  files (snd (handler (with_unlink_fault (fun _ => None) Scenario.hostile)
                (Scenario.upload "/app/uploads/3f9c" "report.txt" 5)
                (Scenario.disk [("/app/uploads/3f9c", "hello")])))
    !! "/app/uploads/report.gz" = None.
Proof.
  destruct (disk_after_success (with_unlink_fault (fun _ => None) Scenario.hostile)
              {| path := "/app/uploads/3f9c"; originalname := "report.txt"; size := 5 |}
              (Scenario.disk [("/app/uploads/3f9c", "hello")])
              "/app/uploads/report.gz" "compressed-report.txt"
              (snd (handler_pre (with_unlink_fault (fun _ => None) Scenario.hostile)
                      (Scenario.upload "/app/uploads/3f9c" "report.txt" 5)
                      (Scenario.disk [("/app/uploads/3f9c", "hello")]))))
    as (_ & _ & Hgone & _).
  - vm_compute. reflexivity.
  - reflexivity.
  - reflexivity.
  - exact Hgone.
Defined.

Lemma prefix_is_append (s p : string) :
  Js.startsWith s p = true <-> exists rest, s = p +:+ rest.
Proof.
  unfold Js.startsWith. revert s. induction p as [|a p IH]; intros s.
  - split; [intros _; exists s; reflexivity | intros _; destruct s; reflexivity].
  - destruct s as [|b s]; cbn [String.prefix].
    + split; [discriminate | intros [rest H]; discriminate H].
    + destruct (ascii_dec a b) as [->|Hab].
      * rewrite IH. split; intros [rest H]; exists rest.
        -- rewrite H. reflexivity.
        -- injection H as H. exact H.
      * split; [discriminate | intros [rest H]; injection H as H _; congruence].
Qed.

(** X13. [validatePDF] answers [true] exactly when the file can be read
    and its content begins with the five characters [%PDF-]; it changes
    no file and writes nothing to the console. A readable file of fewer
    than five characters, the empty file included, is not a valid
    PDF. *)
Theorem validatePDF_is_the_prefix_test :
  forall (env : Env) (p : string) (w : World),
    exists b w',
      validatePDF env p w = (Ret b, w')
      /\ files w' = files w
      /\ console w' = console w
      /\ calls w' = (calls w ++ [CReadFile p])%list
      /\ (b = true <->
          read_fault env p = None
          /\ exists data rest, files w !! p = Some data /\ data = "%PDF-" +:+ rest)
      /\ (forall data, files w !! p = Some data -> (String.length data < 5)%nat -> b = false).
Proof.
  intros env p w. exists (pdf_verdict env p w), (called (CReadFile p) w).
  split; [apply validatePDF_run|].
  repeat (split; [reflexivity|]).
  assert (Hpre : forall data, Js.startsWith data "%PDF-" = true
                              <-> exists rest, data = "%PDF-" +:+ rest)
    by (intros data; apply prefix_is_append).
  unfold pdf_verdict. split.
  - split.
    + intros H. destruct (read_fault env p); [discriminate H|]. split; [reflexivity|].
      destruct (files w !! p) as [data|]; [|discriminate H].
      apply Hpre in H. destruct H as [rest ->]. exists ("%PDF-" +:+ rest), rest.
      split; reflexivity.
    + intros (-> & data & rest & -> & ->). apply Hpre. exists rest. reflexivity.
  - intros data -> Hlen. destruct (read_fault env p); [reflexivity|].
    destruct (Js.startsWith data "%PDF-") eqn:Hs; [|reflexivity].
    apply Hpre in Hs. destruct Hs as [rest ->]. simpl in Hlen. lia.
Qed.

Section TwoRequests.

Variable env : Env.

Lemma handler_pre_by_transform (f : UploadedFile) (w : World) :
  handler_pre env {| file := Some f |} w =
    if isSupported (fileExt_of (originalname f)) then
      match transform env f (path f) (fileExt_of (originalname f))
              (fileName_of (originalname f)) (Path.join (dirname env) "uploads") w with
      | (Ret (inl r), w0) => (Ret (Responded r), w0)
      | (Ret (inr (Some p)), w0) =>
        (Ret (Downloading p ("compressed-" +:+ originalname f)), unlinked env (path f) w0)
      | (Ret (inr None), w0) =>
        let e := type_error "path argument is required to res.sendFile" in
        (Ret (Responded (Json 500 "Compression failed" (Some (err_message e)))),
         unlinked env (path f)
           (logged "Compression Error:" e (unlinked env (path f) w0)))
      | (Throw e, w0) =>
        (Ret (Responded (Json 500 "Compression failed" (Some (err_message e)))),
         unlinked env (path f) (logged "Compression Error:" e w0))
      | (Dies e, w0) => (Dies e, w0)
      end
    else (Ret (Responded (Json 400 "Unsupported file type" None)), unlinked env (path f) w).
Proof.
  unfold handler_pre, try_catch. cbn [file].
  unfold handler_try, handler_catch.
  change (Js.toLowerCase (Path.extname (originalname f)))
    with (fileExt_of (originalname f)).
  change (Path.basename (originalname f) (fileExt_of (originalname f)))
    with (fileName_of (originalname f)).
  destruct (isSupported (fileExt_of (originalname f))); cbn [negb].
  - rewrite bind_run.
    destruct (transform env f _ _ _ _ w) as [[[r|[p|]]|e|e] w0].
    + reflexivity.
    + unfold bind, start_download, ret. rewrite safeUnlink_run. reflexivity.
    + unfold bind, start_download, throw, console_error, try_catch, ret.
      rewrite !safeUnlink_run. reflexivity.
    + unfold bind, console_error, try_catch, ret. rewrite safeUnlink_run. reflexivity.
    + reflexivity.
  - unfold bind, ret. rewrite safeUnlink_run. reflexivity.
Qed.



(** Nothing is thrown out of the handler's [try] and [catch]. *)
Lemma handler_pre_catches (req : Request) (w : World) (e : JsError) (w1 : World) :
  handler_pre env req w <> (Throw e, w1).
Proof.
  destruct req as [[f|]]; [|discriminate].
  rewrite handler_pre_by_transform.
  destruct (isSupported _); [|discriminate].
  destruct (transform env f _ _ _ _ w) as [[[r|[p|]]|e'|e'] w0]; discriminate.
Qed.




Lemma handler_by_pre (req : Request) (w : World) (s : Step) (w1 : World) :
  handler_pre env req w = (Ret s, w1) ->
  handler env req w = finish env s w1.
Proof. intros H. unfold handler. rewrite bind_run, H. reflexivity. Qed.




End TwoRequests.



(** X13 on an empty file. *)
Lemma validatePDF_witness :
  fst (validatePDF Scenario.quiet "/app/uploads/3f9c"
         (Scenario.disk [("/app/uploads/3f9c", EmptyString)])) = Ret false.
Proof.
  destruct (validatePDF_is_the_prefix_test Scenario.quiet "/app/uploads/3f9c"
              (Scenario.disk [("/app/uploads/3f9c", EmptyString)]))
    as (b & w' & Hrun & _ & _ & _ & _ & Hshort).
  rewrite Hrun. cbn [fst]. f_equal.
  apply (Hshort EmptyString); [vm_compute; reflexivity | simpl; lia].
Defined.

(** X15. When the name of an upload is one path component and its
    extension is written in lower case, [fileName] is the name without
    the extension, and a request that reaches the download has its
    artifact at [uploads/<fileName>.gz] for text,
    [uploads/compressed-<name>] for images and PDFs and
    [uploads/<fileName>.zip] for documents and archives, and offers it
    as [compressed-<name>]. *)
Theorem artifact_is_named_by_rule :
  forall (env : Env) (f : UploadedFile) (w : World) (p name : string) (w1 : World),
    handler_pre env {| file := Some f |} w = (Ret (Downloading p name), w1) ->
    slash_free (originalname f) = true ->
    Js.toLowerCase (Path.extname (originalname f)) = Path.extname (originalname f) ->
    name = "compressed-" +:+ originalname f
    /\ originalname f = fileName_of (originalname f) +:+ Path.extname (originalname f)
    /\ match category (fileExt_of (originalname f)) with
       | Text =>
         p = Path.join (Path.join (dirname env) "uploads")
               (fileName_of (originalname f) +:+ ".gz")
       | Image | PDF =>
         p = Path.join (Path.join (dirname env) "uploads")
               ("compressed-" +:+ originalname f)
       | Document | Archive =>
         p = Path.join (Path.join (dirname env) "uploads")
               (fileName_of (originalname f) +:+ ".zip")
       | Unsupported => False
       end.
Proof.
  intros env f w p name w1 Hpre Hfree Hlow.
  destruct (handler_pre_downloading env _ _ _ _ _ Hpre)
    as (g & _ & _ & Hg & Hp & Hn & _).
  cbn [file] in Hg. injection Hg as <-.
  split; [exact Hn|].
  assert (Hsup : isSupported (fileExt_of (originalname f)) = true).
  { rewrite handler_pre_by_transform in Hpre.
    destruct (isSupported _); [reflexivity | discriminate Hpre]. }
  assert (Hne : Path.extname (originalname f) <> EmptyString).
  { intros He. unfold fileExt_of in Hsup. rewrite He in Hsup. discriminate Hsup. }
  destruct (lowercase_extension_is_stripped _ Hfree Hne Hlow) as [Hfn Hsplit].
  split; [rewrite Hfn; exact Hsplit|].
  pose proof (artifact_naming_rule _ Hfree Hlow) as Hrule.
  subst p. unfold artifact_path.
  destruct (category (fileExt_of (originalname f))) eqn:Hc;
    try (rewrite Hrule, <- ?Hfn; reflexivity).
  apply category_unsupported in Hc. congruence.
Qed.

(** X15 on [report.docx]. *)
Lemma artifact_is_named_by_rule_witness :
  "report.docx" = fileName_of "report.docx" +:+ Path.extname "report.docx"
  /\ "/app/uploads/report.zip"
     = Path.join (Path.join (dirname Scenario.quiet) "uploads")
         (fileName_of "report.docx" +:+ ".zip").
Proof.
  destruct (artifact_is_named_by_rule Scenario.quiet
              {| path := "/app/uploads/3f9c"; originalname := "report.docx"; size := 5 |}
              (Scenario.disk [("/app/uploads/3f9c", "hello")])
              "/app/uploads/report.zip" "compressed-report.docx"
              (snd (handler_pre Scenario.quiet
                      (Scenario.upload "/app/uploads/3f9c" "report.docx" 5)
                      (Scenario.disk [("/app/uploads/3f9c", "hello")]))))
    as (_ & Hsplit & Hp).
  - vm_compute. reflexivity.
  - vm_compute. reflexivity.
  - vm_compute. reflexivity.
  - split; [exact Hsplit|].
    change (category (fileExt_of (originalname
              {| path := "/app/uploads/3f9c"; originalname := "report.docx"; size := 5 |})))
      with Document in Hp.
    exact Hp.
Defined.

(** ** Extensions that are not in lower case *)

Section OtherSuffix.

Lemma toLowerCase_length (s : string) :
  String.length (Js.toLowerCase s) = String.length s.
Proof. induction s as [|c s IH]; simpl; [reflexivity | rewrite IH; reflexivity]. Qed.

Lemma chars_inj (s t : string) :
  list_ascii_of_string s = list_ascii_of_string t -> s = t.
Proof.
  intros H. rewrite <- (string_of_list_ascii_of_string s),
    <- (string_of_list_ascii_of_string t), H. reflexivity.
Qed.

(** Two lists of one length that differ have a last place where they
    differ, after which they are equal. *)
Lemma last_difference (l l' : list ascii) :
  List.length l = List.length l' -> l <> l' ->
  exists p p' a a' t,
    l = (p ++ a :: t)%list /\ l' = (p' ++ a' :: t)%list /\ a <> a'
    /\ List.length p = List.length p'.
Proof.
  revert l'. induction l as [|x xs IH]; intros [|y ys] Hlen Hne; try discriminate Hlen.
  - contradiction.
  - cbn [List.length] in Hlen. injection Hlen as Hlen.
    destruct (decide (xs = ys)) as [->|Hxy].
    + exists [], [], x, y, ys. repeat split. congruence.
    + destruct (IH ys Hlen Hxy) as (p & p' & a & a' & t & -> & -> & Ha & Hp).
      exists (x :: p), (y :: p'), a, a', t. repeat split; [exact Ha | simpl; congruence].
Qed.

Lemma suffix_loop_partial (e : string) (l : list ascii) :
  forall (pre post rest : list ascii) (i : Z) (st : Path.BaseState),
    list_ascii_of_string e = (pre ++ rev l ++ post)%list ->
    Path.extIdx st = Z.of_nat (List.length pre) + Z.of_nat (List.length l) - 1 ->
    pre <> [] ->
    Z.of_nat (List.length l) - 1 <= i ->
    forallb not_slash l = true ->
    Path.basename_suffix_loop e (l ++ rest) i st =
    Path.basename_suffix_loop e rest (i - Z.of_nat (List.length l))
      match l with
      | [] => st
      | _ :: _ =>
        {| Path.base_start := Path.base_start st;
           Path.base_end := Path.base_end st;
           Path.base_matchedSlash :=
             if Path.firstNonSlashEnd st =? -1 then false else Path.base_matchedSlash st;
           Path.extIdx := Z.of_nat (List.length pre) - 1;
           Path.firstNonSlashEnd :=
             if Path.firstNonSlashEnd st =? -1 then i + 1 else Path.firstNonSlashEnd st |}
      end.
Proof.
  induction l as [|c l IH]; intros pre post rest i st He Hidx Hpre Hi Hfree.
  { cbn [app List.length]. f_equal. lia. }
  cbn [forallb] in Hfree. apply andb_prop in Hfree as [Hc Hfree].
  unfold not_slash in Hc. apply negb_true_iff in Hc.
  assert (Hpl : (0 < List.length pre)%nat) by (destruct pre; [contradiction | simpl; lia]).
  cbn [List.length] in *. cbn [app Path.basename_suffix_loop]. rewrite Hc.
  assert (Hget : Path.charAt e (Z.of_nat (List.length pre) + Z.of_nat (List.length l))
                 = Some c).
  { unfold Path.charAt.
    replace (Z.of_nat (List.length pre) + Z.of_nat (List.length l) <? 0) with false
      by (symmetry; apply Z.ltb_ge; lia).
    rewrite get_nth_error, He. cbn [rev]. rewrite <- !List.app_assoc.
    rewrite nth_error_app2 by lia.
    rewrite nth_error_app2 by (rewrite length_rev; lia).
    replace (Z.to_nat (Z.of_nat (List.length pre) + Z.of_nat (List.length l))
             - List.length pre - List.length (rev l))%nat with 0%nat
      by (rewrite length_rev; lia).
    reflexivity. }
  set (st1 := if Path.firstNonSlashEnd st =? -1 then _ else st).
  assert (Hidx1 : Path.extIdx st1 = Z.of_nat (List.length pre) + Z.of_nat (List.length l)).
  { subst st1. destruct (Path.firstNonSlashEnd st =? -1); cbn; lia. }
  assert (Hend1 : Path.base_end st1 = Path.base_end st)
    by (subst st1; destruct (Path.firstNonSlashEnd st =? -1); reflexivity).
  assert (Hstart1 : Path.base_start st1 = Path.base_start st)
    by (subst st1; destruct (Path.firstNonSlashEnd st =? -1); reflexivity).
  assert (Hms1 : Path.base_matchedSlash st1
                 = if Path.firstNonSlashEnd st =? -1 then false else Path.base_matchedSlash st)
    by (subst st1; destruct (Path.firstNonSlashEnd st =? -1); reflexivity).
  assert (Hf1 : Path.firstNonSlashEnd st1
                = if Path.firstNonSlashEnd st =? -1 then i + 1 else Path.firstNonSlashEnd st)
    by (subst st1; destruct (Path.firstNonSlashEnd st =? -1); reflexivity).
  assert (Hf1' : Path.firstNonSlashEnd st1 <> -1).
  { rewrite Hf1. destruct (Path.firstNonSlashEnd st =? -1) eqn:Hf; [lia|].
    apply Z.eqb_neq. exact Hf. }
  clearbody st1.
  rewrite Hidx1.
  replace (0 <=? Z.of_nat (List.length pre) + Z.of_nat (List.length l)) with true
    by (symmetry; apply Z.leb_le; lia).
  rewrite Hget. rewrite bool_decide_eq_true_2 by reflexivity.
  replace (Z.of_nat (List.length pre) + Z.of_nat (List.length l) - 1 =? -1) with false
    by (symmetry; apply Z.eqb_neq; lia).
  rewrite (IH pre (c :: post) rest (i - 1)).
  - replace (i - 1 - Z.of_nat (List.length l)) with (i - Z.of_nat (S (List.length l)))
      by lia.
    f_equal.
    destruct l as [|c' l'].
    + cbn [List.length]. rewrite Hstart1, Hend1, Hms1, Hf1.
      f_equal. lia.
    + cbn [Path.base_start Path.base_end Path.base_matchedSlash Path.extIdx
           Path.firstNonSlashEnd].
      apply Z.eqb_neq in Hf1'. rewrite Hf1'.
      rewrite Hstart1, Hend1, Hms1, Hf1. reflexivity.
  - rewrite He. cbn [rev]. rewrite <- !List.app_assoc. reflexivity.
  - cbn [Path.extIdx]. lia.
  - exact Hpre.
  - lia.
  - exact Hfree.
Qed.

Lemma suffix_loop_mismatch (e : string) (c : ascii) (rest : list ascii) (i : Z)
    (st : Path.BaseState) :
  not_slash c = true ->
  0 <= Path.extIdx st ->
  Path.charAt e (Path.extIdx st) <> Some c ->
  0 <= i ->
  forallb not_slash rest = true ->
  Path.basename_suffix_loop e (c :: rest) i st =
    {| Path.base_start := Path.base_start st;
       Path.base_end :=
         if Path.firstNonSlashEnd st =? -1 then i + 1 else Path.firstNonSlashEnd st;
       Path.base_matchedSlash :=
         if Path.firstNonSlashEnd st =? -1 then false else Path.base_matchedSlash st;
       Path.extIdx := -1;
       Path.firstNonSlashEnd :=
         if Path.firstNonSlashEnd st =? -1 then i + 1 else Path.firstNonSlashEnd st |}.
Proof.
  intros Hc Hidx Hget Hi Hfree.
  unfold not_slash in Hc. apply negb_true_iff in Hc.
  cbn [Path.basename_suffix_loop]. rewrite Hc.
  destruct (Path.firstNonSlashEnd st =? -1) eqn:Hf;
    cbn [Path.base_start Path.base_end Path.base_matchedSlash Path.extIdx
         Path.firstNonSlashEnd];
    (replace (0 <=? Path.extIdx st) with true by (symmetry; apply Z.leb_le; lia));
    (rewrite bool_decide_eq_false_2 by (intros H; apply Hget; symmetry; exact H));
    rewrite suffix_loop_done; cbn; try reflexivity; try lia; try exact Hfree;
    try (apply Z.eqb_neq; exact Hf).
Qed.

(** [basename] leaves a name whole when the suffix it is given has the
    length of the name's ending but is not that ending. *)
Lemma basename_keeps_other_suffix (s e e' : string) :
  s <> EmptyString ->
  String.length e' = String.length e ->
  e' <> e ->
  slash_free (s +:+ e) = true ->
  Path.basename (s +:+ e) e' = s +:+ e.
Proof.
  intros Hs Hlen Hne Hfree.
  assert (Hls : (0 < String.length s)%nat) by (destruct s; [contradiction | simpl; lia]).
  destruct (last_difference (list_ascii_of_string e') (list_ascii_of_string e))
    as (p' & p & a' & a & t & He' & He & Ha & Hp).
  { rewrite !chars_length. exact Hlen. }
  { intros H. apply Hne. apply chars_inj. exact H. }
  assert (Hle : (0 < String.length e')%nat).
  { rewrite <- chars_length, He', length_app. simpl. lia. }
  unfold slash_free in Hfree. rewrite chars_app, He, !forallb_app in Hfree.
  cbn [forallb] in Hfree.
  apply andb_prop in Hfree as [Hfs Hfe]. apply andb_prop in Hfe as [Hfp Hfe].
  apply andb_prop in Hfe as [Hfa Hft].
  assert (Hlen_e : String.length e = (List.length p + S (List.length t))%nat)
    by (rewrite <- chars_length, He, length_app; reflexivity).
  assert (Hlen_e' : String.length e' = (List.length p' + S (List.length t))%nat)
    by (rewrite <- chars_length, He', length_app; reflexivity).
  unfold Path.basename.
  replace (0 <? Path.strlen e') with true
    by (symmetry; apply Z.ltb_lt; unfold Path.strlen; lia).
  replace (Path.strlen e' <=? Path.strlen (s +:+ e)) with true
    by (symmetry; apply Z.leb_le; unfold Path.strlen; rewrite length_app_string; lia).
  cbn [andb].
  replace (String.eqb e' (s +:+ e)) with false.
  2:{ symmetry. apply String.eqb_neq. intros Heq.
      apply (f_equal String.length) in Heq. rewrite length_app_string in Heq. lia. }
  unfold Path.backwards. rewrite chars_app, He.
  replace (rev (list_ascii_of_string s ++ p ++ a :: t))
    with (rev t ++ a :: (rev p ++ rev (list_ascii_of_string s)))%list
    by (rewrite !rev_app_distr; cbn [rev]; rewrite <- !List.app_assoc; reflexivity).
  assert (Hrest : forallb not_slash (rev p ++ rev (list_ascii_of_string s)) = true)
    by (rewrite forallb_app, !forallb_rev', Hfp, Hfs; reflexivity).
  assert (Hget : Path.charAt e' (Z.of_nat (List.length p')) <> Some a).
  { unfold Path.charAt.
    replace (Z.of_nat (List.length p') <? 0) with false by (symmetry; apply Z.ltb_ge; lia).
    rewrite Nat2Z.id, get_nth_error, He'.
    rewrite nth_error_app2 by lia. rewrite Nat.sub_diag. cbn. congruence. }
  assert (Htotal : Path.strlen (s +:+ e)
                   = Z.of_nat (String.length s + List.length p + S (List.length t))).
  { unfold Path.strlen. rewrite length_app_string, Hlen_e. f_equal. lia. }
  assert (Hfinish : forall st : Path.BaseState,
            Path.base_start st = 0 ->
            Path.base_end st = Path.strlen (s +:+ e) ->
            (let e0 := if Path.base_start st =? Path.base_end st
                       then Path.firstNonSlashEnd st
                       else if Path.base_end st =? -1 then Path.strlen (s +:+ e)
                            else Path.base_end st in
             Js.slice (s +:+ e) (Path.base_start st) e0) = s +:+ e).
  { intros st H0 H1. cbn zeta. rewrite H0, H1.
    replace (0 =? Path.strlen (s +:+ e)) with false
      by (symmetry; apply Z.eqb_neq; lia).
    replace (Path.strlen (s +:+ e) =? -1) with false
      by (symmetry; apply Z.eqb_neq; lia).
    unfold Js.slice, Path.strlen. replace (Z.to_nat 0) with 0%nat by reflexivity.
    rewrite Z.sub_0_r, Nat2Z.id. apply substring_full. }
  rewrite (suffix_loop_partial e' (rev t) (p' ++ [a']) []).
  - remember (rev t) as l eqn:Hl.
    assert (Hll : List.length l = List.length t) by (subst l; apply length_rev).
    destruct l as [|c0 l0].
    + rewrite suffix_loop_mismatch.
      * apply Hfinish; cbn; [reflexivity|]. cbn in Hll. rewrite Htotal. lia.
      * exact Hfa.
      * cbn. unfold Path.strlen. lia.
      * cbn [Path.extIdx]. unfold Path.strlen. rewrite Hlen_e'. cbn in Hll.
        replace (Z.of_nat (List.length p' + S (List.length t)) - 1)
          with (Z.of_nat (List.length p')) by lia.
        exact Hget.
      * cbn. rewrite Htotal. lia.
      * exact Hrest.
    + rewrite suffix_loop_mismatch.
      * apply Hfinish; cbn; [reflexivity|].
        replace (Path.strlen (s +:+ e) - 1 + 1 =? -1) with false
          by (symmetry; apply Z.eqb_neq; lia).
        lia.
      * exact Hfa.
      * cbn. rewrite length_app. cbn. lia.
      * cbn [Path.extIdx]. rewrite length_app. cbn [List.length].
        replace (Z.of_nat (List.length p' + 1) - 1) with (Z.of_nat (List.length p')) by lia.
        exact Hget.
      * rewrite Htotal, Hll. lia.
      * exact Hrest.
  - rewrite rev_involutive, app_nil_r, <- List.app_assoc. exact He'.
  - cbn [Path.extIdx]. rewrite length_rev, length_app. unfold Path.strlen.
    rewrite Hlen_e'. cbn. lia.
  - destruct p'; discriminate.
  - rewrite length_rev, Htotal. lia.
  - rewrite forallb_rev'. exact Hft.
Qed.

End OtherSuffix.

(** X16. When the name of an upload is one path component whose
    extension is not written in lower case, the lower-cased extension is
    not taken off: [fileName] is the whole original name, so the
    artifact of a text upload is at [uploads/<name>.gz] and that of a
    document or an archive at [uploads/<name>.zip], the original
    extension included. *)
Theorem extension_not_in_lower_case_is_kept :
  forall (env : Env) (name : string),
    slash_free name = true ->
    Path.extname name <> EmptyString ->
    Js.toLowerCase (Path.extname name) <> Path.extname name ->
    fileName_of name = name
    /\ match category (fileExt_of name) with
       | Text =>
         artifact_path env name
         = Path.join (Path.join (dirname env) "uploads") (name +:+ ".gz")
       | Document | Archive =>
         artifact_path env name
         = Path.join (Path.join (dirname env) "uploads") (name +:+ ".zip")
       | Image | PDF =>
         artifact_path env name
         = Path.join (Path.join (dirname env) "uploads") ("compressed-" +:+ name)
       | Unsupported => True
       end.
Proof.
  intros env name Hfree Hne Hup.
  assert (Hfn : fileName_of name = name).
  { destruct (extname_is_a_suffix name Hfree Hne) as (d & Hd & Hext).
    assert (Hsplit : name = substring 0 d name +:+ Path.extname name)
      by (rewrite Hext; apply substring_split; lia).
    unfold fileName_of, fileExt_of. rewrite Hsplit at 1 3.
    apply basename_keeps_other_suffix.
    - intros Hs. apply (f_equal String.length) in Hs.
      rewrite substring_length in Hs by lia. simpl in Hs. lia.
    - apply toLowerCase_length.
    - exact Hup.
    - rewrite <- Hsplit. exact Hfree. }
  split; [exact Hfn|].
  unfold artifact_path, artifact_name. rewrite Hfn.
  pose proof (category_branch (fileExt_of name)) as Hb.
  destruct (category (fileExt_of name)); [| | | | |exact I].
  - rewrite Hb. reflexivity.
  - destruct Hb as [-> ->]. reflexivity.
  - destruct Hb as (-> & -> & ->). reflexivity.
  - destruct Hb as (-> & -> & -> & _). reflexivity.
  - destruct Hb as (-> & -> & -> & _). reflexivity.
Qed.

(** X16 on [NOTES.TXT]. *)
Lemma extension_not_in_lower_case_witness :
  fileName_of "NOTES.TXT" = "NOTES.TXT"
  /\ artifact_path Scenario.quiet "NOTES.TXT" = "/app/uploads/NOTES.TXT.gz".
Proof.
  destruct (extension_not_in_lower_case_is_kept Scenario.quiet "NOTES.TXT") as [Hfn Hap].
  - vm_compute. reflexivity.
  - vm_compute. discriminate.
  - vm_compute. discriminate.
  - split; [exact Hfn|].
    change (category (fileExt_of "NOTES.TXT")) with Text in Hap.
    rewrite Hap. reflexivity.
Defined.

(** X17. When no unlink is refused, the console tells the failures
    apart from the rest: a request answered with 500 has added one line,
    [Compression Error:] with the error whose message is in the answer,
    and a request answered in any other way has added nothing. *)
Theorem console_holds_the_failures :
  forall (env : Env) (f : UploadedFile) (w : World),
    unlink_fault env (path f) = None ->
    unlink_fault env (artifact_path env (originalname f)) = None ->
    (exists e,
       fst (handler env {| file := Some f |} w)
         = Ret (Json 500 "Compression failed" (Some (err_message e)))
       /\ console (snd (handler env {| file := Some f |} w))
          = (console w ++ [("Compression Error:", e)])%list)
    \/ ((forall error details,
           fst (handler env {| file := Some f |} w) <> Ret (Json 500 error details))
        /\ console (snd (handler env {| file := Some f |} w)) = console w).
Proof.
  intros env f w Hu1 Hu2.
  destruct (handler_cases env f w)
    as [[Hs Hrun] | [[Hc Hrun] | [(w0 & cs & Hs & _ & Hcon & _ & _ & Hrun)
                                | [(e & w0 & cs & Hs & _ & Hcon & _ & _ & Hrun)
                                  | (e & partial & c & Hs & _ & Hrun & _)]]]];
    rewrite Hrun; cbn [fst snd]; unfold unlinked, logged, called; cbn [console];
    rewrite ?Hu1, ?Hu2, ?app_nil_r.
  - right. split; [intros error details H; discriminate H | reflexivity].
  - right. split; [intros error details H; discriminate H | reflexivity].
  - right. split; [|exact Hcon].
    intros error details H. unfold transferred in H. repeat case_match; discriminate H.
  - left. exists e. split; [reflexivity|]. rewrite Hcon. reflexivity.
  - right. split; [intros error details H; discriminate H|].
    destruct partial; reflexivity.
Qed.

(** X17 on the PDF the library rejects. *)
Lemma console_holds_the_failures_witness :
  exists e,
    console (snd (handler Faults.broken_pdf
                    {| file := Some {| path := "/app/uploads/3f9c"; originalname := "a.pdf";
                                       size := 8 |} |}
                    (Scenario.disk [("/app/uploads/3f9c", "%PDF-1.4")])))
    = [("Compression Error:", e)].
Proof.
  destruct (console_holds_the_failures Faults.broken_pdf
              {| path := "/app/uploads/3f9c"; originalname := "a.pdf"; size := 8 |}
              (Scenario.disk [("/app/uploads/3f9c", "%PDF-1.4")]))
    as [(e & Hans & Hcon) | [Hno _]].
  - reflexivity.
  - reflexivity.
  - exists e. exact Hcon.
  - exfalso. eapply Hno. vm_compute. reflexivity.
Defined.
